(** * Signal scoring and risk-managed position bookkeeping

    A shallow embedding of [src/analysis/technical_analyzer.py],
    [src/trading/position_manager.py] and the risk gate and trailing-stop
    watcher of [src/trading/trader.py].

    Numbers.  Python floats are abstracted as exact rationals ([Q]); a
    data-frame cell is a [cell], a rational or NaN ([None]), and every
    ordering test against NaN is false, as in IEEE arithmetic.  Python
    exceptions are values of [exn] carried by the [result] monad. *)

From Stdlib Require Import ZArith QArith Lia.
From stdpp Require Import gmap strings list fin_maps.
From Stdlib Require Import Qround.

Local Open Scope Z_scope.

(** ** Exceptions *)

Inductive exn : Type :=
  | IndexError
  | KeyError (key : string)
  | AttributeError (attr : string)
  | TypeError (what : string)
  | TradeError (msg : string).

Definition result (A : Type) : Type := (exn + A)%type.

Definition ret {A} (a : A) : result A := inr a.
Definition raise {A} (e : exn) : result A := inl e.
Definition bind {A B} (m : result A) (k : A -> result B) : result B :=
  match m with
  | inl e => inl e
  | inr a => k a
  end.

Notation "'let!' x ':=' m 'in' k" := (bind m (fun x => k))
  (at level 10, x name, m at level 100, k at level 200, only parsing).

(** ** Rationals with boolean tests, and NaN-aware cells *)

Definition Qgtb (x y : Q) : bool := negb (Qle_bool x y).

Abbreviation cell := (option Q).

Definition cell_gt (a b : cell) : bool :=
  match a, b with
  | Some x, Some y => Qgtb x y
  | _, _ => false
  end.

Definition cell_lt (a b : cell) : bool := cell_gt b a.

Definition cell_le (a b : cell) : bool :=
  match a, b with
  | Some x, Some y => Qle_bool x y
  | _, _ => false
  end.

(** Positional access [xs.iloc[-k]], k >= 1, counted from the end. *)
Definition iloc_back {A} (xs : list A) (k : nat) : result A :=
  match k with
  | O => raise IndexError
  | S j => match rev xs !! j with
           | Some a => ret a
           | None => raise IndexError
           end
  end.

(** ** technical_analyzer.py *)

Module TechnicalAnalyzer.

(** The columns of an indicator row that [generate_signal] reads. *)
Record Row : Type := mkRow {
  Close : cell;
  Volume : cell;
  SMA_20 : cell;
  SMA_50 : cell;
  EMA_9 : cell;
  RSI : cell;
  MACD : cell;
  MACD_Signal : cell;
  BB_Middle : cell;
  Volume_SMA : cell
}.

(** A row none of whose cells is NaN. *)
Definition defined_row (close volume sma_20 sma_50 ema_9 rsi macd macd_signal
    bb_middle volume_sma : Q) : Row :=
  mkRow (Some close) (Some volume) (Some sma_20) (Some sma_50) (Some ema_9)
    (Some rsi) (Some macd) (Some macd_signal) (Some bb_middle) (Some volume_sma).

(** A row of which only the close is known. *)
Definition close_only (close : Q) : Row :=
  mkRow (Some close) None None None None None None None None None.

Record Signal : Type := mkSignal {
  direction : Z;
  strength : Q;
  buy_signals : Z;
  sell_signals : Z
}.

(** The two running counters of the scoring loop. *)
Record tally : Type := mkTally { buys : Z; sells : Z }.

Definition buy (t : tally) : tally := mkTally (buys t + 1) (sells t).
Definition sell (t : tally) : tally := mkTally (buys t) (sells t + 1).

Definition total_signals : Z := 7.

(** Casting one ballot into the running counters, and the counters after
    a list of ballots. *)
Definition cast (b : bool) (t : tally) : tally := if b then buy t else sell t.
Definition tally_of (bs : list bool) : tally :=
  foldl (fun t b => cast b t) (mkTally 0 0) bs.

Definition trend_ema (r : Row) (t : tally) : tally :=
  if cell_gt (EMA_9 r) (SMA_20 r) then buy t else sell t.

Definition trend_sma (r : Row) (t : tally) : tally :=
  if cell_gt (SMA_20 r) (SMA_50 r) then buy t else sell t.

Definition momentum (r : Row) (t : tally) : tally :=
  if cell_le (Some 30%Q) (RSI r) && cell_le (RSI r) (Some 70%Q) then
    if cell_gt (RSI r) (Some 50%Q) then buy t else sell t
  else if cell_lt (RSI r) (Some 30%Q) then buy t
  else sell t.

Definition macd (r : Row) (t : tally) : tally :=
  if cell_gt (MACD r) (MACD_Signal r) then buy t else sell t.

Definition volatility (r : Row) (t : tally) : tally :=
  if cell_gt (Close r) (BB_Middle r) then buy t else sell t.

Definition volume (data : list Row) (r : Row) (t : tally) : result tally :=
  if cell_gt (Volume r) (Volume_SMA r) then
    let! prev := iloc_back data 2 in
    ret (if cell_gt (Close r) (Close prev) then buy t else sell t)
  else ret t.

Definition make_signal (t : tally) : Signal :=
  let strength := (inject_Z (Z.max (buys t) (sells t)) / inject_Z total_signals)%Q in
  mkSignal
    (if buys t >? sells t then 1 else if sells t >? buys t then -1 else 0)
    strength (buys t) (sells t).

Definition generate_signal (data : list Row) : result Signal :=
  let! last_row := iloc_back data 1 in
  let t := mkTally 0 0 in
  let t := trend_ema last_row t in
  let t := trend_sma last_row t in
  let t := momentum last_row t in
  let t := macd last_row t in
  let t := volatility last_row t in
  let! t := volume data last_row t in
  ret (make_signal t).

(** One price bar, as [calculate_supertrend] reads it. *)
Record Bar : Type := mkBar { High : cell; Low : cell; BarClose : cell }.

(** Cell arithmetic: NaN propagates. *)
Definition cell_map2 (f : Q -> Q -> Q) (a b : cell) : cell :=
  match a, b with
  | Some x, Some y => Some (f x y)
  | _, _ => None
  end.

Definition cell_map1 (f : Q -> Q) (a : cell) : cell :=
  match a with
  | Some x => Some (f x)
  | None => None
  end.

Definition series_add (a b : list cell) : list cell := zip_with (cell_map2 Qplus) a b.
Definition series_sub (a b : list cell) : list cell := zip_with (cell_map2 Qminus) a b.
Definition series_scale (k : Q) (a : list cell) : list cell :=
  map (cell_map1 (Qmult k)) a.
Definition series_div (a : list cell) (k : Q) : list cell :=
  map (cell_map1 (fun x => x / k)%Q) a.

Section Supertrend.

(** [talib.ATR(high, low, close, timeperiod)] is a library routine; it
    returns one cell per bar, NaN during its warm-up. *)
Variable ATR : list cell -> list cell -> list cell -> Z -> list cell.

Definition hl2 (data : list Bar) : list cell :=
  series_div (series_add (High <$> data) (Low <$> data)) 2.

Definition atr_of (data : list Bar) (period : Z) : list cell :=
  ATR (High <$> data) (Low <$> data) (BarClose <$> data) period.

Definition basic_upperband (data : list Bar) (period : Z) (multiplier : Q) : list cell :=
  series_add (hl2 data) (series_scale multiplier (atr_of data period)).

Definition basic_lowerband (data : list Bar) (period : Z) (multiplier : Q) : list cell :=
  series_sub (hl2 data) (series_scale multiplier (atr_of data period)).

(** The two series the loop fills in.  [supertrend] starts as all NaN;
    an unset [direction] entry is [None]. *)
Record st_state : Type := mkSt {
  supertrend : list cell;
  direction_series : list (option Z)
}.

(** The body of [for i in range(1, len(data.index))]. *)
Definition supertrend_step (close upper lower : list cell) (s : st_state) (i : nat)
  : st_state :=
  if cell_gt (close !!! i) (upper !!! (i - 1)%nat) then
    mkSt (<[i := lower !!! i]> (supertrend s)) (<[i := Some 1]> (direction_series s))
  else if cell_lt (close !!! i) (lower !!! (i - 1)%nat) then
    mkSt (<[i := upper !!! i]> (supertrend s)) (<[i := Some (-1)]> (direction_series s))
  else
    mkSt (<[i := supertrend s !!! (i - 1)%nat]> (supertrend s))
         (<[i := direction_series s !!! (i - 1)%nat]> (direction_series s)).

Definition supertrend_loop (data : list Bar) (period : Z) (multiplier : Q) : st_state :=
  let n := length data in
  foldl (supertrend_step (BarClose <$> data)
                         (basic_upperband data period multiplier)
                         (basic_lowerband data period multiplier))
        (mkSt (replicate n None) (replicate n None))
        (seq 1 (n - 1)).

Definition calculate_supertrend (data : list Bar) (period : Z) (multiplier : Q)
  : list cell :=
  supertrend (supertrend_loop data period multiplier).

End Supertrend.

End TechnicalAnalyzer.

(** ** config.py *)

Record Settings : Type := mkSettings {
  MIN_SIGNAL_STRENGTH : Q;
  MAX_POSITION_SIZE : Z;
  MARKET_OPEN_HOUR : Z;
  MARKET_CLOSE_HOUR : Z;
  SCAN_INTERVAL : Z;
  MAX_DAILY_LOSS_PERCENT : Q;
  MAX_POSITION_SIZE_PERCENT : Q
}.

(** The defaults of [class Settings]; an environment file may override them. *)
Definition settings : Settings :=
  mkSettings (7 # 10) 100 9 15 5 1 5.

(** A [datetime] is a count of seconds; [.date()] is its day number. *)
Definition date_of (now : Z) : Z := now / 86400.

(** ** position_manager.py *)

Module PositionManager.

(** A position dictionary.  [add_position] writes the first three keys;
    [update_position_values] adds the marks; ['stop_loss'] and ['target']
    are read by the trader and written by no method of the ledger. *)
Record Position : Type := mkPosition {
  entry_price : Q;
  quantity : Z;
  entry_time : Z;
  current_price : option Q;
  unrealized_pnl : option Q;
  stop_loss : option Q;
  target : option Q
}.

(** A row handed to [db_manager.record_trade]. *)
Record TradeRecord : Type := mkTradeRecord {
  tr_symbol : string;
  tr_entry_price : Q;
  tr_exit_price : option Q;
  tr_quantity : Z;
  tr_trade_type : string;
  tr_entry_time : Z;
  tr_exit_time : option Z;
  tr_pnl : option Q
}.

(** The ledger, together with the rows it has sent to the record sink. *)
Record t : Type := mk {
  positions : gmap string Position;
  daily_pnl : Q;
  last_reset : Z;
  recorded : list TradeRecord
}.

Definition init (now : Z) : t := mk ∅ 0 (date_of now) [].

Definition reset_daily_metrics (now : Z) (self : t) : t :=
  let current_date := date_of now in
  if last_reset self <? current_date then
    mk (positions self) 0 current_date (recorded self)
  else self.

Section WithSettings.

Variable cfg : Settings.

Definition can_trade (now : Z) (portfolio_value : Q) (self : t) : bool * t :=
  let self := reset_daily_metrics now self in
  let max_daily_loss := (portfolio_value * (MAX_DAILY_LOSS_PERCENT cfg / 100))%Q in
  (Qgtb (daily_pnl self) (- max_daily_loss), self).

End WithSettings.

Definition add_position (now : Z) (symbol : string) (entry_price : Q) (quantity : Z)
    (self : t) : t :=
  mk (<[symbol := mkPosition entry_price quantity now None None None None]>
        (positions self))
     (daily_pnl self)
     (last_reset self)
     (recorded self ++
        [mkTradeRecord symbol entry_price None quantity "BUY" now None None]).

Definition close_position (now : Z) (symbol : string) (exit_price : Q) (self : t)
  : Q * t :=
  match positions self !! symbol with
  | Some position =>
      let pnl := ((exit_price - entry_price position)
                  * inject_Z (quantity position))%Q in
      (pnl,
       mk (delete symbol (positions self))
          (daily_pnl self + pnl)%Q
          (last_reset self)
          (recorded self ++
             [mkTradeRecord symbol (entry_price position) (Some exit_price)
                (quantity position) "SELL" (entry_time position) (Some now)
                (Some pnl)]))
  | None => (0%Q, self)
  end.

Definition get_active_positions (self : t) : gmap string Position := positions self.

Definition mark (current_price upnl : Q) (position : Position) : Position :=
  mkPosition (entry_price position) (quantity position) (entry_time position)
    (Some current_price) (Some upnl) (stop_loss position) (target position).

(** The body of the loop over [self.positions.items()]: the accumulator is
    the running total and the dictionary whose values are updated in place. *)
Definition mark_step (current_prices : gmap string Q) (symbol : string)
    (position : Position) (acc : Q * gmap string Position)
  : Q * gmap string Position :=
  match current_prices !! symbol with
  | Some current_price =>
      let upnl := ((current_price - entry_price position)
                   * inject_Z (quantity position))%Q in
      ((acc.1 + upnl)%Q, <[symbol := mark current_price upnl position]> acc.2)
  | None => acc
  end.

(** The loop visits every position once; the order of the visits does not
    affect the dictionary it leaves, nor the total up to equality of
    rationals. *)
Definition update_position_values (current_prices : gmap string Q) (self : t)
  : Q * t :=
  let r := map_fold (mark_step current_prices) (0%Q, positions self) (positions self) in
  (r.1, mk r.2 (daily_pnl self) (last_reset self) (recorded self)).

(** The sum of a quantity over the positions of a ledger. *)
Definition map_sum (f : string -> Position -> Q) (ps : gmap string Position) : Q :=
  map_fold (fun symbol p acc => (acc + f symbol p)%Q) 0%Q ps.

(** [sum(p.get('unrealized_pnl', 0) for p in positions.values())], the total
    that [main.py] reports for the open positions. *)
Definition total_unrealized (ps : gmap string Position) : Q :=
  map_sum (fun _ p => default 0%Q (unrealized_pnl p)) ps.

(** The unrealized P&L a price map assigns to a position: that of its
    quote, and nothing for a symbol it does not quote. *)
Definition fresh_pnl (current_prices : gmap string Q) (symbol : string)
    (p : Position) : Q :=
  match current_prices !! symbol with
  | Some current_price =>
      ((current_price - entry_price p) * inject_Z (quantity p))%Q
  | None => 0%Q
  end.

(** The unrealized P&L stored on the positions a price map quotes. *)
Definition quoted_unrealized (current_prices : gmap string Q)
    (ps : gmap string Position) : Q :=
  map_sum (fun symbol p => match current_prices !! symbol with
                           | Some _ => default 0%Q (unrealized_pnl p)
                           | None => 0%Q
                           end) ps.

(** The position as [update_position_values] leaves it. *)
Definition remark (current_prices : gmap string Q) (symbol : string)
    (p : Position) : Position :=
  match current_prices !! symbol with
  | Some current_price =>
      mark current_price
        ((current_price - entry_price p) * inject_Z (quantity p))%Q p
  | None => p
  end.

End PositionManager.

(** ** trader.py *)

Module Trader.

Import PositionManager.

Inductive log_entry : Type :=
  | InvalidTradeType (trade_type : string)
  | QuantityMustBePositive
  | NoPositionFound (symbol : string)
  | InsufficientQuantity (symbol : string)
  | TradeValidationFailed (e : exn)
  | TradeValueExceedsMax (trade_value max_trade_value : Q)
  | DailyLossLimitReached
  | MaximumExposureLimitReached
  | RiskCheckFailed (e : exn)
  | SuccessfullyExecuted (trade_type symbol : string)
  | TradeExecutionFailed (e : exn)
  | UpdatedTrailingStop (symbol : string) (new_stop : Q)
  | ExitTriggered (symbol : string) (current_price : Q)
  | FailedToUpdateTrailingStops (e : exn).

(** The trader object and the lines it has written to the logger. *)
Record t : Type := mk {
  position_manager : PositionManager.t;
  is_active : bool;
  portfolio_value : Q;
  risk_per_trade : Q;
  trailing_sl_percent : Q;
  target_profit_percent : Q;
  logged : list log_entry
}.

Definition init (now : Z) : t :=
  mk (PositionManager.init now) false 0 (2 # 100) (2 # 100) (3 # 100) [].

Definition with_position_manager (pm : PositionManager.t) (self : t) : t :=
  mk pm (is_active self) (portfolio_value self) (risk_per_trade self)
     (trailing_sl_percent self) (target_profit_percent self) (logged self).

Definition with_log (e : log_entry) (self : t) : t :=
  mk (position_manager self) (is_active self) (portfolio_value self)
     (risk_per_trade self) (trailing_sl_percent self) (target_profit_percent self)
     (logged self ++ [e]).

(** Methods run in a state monad over the trader; a raised exception
    keeps the state reached so far. *)
Definition M (A : Type) : Type := t -> result A * t.

Definition mret {A} (a : A) : M A := fun s => (inr a, s).
Definition mraise {A} (e : exn) : M A := fun s => (inl e, s).
Definition mbind {A B} (m : M A) (k : A -> M B) : M B :=
  fun s => match m s with
           | (inl e, s') => (inl e, s')
           | (inr a, s') => k a s'
           end.
Definition get : M t := fun s => (inr s, s).
Definition lift {A} (r : result A) : M A := fun s => (r, s).
Definition log (e : log_entry) : M unit := fun s => (inr tt, with_log e s).
Definition try_except {A} (body : M A) (handler : exn -> M A) : M A :=
  fun s => match body s with
           | (inl e, s') => handler e s'
           | (inr a, s') => (inr a, s')
           end.

Notation "'let*' x ':=' m 'in' k" := (mbind m (fun x => k))
  (at level 10, x name, m at level 100, k at level 200, only parsing).
Notation "m1 ';;;' m2" := (mbind m1 (fun _ => m2))
  (at level 100, m2 at level 200, right associativity, only parsing).

Fixpoint for_each {A} (xs : list A) (body : A -> M unit) : M unit :=
  match xs with
  | [] => mret tt
  | x :: rest => body x ;;; for_each rest body
  end.

(** [position[key]] on a key the dictionary may lack. *)
Definition getitem {A} (key : string) (field : option A) : result A :=
  match field with
  | Some v => ret v
  | None => raise (KeyError key)
  end.

(** [class PositionManager] defines no [get_position], [get_total_exposure]
    or [update_stop_loss], and [add_position] takes no keyword [stop_loss]:
    each of these calls raises before it touches the ledger. *)
Definition get_position (symbol : string) : M (option Position) :=
  mraise (AttributeError "get_position").
Definition get_total_exposure : M Q :=
  mraise (AttributeError "get_total_exposure").
Definition update_stop_loss (symbol : string) (new_stop : Q) : M unit :=
  mraise (AttributeError "update_stop_loss").
Definition add_position_with_stops (symbol : string) (price : Q) (quantity : Z)
    (stop_loss target : Q) : M unit :=
  mraise (TypeError "add_position() got an unexpected keyword argument 'stop_loss'").

(** What [GrowwAutomation.execute_trade] returns on success. *)
Record TradeResult : Type := mkTradeResult {
  status : string;
  price : Q
}.

Section WithEnvironment.

Variable cfg : Settings.
(** [GrowwAutomation.get_stock_price] and [GrowwAutomation.execute_trade]:
    browser automation, which answers or raises. *)
Variable get_stock_price : string -> result Q.
Variable automation_execute_trade : string -> Z -> string -> result TradeResult.

Definition _validate_trade (symbol trade_type : string) (quantity : Z) : M bool :=
  try_except
    (if negb (bool_decide (trade_type = "BUY") || bool_decide (trade_type = "SELL")) then
       log (InvalidTradeType trade_type) ;;; mret false
     else if quantity <=? 0 then
       log QuantityMustBePositive ;;; mret false
     else if bool_decide (trade_type = "SELL") then
       let* position := get_position symbol in
       match position with
       | None => log (NoPositionFound symbol) ;;; mret false
       | Some p =>
           if PositionManager.quantity p <? quantity then
             log (InsufficientQuantity symbol) ;;; mret false
           else mret true
       end
     else mret true)
    (fun e => log (TradeValidationFailed e) ;;; mret false).

Definition _check_risk_limits (now : Z) (trade_value : Q) : M bool :=
  try_except
    (let* self := get in
     let max_trade_value := (portfolio_value self * risk_per_trade self)%Q in
     if Qgtb trade_value max_trade_value then
       log (TradeValueExceedsMax trade_value max_trade_value) ;;; mret false
     else
       let* allowed :=
         (fun s =>
            let r := can_trade cfg now (portfolio_value s) (position_manager s) in
            (inr r.1, with_position_manager r.2 s)) in
       if negb allowed then
         log DailyLossLimitReached ;;; mret false
       else
         let* current_exposure := get_total_exposure in
         let* self := get in
         let max_exposure :=
           (portfolio_value self * MAX_POSITION_SIZE_PERCENT cfg / 100)%Q in
         if Qgtb (current_exposure + trade_value) max_exposure then
           log MaximumExposureLimitReached ;;; mret false
         else mret true)
    (fun e => log (RiskCheckFailed e) ;;; mret false).

Definition execute_trade (now : Z) (symbol trade_type : string) (quantity : Z)
  : M TradeResult :=
  try_except
    (let* self := get in
     if negb (is_active self) then mraise (TradeError "Trader is not active")
     else
       let* valid := _validate_trade symbol trade_type quantity in
       if negb valid then mraise (TradeError "Trade validation failed")
       else
         let* current_price := lift (get_stock_price symbol) in
         let trade_value := (current_price * inject_Z quantity)%Q in
         let* within := _check_risk_limits now trade_value in
         if negb within then mraise (TradeError "Trade exceeds risk limits")
         else
           let* trade_result :=
             lift (automation_execute_trade symbol quantity trade_type) in
           if bool_decide (status trade_result = "success") then
             (if bool_decide (trade_type = "BUY") then
                let* self := get in
                add_position_with_stops symbol (price trade_result) quantity
                  (price trade_result * (1 - trailing_sl_percent self))%Q
                  (price trade_result * (1 + target_profit_percent self))%Q
              else
                fun s =>
                  let r := close_position now symbol (price trade_result)
                             (position_manager s) in
                  (inr tt, with_position_manager r.2 s)) ;;;
             log (SuccessfullyExecuted trade_type symbol) ;;;
             mret trade_result
           else mraise (TradeError "Trade execution failed"))
    (fun e => log (TradeExecutionFailed e) ;;; mraise e).

(** The body of [for symbol, position in positions.items()]. *)
Definition trailing_stop_body (now : Z) (item : string * Position) : M unit :=
  let '(symbol, position) := item in
  let* current_price := lift (get_stock_price symbol) in
  let* self := get in
  (if Qgtb current_price (entry_price position) then
     let new_stop := (current_price * (1 - trailing_sl_percent self))%Q in
     let* old_stop := lift (getitem "stop_loss" (stop_loss position)) in
     if Qgtb new_stop old_stop then
       update_stop_loss symbol new_stop ;;;
       log (UpdatedTrailingStop symbol new_stop)
     else mret tt
   else mret tt) ;;;
  let* stop := lift (getitem "stop_loss" (stop_loss position)) in
  let* hit :=
    (if Qle_bool current_price stop then mret true
     else let* tgt := lift (getitem "target" (target position)) in
          mret (Qle_bool tgt current_price)) in
  if (hit : bool) then
    let* _ := execute_trade now symbol "SELL" (quantity position) in
    log (ExitTriggered symbol current_price)
  else mret tt.

(** The loop runs over the items of the dictionary as they stood when it
    started and stops at the first exception. *)
Definition update_trailing_stops (now : Z) : M unit :=
  try_except
    (let* self := get in
     let positions := get_active_positions (position_manager self) in
     for_each (map_to_list positions) (trailing_stop_body now))
    (fun e => log (FailedToUpdateTrailingStops e)).

End WithEnvironment.

End Trader.

(** ** The vote of the signal scorer, as the specification words it *)

Module VoteSpec.

Import TechnicalAnalyzer.

Definition trend1_buys (r : Row) : bool := cell_gt (EMA_9 r) (SMA_20 r).
Definition trend2_buys (r : Row) : bool := cell_gt (SMA_20 r) (SMA_50 r).
Definition momentum_buys (r : Row) : bool :=
  (cell_le (Some 30%Q) (RSI r) && cell_le (RSI r) (Some 70%Q)
   && cell_gt (RSI r) (Some 50%Q))
  || cell_lt (RSI r) (Some 30%Q).
Definition macd_buys (r : Row) : bool := cell_gt (MACD r) (MACD_Signal r).
Definition volatility_buys (r : Row) : bool := cell_gt (Close r) (BB_Middle r).
Definition volume_cast (r : Row) : bool := cell_gt (Volume r) (Volume_SMA r).
Definition volume_buys (r : Row) (prev_close : cell) : bool :=
  cell_gt (Close r) prev_close.

(** One ballot per category, [true] for buy; the volume ballot only when cast. *)
Definition ballots (r : Row) (prev_close : cell) : list bool :=
  [trend1_buys r; trend2_buys r; momentum_buys r; macd_buys r; volatility_buys r]
  ++ (if volume_cast r then [volume_buys r prev_close] else []).

Definition count_votes (side : bool) (bs : list bool) : Z :=
  Z.of_nat (length (filter (fun b => b = side) bs)).

Definition buy_votes (r : Row) (prev_close : cell) : Z :=
  count_votes true (ballots r prev_close).
Definition sell_votes (r : Row) (prev_close : cell) : Z :=
  count_votes false (ballots r prev_close).

Definition vote_direction (b s : Z) : Z :=
  match b ?= s with
  | Gt => 1
  | Lt => -1
  | Eq => 0
  end.

Definition vote_signal (r : Row) (prev_close : cell) : Signal :=
  let b := buy_votes r prev_close in
  let s := sell_votes r prev_close in
  mkSignal (vote_direction b s) (inject_Z (Z.max b s) / 7)%Q b s.

End VoteSpec.

(** [signal['strength'] >= settings.MIN_SIGNAL_STRENGTH], the test a signal
    passes in [main.py] before its direction is looked at. *)
Definition strength_clears (cfg : Settings) (sig : TechnicalAnalyzer.Signal) : bool :=
  Qle_bool (MIN_SIGNAL_STRENGTH cfg) (TechnicalAnalyzer.strength sig).

(** ** Concrete inputs used by the examples below *)

Module Examples.

Import TechnicalAnalyzer.

(** An ATR that has settled at 1 on every bar. *)
Definition flat_atr (h l c : list cell) (period : Z) : list cell :=
  map (fun _ => Some 1%Q) h.

Definition bar (high low close : Q) : Bar := mkBar (Some high) (Some low) (Some close).

(** A breakout on the second bar, then a close inside the bands. *)
Definition three_bars : list Bar := [bar 11 9 10; bar 21 19 20; bar 21 19 18].

(** Ten shares of AAA bought at 100. *)
Definition aaa : PositionManager.Position :=
  PositionManager.mkPosition 100 10 0 None None None None.

(** A ledger holding [aaa], with the given realized P&L for day 0. *)
Definition ledger_with_aaa (pnl : Q) : PositionManager.t :=
  PositionManager.mk {[ "AAA" := aaa ]} pnl 0 [].

(** A ledger whose AAA carries an earlier mark (105, unrealized 50) and
    whose BBB, one share bought at 10, has never been marked. *)
Definition stale_ledger : PositionManager.t :=
  PositionManager.mk
    {[ "AAA" := PositionManager.mkPosition 100 10 0 (Some 105%Q) (Some 50%Q) None None;
       "BBB" := PositionManager.mkPosition 10 1 0 None None None None ]}
    0 0 [].

(** A price map that quotes BBB only. *)
Definition bbb_quote : gmap string Q := {[ "BBB" := 12%Q ]}.

(** An active trader with a portfolio of 100000 whose ledger was last
    reset on day 0 with a realized loss of 5000, holding 45 shares of BBB
    bought at 100 (an exposure of 4500). *)
Definition yesterdays_trader : Trader.t :=
  Trader.mk
    (PositionManager.mk
       {[ "BBB" := PositionManager.mkPosition 100 45 0 None None None None ]}
       (-5000) 0 [])
    true 100000 (2 # 100) (2 # 100) (3 # 100) [].

(** An active trader holding [aaa] with a stop at 98 and a target at 200. *)
Definition trailing_trader : Trader.t :=
  Trader.mk
    (PositionManager.mk
       {[ "AAA" := PositionManager.mkPosition 100 10 0 None None
                     (Some 98%Q) (Some 200%Q) ]}
       0 0 [])
    true 100000 (2 # 100) (2 # 100) (3 # 100) [].

(** A market that quotes every symbol at the given price, and a venue that
    fills every order at 120. *)
Definition quote_all (price : Q) (symbol : string) : result Q := inr price.
Definition fill_all (symbol : string) (quantity : Z) (trade_type : string)
  : result Trader.TradeResult :=
  inr (Trader.mkTradeResult "success" 120).

(** A clock reading on day 0, and one on day 1. *)
Definition noon : Z := 43200.
Definition next_noon : Z := 129600.

End Examples.

(** ** Breaches of the prior Supertrend bands *)

Module SupertrendSpec.

(** The close of bar [j] lies strictly above the upper band of bar [j-1]. *)
Definition breaks_up (close upper : list cell) (j : nat) : bool :=
  cell_gt (close !!! j) (upper !!! (j - 1)%nat).

(** It does not, and lies strictly below the lower band of bar [j-1]. *)
Definition breaks_down (close upper lower : list cell) (j : nat) : bool :=
  negb (breaks_up close upper j) && cell_lt (close !!! j) (lower !!! (j - 1)%nat).

Definition breach (close upper lower : list cell) (j : nat) : bool :=
  breaks_up close upper j || breaks_down close upper lower j.

(** The band value the line is put on by a breach at bar [j]. *)
Definition band_at_breach (close upper lower : list cell) (j : nat) : cell :=
  if breaks_up close upper j then lower !!! j else upper !!! j.

End SupertrendSpec.

(** ** Further concrete inputs *)

Module MoreExamples.

Import TechnicalAnalyzer.

(** An ATR that is NaN on the first two bars and 1 afterwards. *)
Definition warming_atr (h l c : list cell) (period : Z) : list cell :=
  imap (fun i _ => if (i <? 2)%nat then None else Some 1%Q) h.

(** Four bars with a steep rise. *)
Definition rising_bars : list Bar :=
  [Examples.bar 11 9 10; Examples.bar 21 19 20; Examples.bar 41 39 40;
   Examples.bar 81 79 80].

End MoreExamples.

(** ** Interpreter exceptions, integer conversion, wall clock *)

(** Exceptions of the interpreter itself, beside those of [exn]. *)
Inductive pyexn : Type :=
  | Raised (e : exn)
  | ZeroDivisionError
  | RuntimeError (msg : string).

Definition pyresult (A : Type) : Type := (pyexn + A)%type.

(** [int(x)] on a float: truncation towards zero. *)
Definition py_int (x : Q) : Z := Z.quot (Qnum x) (Zpos (Qden x)).

(** [x / y] on floats: a zero divisor raises.  (On the floats of a data
    frame the quotient is infinite instead and it is the conversion to an
    integer that raises; the callers below catch either.) *)
Definition py_div (x y : Q) : pyresult Q :=
  if Qeq_bool y 0 then inl ZeroDivisionError else inr (x / y)%Q.

(** The fields of [datetime.now()] the code reads; day 0 was a Thursday
    and [weekday()] counts from Monday. *)
Definition hour_of (now : Z) : Z := (now mod 86400) / 3600.

(** ** market_analyzer.py: [is_market_open] *)

Module MarketAnalyzer.


End MarketAnalyzer.

(** ** technical_analyzer.py: the volume average *)

Module Rolling.

(** The [w] cells ending at index [i]. *)
Definition window_at (w : nat) (xs : list cell) (i : nat) : list cell :=
  take w (drop (S i - w)%nat xs).

Definition cell_sum (ws : list cell) : cell :=
  foldr (fun c acc => match c, acc with
                      | Some x, Some a => Some (x + a)%Q
                      | _, _ => None
                      end) (Some 0%Q) ws.

(** [series.rolling(window=w).mean()]: NaN until [w] cells are available
    and whenever the window holds a NaN, their mean otherwise. *)
Definition rolling_mean (w : nat) (xs : list cell) : list cell :=
  imap (fun i _ =>
          if (S i <? w)%nat then None
          else match cell_sum (window_at w xs i) with
               | Some total => Some (total / inject_Z (Z.of_nat w))%Q
               | None => None
               end) xs.

(** [df['Volume_SMA'] = df['Volume'].rolling(window=20).mean()] *)
Definition Volume_SMA (volume : list cell) : list cell := rolling_mean 20 volume.

End Rolling.

(** ** position_manager.py and trader.py: position sizing *)

Module PositionSizing.

(** [PositionManager.calculate_position_size] *)
Definition calculate_position_size (cfg : Settings) (portfolio_value current_price : Q)
  : pyresult Z :=
  let max_position_value :=
    (portfolio_value * (MAX_POSITION_SIZE_PERCENT cfg / 100))%Q in
  match py_div max_position_value current_price with
  | inl e => inl e
  | inr ratio => inr (py_int ratio)
  end.

End PositionSizing.

Module TraderSizing.

(** The lines [Trader.calculate_position_size] writes to the logger. *)
Inductive sizing_log : Type :=
  | CalculatedQuantityTooSmall
  | PositionSizeCalculationFailed (e : pyexn).

(** [Trader.calculate_position_size]: the quantity and the lines logged. *)
Definition calculate_position_size (self : Trader.t) (current_price : Q)
  : Z * list sizing_log :=
  let risk_amount := (Trader.portfolio_value self * Trader.risk_per_trade self)%Q in
  match py_div risk_amount current_price with
  | inl e => (0, [PositionSizeCalculationFailed e])
  | inr ratio =>
      let max_quantity := py_int ratio in
      if max_quantity <? 1 then (0, [CalculatedQuantityTooSmall])
      else (max_quantity, [])
  end.

End TraderSizing.

(** What a position holds, its marks aside. *)
Definition holding (p : PositionManager.Position) : Q * Z * Z :=
  (PositionManager.entry_price p, PositionManager.quantity p,
   PositionManager.entry_time p).

(** ** main.py: the trading system *)

Module TradingSystem.

Import PositionManager.

Inductive log_line : Type :=
  | TradingSystemStopped
  | FailedToClosePosition (symbol : string) (e : pyexn)
  | MarketTooVolatile (vix : Q)
  | DailyLossLimitReached
  | ErrorInTradingLoop (e : pyexn)
  | OpenedPosition (symbol : string) (quantity : Z) (price : Q)
  | ClosedPosition (symbol : string) (pnl : Q)
  | FailedToProcessSignals (symbol : string) (e : pyexn).

(** The two entries of the dictionary returned by [analyze_stock] that the
    trading system reads. *)
Record Analysis : Type := mkAnalysis {
  signal : TechnicalAnalyzer.Signal;
  current_price : Q
}.

(** The trading system and the lines it has written to the logger. *)
Record t : Type := mk {
  position_manager : PositionManager.t;
  is_trading : bool;
  watched_symbols : list string;
  portfolio_value : Q;
  logged : list log_line
}.

Definition with_position_manager (pm : PositionManager.t) (self : t) : t :=
  mk pm (is_trading self) (watched_symbols self) (portfolio_value self) (logged self).

Definition with_is_trading (b : bool) (self : t) : t :=
  mk (position_manager self) b (watched_symbols self) (portfolio_value self)
     (logged self).

Definition with_log (e : log_line) (self : t) : t :=
  mk (position_manager self) (is_trading self) (watched_symbols self)
     (portfolio_value self) (logged self ++ [e]).

Definition M (A : Type) : Type := t -> pyresult A * t.

Definition mret {A} (a : A) : M A := fun s => (inr a, s).
Definition mraise {A} (e : pyexn) : M A := fun s => (inl e, s).
Definition mbind {A B} (m : M A) (k : A -> M B) : M B :=
  fun s => match m s with
           | (inl e, s') => (inl e, s')
           | (inr a, s') => k a s'
           end.
Definition get : M t := fun s => (inr s, s).
Definition lift {A} (r : pyresult A) : M A := fun s => (r, s).
(** A call into a collaborator that answers or raises. *)
Definition call {A} (r : result A) : M A :=
  fun s => (match r with inl e => inl (Raised e) | inr a => inr a end, s).
Definition log (e : log_line) : M unit := fun s => (inr tt, with_log e s).
Definition try_except {A} (body : M A) (handler : pyexn -> M A) : M A :=
  fun s => match body s with
           | (inl e, s') => handler e s'
           | (inr a, s') => (inr a, s')
           end.

Notation "'let*' x ':=' m 'in' k" := (mbind m (fun x => k))
  (at level 10, x name, m at level 100, k at level 200, only parsing).
Notation "m1 ';;;' m2" := (mbind m1 (fun _ => m2))
  (at level 100, m2 at level 200, right associativity, only parsing).

Fixpoint for_each {A} (xs : list A) (body : A -> M unit) : M unit :=
  match xs with
  | [] => mret tt
  | x :: rest => body x ;;; for_each rest body
  end.

(** What the iterator of a dictionary raises when the dictionary has
    gained or lost a key since the loop began. *)
Definition changed_size : pyexn :=
  RuntimeError "dictionary changed size during iteration".

(** [symbol in self.position_manager.positions] *)
Definition holds (symbol : string) (self : t) : bool :=
  bool_decide (is_Some (positions (position_manager self) !! symbol)).

(** [self.position_manager.positions[symbol]] *)
Definition position_of (symbol : string) : M Position :=
  fun s => (match positions (position_manager s) !! symbol with
            | Some p => inr p
            | None => inl (Raised (KeyError symbol))
            end, s).

Section WithEnvironment.

Variable cfg : Settings.
(** The collaborators, as they answer at a given clock reading:
    [GrowwAutomation.execute_trade] and [get_stock_price],
    [MarketAnalyzer.analyze_stock], and the ['india_vix'] entry of
    [MarketAnalyzer.get_market_context] ([None] when it is absent or NaN). *)
Variable execute_trade : Z -> string -> Z -> string -> result Trader.TradeResult.
Variable get_stock_price : Z -> string -> result Q.
Variable analyze_stock : Z -> string -> result Analysis.
Variable india_vix : Z -> cell.

Definition process_signals (now : Z) (symbol : string) (analysis : Analysis) : M unit :=
  try_except
    (let signal := signal analysis in
     let current_price := current_price analysis in
     if strength_clears cfg signal then
       let* self := get in
       if (TechnicalAnalyzer.direction signal =? 1) && negb (holds symbol self) then
         let* quantity :=
           lift (PositionSizing.calculate_position_size cfg (portfolio_value self)
                   current_price) in
         if 0 <? quantity then
           let* trade := call (execute_trade now symbol quantity "BUY") in
           if bool_decide (Trader.status trade = "success") then
             (fun s => (inr tt,
                        with_position_manager
                          (add_position now symbol current_price quantity
                             (position_manager s)) s)) ;;;
             log (OpenedPosition symbol quantity current_price)
           else mret tt
         else mret tt
       else if (TechnicalAnalyzer.direction signal =? -1) && holds symbol self then
         let* position := position_of symbol in
         let* trade := call (execute_trade now symbol (quantity position) "SELL") in
         if bool_decide (Trader.status trade = "success") then
           let* pnl :=
             (fun s => let r := close_position now symbol current_price
                                  (position_manager s) in
                       (inr r.1, with_position_manager r.2 s)) in
           log (ClosedPosition symbol pnl)
         else mret tt
       else mret tt
     else mret tt)
    (fun e => log (FailedToProcessSignals symbol e)).

(** [current_time.hour >= MARKET_OPEN_HOUR and current_time.hour < MARKET_CLOSE_HOUR] *)
Definition in_market_hours (now : Z) : bool :=
  (MARKET_OPEN_HOUR cfg <=? hour_of now) && (hour_of now <? MARKET_CLOSE_HOUR cfg).

(** The body of [for symbol in self.watched_symbols], past the
    volatility test. *)
Definition scan_quiet_market (now : Z) (symbol : string) : M unit :=
  let* analysis := call (analyze_stock now symbol) in
  let* allowed :=
    (fun s => let r := can_trade cfg now (portfolio_value s) (position_manager s) in
              (inr r.1, with_position_manager r.2 s)) in
  (if (allowed : bool) then process_signals now symbol analysis
   else log DailyLossLimitReached) ;;;
  let* self := get in
  if holds symbol self then
    fun s => (inr tt,
              with_position_manager
                (update_position_values {[ symbol := current_price analysis ]}
                   (position_manager s)).2 s)
  else mret tt.

(** The body of [for symbol in self.watched_symbols]: a symbol is skipped
    when [market_context.get('india_vix', 0) > 25]. *)
Definition scan_symbol (now : Z) (symbol : string) : M unit :=
  match india_vix now with
  | Some vix =>
      if Qgtb vix 25 then log (MarketTooVolatile vix)
      else scan_quiet_market now symbol
  | None => scan_quiet_market now symbol
  end.

(** One pass of [while self.is_trading] in [trading_loop], sleeps aside. *)
Definition scan_cycle (now : Z) : M unit :=
  try_except
    (let* self := get in
     if in_market_hours now then
       for_each (watched_symbols self) (scan_symbol now)
     else mret tt)
    (fun e => log (ErrorInTradingLoop e)).

(** The first passes of [while self.is_trading], one per clock reading. *)
Fixpoint trading_loop (times : list Z) : M unit :=
  match times with
  | [] => mret tt
  | now :: later =>
      let* self := get in
      if is_trading self then scan_cycle now ;;; trading_loop later
      else mret tt
  end.

(** The body of [for symbol in positions] in [close_all_positions]. *)
Definition close_one (now : Z) (symbol : string) : M unit :=
  try_except
    (let* current_price := call (get_stock_price now symbol) in
     let* position := position_of symbol in
     let* _ := call (execute_trade now symbol (quantity position) "SELL") in
     fun s => (inr tt,
               with_position_manager
                 (close_position now symbol current_price (position_manager s)).2 s))
    (fun e => log (FailedToClosePosition symbol e)).

(** The loop over the live dictionary: each step of its iterator first
    checks that the dictionary still has the size it had when the loop
    began. *)
Fixpoint close_loop (now : Z) (size_at_start : nat) (keys : list string) : M unit :=
  fun s =>
    if bool_decide (size (positions (position_manager s)) = size_at_start) then
      match keys with
      | [] => (inr tt, s)
      | symbol :: rest =>
          (close_one now symbol ;;; close_loop now size_at_start rest) s
      end
    else (inl changed_size, s).

(** [close_all_positions]; [keys] are the symbols of the ledger in the
    order of the dictionary. *)
Definition close_all_positions (now : Z) (keys : list string) : M unit :=
  fun s => close_loop now (size (positions (position_manager s))) keys s.

(** [stop], the cancellation of the loop task aside. *)
Definition stop (now : Z) (keys : list string) : M unit :=
  let* self := get in
  if is_trading self then
    (fun s => (inr tt, with_is_trading false s)) ;;;
    close_all_positions now keys ;;;
    log TradingSystemStopped
  else mret tt.

End WithEnvironment.

End TradingSystem.

(** ** Concrete collaborators and systems *)

Module SystemExamples.

Import TechnicalAnalyzer.

(** A venue that fills every order, a market that quotes every symbol at
    110, and an analyzer that reports the given signal at a price of 110. *)
Definition venue (now : Z) (symbol : string) (quantity : Z) (trade_type : string)
  : result Trader.TradeResult :=
  inr (Trader.mkTradeResult "success" 110).
Definition quotes (now : Z) (symbol : string) : result Q := inr 110%Q.
Definition analyzer (sig : Signal) (now : Z) (symbol : string)
  : result TradingSystem.Analysis :=
  inr (TradingSystem.mkAnalysis sig 110).
Definition calm (now : Z) : cell := Some 12%Q.

Definition buy_signal : Signal := mkSignal 1 (inject_Z 5 / 7)%Q 5 0.
Definition sell_signal : Signal := mkSignal (-1) (inject_Z 5 / 7)%Q 0 5.
Definition tie_signal : Signal := mkSignal 0 (inject_Z 3 / 7)%Q 3 3.

(** A running system with a portfolio of 100000 that watches AAA and BBB
    and whose ledger is [ledger_with_aaa] with the given realized P&L. *)
Definition system (pnl : Q) : TradingSystem.t :=
  TradingSystem.mk (Examples.ledger_with_aaa pnl) true ["AAA"; "BBB"] 100000 [].

(** An analyzer that has no data for AAA. *)
Definition patchy_analyzer (now : Z) (symbol : string)
  : result TradingSystem.Analysis :=
  if bool_decide (symbol = "AAA") then inl (KeyError "Close")
  else analyzer buy_signal now symbol.

End SystemExamples.

(** ** A volume series for the rolling mean *)

Module RollingExamples.

(** Twenty-one bars of volume: 100 on the first, 300 afterwards. *)
Definition volumes : list cell := Some 100%Q :: replicate 20 (Some 300%Q).

End RollingExamples.

(** ** Sequences of calls on the ledger *)

Module LedgerCalls.

Import PositionManager.

(** A call of one of the methods of [PositionManager] that change it. *)
Inductive call : Type :=
  | ResetDailyMetrics (now : Z)
  | CanTrade (now : Z) (portfolio_value : Q)
  | AddPosition (now : Z) (symbol : string) (entry_price : Q) (quantity : Z)
  | ClosePosition (now : Z) (symbol : string) (exit_price : Q)
  | UpdatePositionValues (current_prices : gmap string Q).

Definition clock (c : call) : option Z :=
  match c with
  | ResetDailyMetrics now | CanTrade now _ => Some now
  | _ => None
  end.

Definition run_call (cfg : Settings) (self : t) (c : call) : t :=
  match c with
  | ResetDailyMetrics now => reset_daily_metrics now self
  | CanTrade now portfolio_value => (can_trade cfg now portfolio_value self).2
  | AddPosition now symbol entry_price quantity =>
      add_position now symbol entry_price quantity self
  | ClosePosition now symbol exit_price =>
      (close_position now symbol exit_price self).2
  | UpdatePositionValues current_prices =>
      (update_position_values current_prices self).2
  end.

Definition run_calls (cfg : Settings) (self : t) (calls : list call) : t :=
  foldl (run_call cfg) self calls.

(** The sum of the [pnl] fields of a list of recorded rows. *)
Definition realized (rows : list TradeRecord) : Q :=
  foldr (fun row acc => (default 0%Q (tr_pnl row) + acc)%Q) 0%Q rows.

End LedgerCalls.

(** ** A trade the gate has every reason to approve *)

Module GateExamples.

(** An active trader with a portfolio of 100000, an empty ledger last
    reset on day 0 and no realized loss. *)
Definition fresh_trader : Trader.t :=
  Trader.mk (PositionManager.mk ∅ 0 0 []) true 100000 (2 # 100) (2 # 100) (3 # 100) [].

End GateExamples.

(** * Theorems *)

(** ** Comparisons *)

Lemma Qgtb_lt x y : Qgtb x y = true <-> (y < x)%Q.
Proof.
  unfold Qgtb. rewrite negb_true_iff, <- not_true_iff_false, Qle_bool_iff.
  split; [apply Qnot_le_lt | apply Qlt_not_le].
Qed.

Lemma Qgtb_le x y : Qgtb x y = false <-> (x <= y)%Q.
Proof. unfold Qgtb. rewrite negb_false_iff. apply Qle_bool_iff. Qed.

Lemma cell_gt_Some x y : cell_gt (Some x) (Some y) = true <-> (y < x)%Q.
Proof. apply Qgtb_lt. Qed.

Lemma cell_lt_Some x y : cell_lt (Some x) (Some y) = true <-> (x < y)%Q.
Proof. apply Qgtb_lt. Qed.

Lemma cell_le_Some x y : cell_le (Some x) (Some y) = true <-> (x <= y)%Q.
Proof. apply Qle_bool_iff. Qed.


(** ** The signal scorer *)

Section SignalScorer.

Import TechnicalAnalyzer VoteSpec.

Lemma trend_ema_cast r t : trend_ema r t = cast (trend1_buys r) t.
Proof. reflexivity. Qed.

Lemma trend_sma_cast r t : trend_sma r t = cast (trend2_buys r) t.
Proof. reflexivity. Qed.

Lemma momentum_cast r t : momentum r t = cast (momentum_buys r) t.
Proof.
  unfold momentum, momentum_buys, cast.
  destruct (cell_le (Some 30%Q) (RSI r)) eqn:Hlo;
    destruct (cell_le (RSI r) (Some 70%Q)) eqn:Hhi;
    destruct (cell_gt (RSI r) (Some 50%Q)) eqn:Hmid;
    destruct (cell_lt (RSI r) (Some 30%Q)) eqn:Hlow; simpl; try reflexivity.
  (* in range but also below 30: impossible *)
  all: destruct (RSI r) as [x|]; simpl in *; try discriminate.
  all: apply Qle_bool_iff in Hlo; apply Qgtb_lt in Hlow;
    exfalso; apply (Qlt_not_le _ _ Hlow Hlo).
Qed.

Lemma macd_cast r t : macd r t = cast (macd_buys r) t.
Proof. reflexivity. Qed.

Lemma volatility_cast r t : volatility r t = cast (volatility_buys r) t.
Proof. reflexivity. Qed.

Lemma iloc_back_last {A} (xs : list A) (x : A) : iloc_back (xs ++ [x]) 1 = inr x.
Proof. unfold iloc_back. rewrite rev_app_distr. reflexivity. Qed.

Lemma iloc_back_prev {A} (xs : list A) (x y : A) :
  iloc_back (xs ++ [x; y]) 2 = inr x.
Proof. unfold iloc_back. rewrite rev_app_distr. reflexivity. Qed.

Lemma iloc_back_inv {A} (xs : list A) (x : A) :
  iloc_back xs 1 = inr x -> exists pre, xs = pre ++ [x].
Proof.
  unfold iloc_back. destruct (rev xs) as [|y ys] eqn:Hrev; simpl; [discriminate|].
  intros [= ->]. exists (rev ys).
  rewrite <- (rev_involutive xs), Hrev. reflexivity.
Qed.

Lemma make_signal_tally (bs : list bool) :
  (length bs <= 6)%nat ->
  make_signal (tally_of bs)
  = mkSignal (vote_direction (count_votes true bs) (count_votes false bs))
      (inject_Z (Z.max (count_votes true bs) (count_votes false bs)) / 7)%Q
      (count_votes true bs) (count_votes false bs).
Proof.
  intros Hlen.
  do 7 (destruct bs as [|[] bs]; [reflexivity| |]); simpl in Hlen; lia.
Qed.

Lemma generate_signal_eq pre last :
  generate_signal (pre ++ [last])
  = if volume_cast last then
      match iloc_back (pre ++ [last]) 2 with
      | inr prev => inr (vote_signal last (Close prev))
      | inl e => inl e
      end
    else inr (vote_signal last None).
Proof.
  unfold generate_signal, volume. rewrite iloc_back_last.
  generalize (iloc_back (pre ++ [last]) 2). intros r.
  cbn [bind].
  rewrite trend_ema_cast, trend_sma_cast, momentum_cast, macd_cast, volatility_cast.
  unfold vote_signal, buy_votes, sell_votes, ballots.
  fold (volume_cast last).
  destruct (volume_cast last).
  - destruct r as [e|prev]; cbn [bind]; [reflexivity|].
    cbn [bind ret app].
    rewrite <- (make_signal_tally
             [trend1_buys last; trend2_buys last; momentum_buys last;
              macd_buys last; volatility_buys last; volume_buys last (Close prev)])
      by (simpl; lia).
    reflexivity.
  - cbn [bind ret app].
    rewrite <- (make_signal_tally
             [trend1_buys last; trend2_buys last; momentum_buys last;
              macd_buys last; volatility_buys last])
      by (simpl; lia).
    reflexivity.
Qed.

Lemma strength_as_fraction (z : Z) : (inject_Z z / 7 == z # 7)%Q.
Proof. unfold Qeq, Qdiv, Qmult, Qinv, inject_Z. simpl. lia. Qed.

Lemma vote_direction_spec (b s : Z) :
  (vote_direction b s = 1 <-> s < b)
  /\ (vote_direction b s = -1 <-> b < s)
  /\ (vote_direction b s = 0 <-> b = s).
Proof.
  unfold vote_direction.
  destruct (Z.compare_spec b s); repeat split; intros; try lia; try discriminate.
Qed.

Lemma momentum_buys_spec (r : Row) (rsi : Q) :
  RSI r = Some rsi ->
  momentum_buys r = true
  <-> (((30 <= rsi)%Q /\ (rsi <= 70)%Q) /\ (50 < rsi)%Q) \/ (rsi < 30)%Q.
Proof.
  intros Hr. unfold momentum_buys. rewrite Hr.
  rewrite orb_true_iff, !andb_true_iff, !cell_le_Some, cell_gt_Some, cell_lt_Some.
  reflexivity.
Qed.

(** Every signal the vote produces: five or six ballots, hence a larger
    side of at least three. *)
Lemma vote_signal_bounds (r : Row) (pc : cell) :
  let sig := vote_signal r pc in
  5 <= buy_signals sig + sell_signals sig <= 6
  /\ (buy_signals sig + sell_signals sig = 6 <-> volume_cast r = true)
  /\ 3 <= Z.max (buy_signals sig) (sell_signals sig)
  /\ (3 # 7 <= strength sig)%Q
  /\ (direction sig = 0 ->
      buy_signals sig = 3 /\ sell_signals sig = 3 /\ (strength sig == 3 # 7)%Q).
Proof.
  unfold vote_signal, buy_votes, sell_votes, ballots.
  destruct (trend1_buys r), (trend2_buys r), (momentum_buys r), (macd_buys r),
    (volatility_buys r), (volume_cast r), (volume_buys r pc);
    vm_compute; repeat split; intros; try discriminate; try lia; try reflexivity.
Qed.

Lemma generate_signal_inv (data : list Row) (sig : Signal) :
  generate_signal data = inr sig ->
  exists (pre : list Row) (last : Row) (pc : cell),
    data = pre ++ [last] /\ sig = vote_signal last pc.
Proof.
  intros Hrun.
  destruct (iloc_back data 1) as [e|last] eqn:Hlast.
  { unfold generate_signal in Hrun. rewrite Hlast in Hrun. discriminate. }
  apply iloc_back_inv in Hlast as [pre ->].
  rewrite generate_signal_eq in Hrun.
  exists pre, last.
  destruct (volume_cast last).
  - destruct (iloc_back (pre ++ [last]) 2) as [e|prev]; [discriminate|].
    injection Hrun as <-. exists (Close prev). split; reflexivity.
  - injection Hrun as <-. exists None. split; reflexivity.
Qed.

(** C1. [generate_signal] is the six-category unweighted vote.  On a series
    whose latest row is well defined it returns the tally of the ballots
    Trend-1 (EMA9 > SMA20), Trend-2 (SMA20 > SMA50), momentum (RSI within
    [30,70] and above 50, or RSI below 30), MACD (line above signal),
    volatility (close above the Bollinger middle band) and, only when the
    volume exceeds its 20-bar average, volume (close above the prior
    close); the direction is the sign of buys minus sells and the strength
    is the larger count over 7.  In the scenario with all five ballots
    buying, RSI 55 and volume below average: 5 buys, direction +1,
    strength 5/7. *)
Theorem generate_signal_vote (pre : list Row) (prev : Row)
    (c v s20 s50 e9 rsi m ms bb vs : Q) :
  let last := defined_row c v s20 s50 e9 rsi m ms bb vs in
  let sig := vote_signal last (Close prev) in
  generate_signal (pre ++ [prev; last]) = inr sig
  /\ (trend1_buys last = true <-> (s20 < e9)%Q)
  /\ (trend2_buys last = true <-> (s50 < s20)%Q)
  /\ (momentum_buys last = true
      <-> (((30 <= rsi)%Q /\ (rsi <= 70)%Q) /\ (50 < rsi)%Q) \/ (rsi < 30)%Q)
  /\ (macd_buys last = true <-> (ms < m)%Q)
  /\ (volatility_buys last = true <-> (bb < c)%Q)
  /\ (volume_cast last = true <-> (vs < v)%Q)
  /\ (forall pc, Close prev = Some pc ->
      (volume_buys last (Close prev) = true <-> (pc < c)%Q))
  /\ buy_signals sig = count_votes true (ballots last (Close prev))
  /\ sell_signals sig = count_votes false (ballots last (Close prev))
  /\ (length (ballots last (Close prev)) = if volume_cast last then 6 else 5)%nat
  /\ (direction sig = 1 <-> sell_signals sig < buy_signals sig)
  /\ (direction sig = -1 <-> buy_signals sig < sell_signals sig)
  /\ (direction sig = 0 <-> buy_signals sig = sell_signals sig)
  /\ (strength sig == Z.max (buy_signals sig) (sell_signals sig) # 7)%Q
  /\ ((s20 < e9)%Q -> (s50 < s20)%Q -> (rsi == 55)%Q -> (ms < m)%Q ->
      (bb < c)%Q -> (v < vs)%Q ->
      buy_signals sig = 5 /\ sell_signals sig = 0 /\ direction sig = 1
      /\ (strength sig == 5 # 7)%Q
      /\ generate_signal (pre ++ [last]) = inr sig).
Proof.
  intros last sig.
  assert (Hrun : generate_signal (pre ++ [prev; last]) = inr sig).
  { change (pre ++ [prev; last]) with (pre ++ [prev] ++ [last]).
    rewrite app_assoc, generate_signal_eq, <- app_assoc.
    change ([prev] ++ [last]) with [prev; last].
    rewrite iloc_back_prev. destruct (volume_cast last) eqn:Hcast; [reflexivity|].
    unfold sig, vote_signal, buy_votes, sell_votes, ballots. rewrite Hcast.
    reflexivity. }
  destruct (vote_direction_spec (buy_signals sig) (sell_signals sig))
    as (Hup & Hdown & Htie).
  split; [exact Hrun|].
  split; [apply cell_gt_Some|].
  split; [apply cell_gt_Some|].
  split; [apply (momentum_buys_spec last rsi); reflexivity|].
  split; [apply cell_gt_Some|].
  split; [apply cell_gt_Some|].
  split; [apply cell_gt_Some|].
  split; [intros pc ->; apply cell_gt_Some|].
  split; [reflexivity|].
  split; [reflexivity|].
  split; [unfold ballots; destruct (volume_cast last); reflexivity|].
  split; [exact Hup|].
  split; [exact Hdown|].
  split; [exact Htie|].
  split; [apply strength_as_fraction|].
  intros H1 H2 Hrsi H4 H5 Hvol.
  assert (Ht1 : trend1_buys last = true) by (apply cell_gt_Some; exact H1).
  assert (Ht2 : trend2_buys last = true) by (apply cell_gt_Some; exact H2).
  assert (Hmo : momentum_buys last = true).
  { apply (momentum_buys_spec last rsi); [reflexivity|]. left.
    rewrite Hrsi. repeat split; discriminate || reflexivity. }
  assert (Hma : macd_buys last = true) by (apply cell_gt_Some; exact H4).
  assert (Hvo : volatility_buys last = true) by (apply cell_gt_Some; exact H5).
  assert (Hvc : volume_cast last = false).
  { unfold volume_cast. cbn [last Volume Volume_SMA cell_gt].
    apply Qgtb_le. apply Qlt_le_weak. exact Hvol. }
  assert (Hsig : sig = mkSignal 1 (inject_Z 5 / 7)%Q 5 0).
  { unfold sig, vote_signal, buy_votes, sell_votes, ballots.
    rewrite Ht1, Ht2, Hmo, Hma, Hvo, Hvc. reflexivity. }
  rewrite generate_signal_eq, Hvc.
  unfold sig at 5, vote_signal, buy_votes, sell_votes, ballots. rewrite Hvc.
  rewrite Hsig. cbn [buy_signals sell_signals direction strength].
  repeat split; reflexivity.
Qed.

(** The scenario of C1 on concrete bars. *)
Lemma generate_signal_vote_witness :
  let prev := close_only 100 in
  let last := defined_row 104 800 101 99 102 55 (3 # 2) 1 103 1000 in
  generate_signal [prev; last] = inr (mkSignal 1 (inject_Z 5 / 7)%Q 5 0)
  /\ buy_signals (vote_signal last (Close prev)) = 5
  /\ direction (vote_signal last (Close prev)) = 1
  /\ (strength (vote_signal last (Close prev)) == 5 # 7)%Q.
Proof.
  intros prev last.
  pose proof (generate_signal_vote [] prev 104 800 101 99 102 55 (3 # 2) 1 103 1000)
    as H.
  cbv zeta in H.
  destruct H as (Hrun & _ & _ & _ & _ & _ & _ & _ & _ & _ & _ & _ & _ & _ & _ & Hsc).
  destruct Hsc as (Hb & _ & Hd & Hs & _);
    [reflexivity | reflexivity | reflexivity | reflexivity | reflexivity
    | reflexivity |].
  split; [exact Hrun|]. split; [exact Hb|]. split; [exact Hd | exact Hs].
Defined.

(** C10. Whenever [generate_signal] returns, at least five ballots were
    cast, so the larger side holds at least three and the strength is at
    least 3/7; a tie (direction 0) is 3 against 3 and reports strength 3/7,
    which passes the strength test of the trading loop for every
    MIN_SIGNAL_STRENGTH of at most 3/7. *)
Theorem generate_signal_strength_floor (data : list Row) (sig : Signal) :
  generate_signal data = inr sig ->
  5 <= buy_signals sig + sell_signals sig <= 6
  /\ 3 <= Z.max (buy_signals sig) (sell_signals sig)
  /\ (strength sig == Z.max (buy_signals sig) (sell_signals sig) # 7)%Q
  /\ (3 # 7 <= strength sig)%Q
  /\ (direction sig = 0 ->
      buy_signals sig = 3 /\ sell_signals sig = 3
      /\ (strength sig == 3 # 7)%Q
      /\ forall cfg : Settings,
           (MIN_SIGNAL_STRENGTH cfg <= 3 # 7)%Q -> strength_clears cfg sig = true).
Proof.
  intros Hrun.
  apply generate_signal_inv in Hrun as (pre & last & pc & -> & ->).
  destruct (vote_signal_bounds last pc) as (Hn & _ & Hmax & Hfloor & Htie).
  split; [exact Hn|]. split; [exact Hmax|].
  split; [apply strength_as_fraction|].
  split; [exact Hfloor|].
  intros Hdir. destruct (Htie Hdir) as (Hb & Hs & Hstr).
  split; [exact Hb|]. split; [exact Hs|]. split; [exact Hstr|].
  intros cfg Hmin. unfold strength_clears. apply Qle_bool_iff.
  rewrite Hstr. exact Hmin.
Qed.

(** A tied vote on concrete bars: three buys, three sells, strength 3/7. *)
Lemma generate_signal_strength_floor_witness :
  let prev := close_only 100 in
  let last := defined_row 104 1200 101 99 102 75 1 2 105 1000 in
  generate_signal [prev; last] = inr (mkSignal 0 (inject_Z 3 / 7)%Q 3 3)
  /\ (3 # 7 <= inject_Z 3 / 7)%Q
  /\ strength_clears (mkSettings (3 # 7) 100 9 15 5 1 5)
       (mkSignal 0 (inject_Z 3 / 7)%Q 3 3) = true.
Proof.
  intros prev last.
  assert (Hrun : generate_signal [prev; last] = inr (mkSignal 0 (inject_Z 3 / 7)%Q 3 3))
    by reflexivity.
  destruct (generate_signal_strength_floor _ _ Hrun) as (_ & _ & _ & Hfloor & Htie).
  destruct (Htie eq_refl) as (_ & _ & _ & Hclear).
  split; [exact Hrun|]. split; [exact Hfloor|].
  apply Hclear. cbn [MIN_SIGNAL_STRENGTH]. apply Qle_refl.
Defined.

End SignalScorer.

(** ** The Supertrend overlay *)

Section SupertrendLoop.

Import TechnicalAnalyzer.

Local Open Scope nat_scope.

Variables (close upper lower : list cell).

Local Abbreviation step := (supertrend_step close upper lower).

Lemma step_length s i :
  length (supertrend (step s i)) = length (supertrend s)
  /\ length (direction_series (step s i)) = length (direction_series s).
Proof.
  unfold supertrend_step.
  destruct (cell_gt _ _); [|destruct (cell_lt _ _)];
    simpl; rewrite !length_insert; split; reflexivity.
Qed.

Lemma step_other s i j :
  i <> j ->
  supertrend (step s i) !!! j = supertrend s !!! j
  /\ direction_series (step s i) !!! j = direction_series s !!! j.
Proof.
  intros Hne. unfold supertrend_step.
  destruct (cell_gt _ _); [|destruct (cell_lt _ _)];
    simpl; rewrite !list_lookup_total_insert_ne by exact Hne; split; reflexivity.
Qed.

Lemma loop_length k : forall s a,
  length (supertrend (foldl step s (seq a k))) = length (supertrend s)
  /\ length (direction_series (foldl step s (seq a k))) = length (direction_series s).
Proof.
  induction k as [|k IH]; intros s a; simpl; [split; reflexivity|].
  destruct (IH (step s a) (S a)) as [H1 H2].
  destruct (step_length s a) as [H3 H4].
  split; congruence.
Qed.

Lemma loop_other k : forall s a j,
  j < a ->
  supertrend (foldl step s (seq a k)) !!! j = supertrend s !!! j
  /\ direction_series (foldl step s (seq a k)) !!! j = direction_series s !!! j.
Proof.
  induction k as [|k IH]; intros s a j Hlt; simpl; [split; reflexivity|].
  destruct (IH (step s a) (S a) j ltac:(lia)) as [H1 H2].
  destruct (step_other s a j ltac:(lia)) as [H3 H4].
  split; congruence.
Qed.

(** What iteration [i] writes at index [i]. *)
Lemma step_at s i :
  i < length (supertrend s) -> i < length (direction_series s) ->
  supertrend (step s i) !!! i
  = (if cell_gt (close !!! i) (upper !!! (i - 1)) then lower !!! i
     else if cell_lt (close !!! i) (lower !!! (i - 1)) then upper !!! i
     else supertrend s !!! (i - 1))
  /\ direction_series (step s i) !!! i
  = (if cell_gt (close !!! i) (upper !!! (i - 1)) then Some 1%Z
     else if cell_lt (close !!! i) (lower !!! (i - 1)) then Some (-1)%Z
     else direction_series s !!! (i - 1)).
Proof.
  intros H1 H2. unfold supertrend_step.
  destruct (cell_gt _ _); [|destruct (cell_lt _ _)];
    simpl; rewrite !list_lookup_total_insert_eq by assumption; split; reflexivity.
Qed.

(** The loop over [range(1, n)], read back at any index it visited. *)
Lemma loop_at n s i :
  length (supertrend s) = n -> length (direction_series s) = n ->
  1 <= i < n ->
  let final := foldl step s (seq 1 (n - 1)) in
  supertrend final !!! i
  = (if cell_gt (close !!! i) (upper !!! (i - 1)) then lower !!! i
     else if cell_lt (close !!! i) (lower !!! (i - 1)) then upper !!! i
     else supertrend final !!! (i - 1))
  /\ direction_series final !!! i
  = (if cell_gt (close !!! i) (upper !!! (i - 1)) then Some 1%Z
     else if cell_lt (close !!! i) (lower !!! (i - 1)) then Some (-1)%Z
     else direction_series final !!! (i - 1)).
Proof.
  intros Hl1 Hl2 Hi final. subst final.
  replace (n - 1) with ((i - 1) + (1 + (n - 1 - i))) by lia.
  rewrite seq_app, foldl_app.
  replace (1 + (i - 1)) with i by lia.
  set (before := foldl step s (seq 1 (i - 1))).
  cbn [seq foldl Nat.add].
  destruct (loop_length (i - 1) s 1) as [Hb1 Hb2]. fold before in Hb1, Hb2.
  destruct (loop_other (n - 1 - i) (step before i) (S i) i ltac:(lia)) as [Ha1 Ha2].
  destruct (loop_other (n - 1 - i) (step before i) (S i) (i - 1) ltac:(lia))
    as [Hp1 Hp2].
  destruct (step_other before i (i - 1) ltac:(lia)) as [Hq1 Hq2].
  destruct (step_at before i ltac:(lia) ltac:(lia)) as [Hw1 Hw2].
  rewrite Ha1, Ha2, Hp1, Hp2, Hq1, Hq2. split; assumption.
Qed.

End SupertrendLoop.

Section SupertrendFacts.

Import TechnicalAnalyzer.

Local Open Scope nat_scope.

Variable ATR : list cell -> list cell -> list cell -> Z -> list cell.
Hypothesis ATR_length : forall h l c p, length (ATR h l c p) = length h.

Lemma bands_length (data : list Bar) (period : Z) (multiplier : Q) :
  length (basic_upperband ATR data period multiplier) = length data
  /\ length (basic_lowerband ATR data period multiplier) = length data.
Proof.
  unfold basic_upperband, basic_lowerband, series_add, series_sub, series_scale,
    hl2, series_div, series_add, atr_of.
  rewrite !length_zip_with, !length_map, !length_zip_with, ATR_length, !length_fmap.
  split; lia.
Qed.

(** C2. The Supertrend line obeys its recurrence at every index i >= 1:
    a close above the prior upper band puts the line on the current lower
    band (direction up), otherwise a close below the prior lower band puts
    it on the current upper band (direction down), otherwise line and
    direction are carried forward; so a close within the prior bands
    (inclusive) keeps line[i] = line[i-1], the direction changes only on a
    strict breach, and line[0] is undefined. *)
Theorem supertrend_recurrence (data : list Bar) (period : Z) (multiplier : Q) (i : nat) :
  let close := BarClose <$> data in
  let upper := basic_upperband ATR data period multiplier in
  let lower := basic_lowerband ATR data period multiplier in
  let line := calculate_supertrend ATR data period multiplier in
  let dir := direction_series (supertrend_loop ATR data period multiplier) in
  length line = length data
  /\ length upper = length data /\ length lower = length data
  /\ (0 < length data -> line !! 0 = Some None)
  /\ (1 <= i < length data ->
      (cell_gt (close !!! i) (upper !!! (i - 1)) = true ->
         line !!! i = lower !!! i /\ dir !!! i = Some 1%Z)
      /\ (cell_gt (close !!! i) (upper !!! (i - 1)) = false ->
          cell_lt (close !!! i) (lower !!! (i - 1)) = true ->
          line !!! i = upper !!! i /\ dir !!! i = Some (-1)%Z)
      /\ (cell_gt (close !!! i) (upper !!! (i - 1)) = false ->
          cell_lt (close !!! i) (lower !!! (i - 1)) = false ->
          line !!! i = line !!! (i - 1) /\ dir !!! i = dir !!! (i - 1))
      /\ (forall c lo hi : Q,
            close !!! i = Some c ->
            lower !!! (i - 1) = Some lo -> upper !!! (i - 1) = Some hi ->
            (lo <= c)%Q -> (c <= hi)%Q ->
            line !!! i = line !!! (i - 1) /\ dir !!! i = dir !!! (i - 1))
      /\ (dir !!! i <> dir !!! (i - 1) ->
          exists c : Q, close !!! i = Some c
            /\ ((exists hi, upper !!! (i - 1) = Some hi /\ (hi < c)%Q)
                \/ (exists lo, lower !!! (i - 1) = Some lo /\ (c < lo)%Q)))).
Proof.
  intros close upper lower line dir.
  destruct (bands_length data period multiplier) as [Hup Hlo].
  assert (Hlen : length line = length data
                 /\ length dir = length data).
  { destruct (loop_length close upper lower (length data - 1)
                (mkSt (replicate (length data) None) (replicate (length data) None)) 1)
      as [H1 H2].
    cbn [supertrend direction_series] in H1, H2.
    rewrite length_replicate in H1. rewrite length_replicate in H2.
    split; assumption. }
  split; [apply Hlen|]. split; [exact Hup|]. split; [exact Hlo|].
  split.
  { intros Hpos.
    destruct (loop_other close upper lower (length data - 1)
                (mkSt (replicate (length data) None) (replicate (length data) None))
                1 0 ltac:(lia)) as [H0 _].
    simpl in H0. rewrite lookup_total_replicate_2 in H0 by exact Hpos.
    rewrite <- H0. apply list_lookup_lookup_total_lt.
    change (0 < length line). destruct Hlen as [-> _]. exact Hpos. }
  intros Hi.
  destruct (loop_at close upper lower (length data)
              (mkSt (replicate (length data) None) (replicate (length data) None)) i
              ltac:(apply length_replicate) ltac:(apply length_replicate) Hi)
    as [Hline Hdir].
  fold (supertrend_loop ATR data period multiplier) in Hline, Hdir.
  change (supertrend (supertrend_loop ATR data period multiplier)) with line in Hline.
  fold dir in Hdir.
  split; [intros Hgt; rewrite Hgt in Hline, Hdir; split; assumption|].
  split; [intros Hgt Hlt; rewrite Hgt, Hlt in Hline, Hdir; split; assumption|].
  split; [intros Hgt Hlt; rewrite Hgt, Hlt in Hline, Hdir; split; assumption|].
  split.
  - intros c lo hi Hc Hl Hh Hloc Hchi.
    rewrite Hc, Hl, Hh in Hline, Hdir.
    assert (Hgt : cell_gt (Some c) (Some hi) = false) by (apply Qgtb_le; exact Hchi).
    assert (Hlt : cell_lt (Some c) (Some lo) = false) by (apply Qgtb_le; exact Hloc).
    rewrite Hgt, Hlt in Hline, Hdir. split; assumption.
  - intros Hflip.
    destruct (cell_gt (close !!! i) (upper !!! (i - 1))) eqn:Hgt.
    + destruct (close !!! i) as [c|]; [|discriminate].
      destruct (upper !!! (i - 1)) as [hi|]; [|discriminate].
      exists c. split; [reflexivity|]. left. exists hi. split; [reflexivity|].
      apply cell_gt_Some. exact Hgt.
    + destruct (cell_lt (close !!! i) (lower !!! (i - 1))) eqn:Hlt.
      * destruct (close !!! i) as [c|]; [|destruct (lower !!! (i - 1)); discriminate].
        destruct (lower !!! (i - 1)) as [lo|]; [|discriminate].
        exists c. split; [reflexivity|]. right. exists lo. split; [reflexivity|].
        apply cell_lt_Some. exact Hlt.
      * contradiction.
Qed.

End SupertrendFacts.

Lemma flat_atr_length (h l c : list cell) (p : Z) :
  length (Examples.flat_atr h l c p) = length h.
Proof. apply length_map. Qed.

(** The recurrence on [three_bars]: the close of bar 1 breaks above the
    prior upper band, which puts the line on the lower band; the close 18
    of bar 2 lies within the prior bands, so the line stays there. *)
Lemma supertrend_recurrence_witness :
  let line := TechnicalAnalyzer.calculate_supertrend
                Examples.flat_atr Examples.three_bars 7 3 in
  let lower := TechnicalAnalyzer.basic_lowerband
                 Examples.flat_atr Examples.three_bars 7 3 in
  line !!! 1%nat = lower !!! 1%nat
  /\ line !!! 2%nat = line !!! 1%nat
  /\ line !! 0%nat = Some None.
Proof.
  intros line lower.
  destruct (supertrend_recurrence Examples.flat_atr flat_atr_length
              Examples.three_bars 7 3 1) as (_ & _ & _ & _ & Hone).
  destruct (supertrend_recurrence Examples.flat_atr flat_atr_length
              Examples.three_bars 7 3 2) as (_ & _ & _ & H0 & Htwo).
  destruct Hone as (Hbreak & _); [simpl; lia|].
  destruct Htwo as (_ & _ & _ & Hband & _); [simpl; lia|].
  split; [exact (proj1 (Hbreak eq_refl))|].
  split.
  - refine (proj1 (Hband _ _ _ eq_refl eq_refl eq_refl _ _)); discriminate.
  - apply H0. simpl. lia.
Defined.

(** ** The position ledger *)

Section Ledger.

Import PositionManager.

Lemma reset_daily_metrics_spec (now : Z) (self : t) :
  (last_reset self < date_of now ->
   reset_daily_metrics now self
   = mk (positions self) 0 (date_of now) (recorded self))
  /\ (date_of now <= last_reset self -> reset_daily_metrics now self = self).
Proof.
  unfold reset_daily_metrics. split; intros H.
  - apply Z.ltb_lt in H. rewrite H. reflexivity.
  - apply Z.ltb_ge in H. rewrite H. reflexivity.
Qed.

(** A second reset on the same day changes nothing. *)
Lemma reset_daily_metrics_idempotent (now now' : Z) (self : t) :
  date_of now' = date_of now ->
  reset_daily_metrics now' (reset_daily_metrics now self)
  = reset_daily_metrics now self.
Proof.
  intros Hday.
  assert (H : date_of now' <= last_reset (reset_daily_metrics now self)).
  { unfold reset_daily_metrics.
    destruct (last_reset self <? date_of now) eqn:Hroll; simpl; [lia|].
    apply Z.ltb_ge in Hroll. lia. }
  exact (proj2 (reset_daily_metrics_spec now' _) H).
Qed.

Lemma can_trade_eq (cfg : Settings) (now : Z) (portfolio_value : Q) (self : t) :
  can_trade cfg now portfolio_value self
  = (Qgtb (daily_pnl (reset_daily_metrics now self))
          (- (portfolio_value * (MAX_DAILY_LOSS_PERCENT cfg / 100))),
     reset_daily_metrics now self).
Proof. reflexivity. Qed.

(** C3. [can_trade] first applies the daily reset (daily_pnl becomes 0 when
    the date has advanced past last_reset, nothing changes otherwise) and
    then answers true exactly when daily_pnl exceeds minus
    portfolio_value * MAX_DAILY_LOSS_PERCENT / 100.  With a portfolio of
    100000 and a limit of 1.0 percent, on the day of the last reset, a
    daily_pnl of -999 gives true, -1001 gives false and -1000 gives false. *)
Theorem can_trade_threshold (cfg : Settings) (now : Z) (portfolio_value : Q) (self : t) :
  let r := can_trade cfg now portfolio_value self in
  r.2 = reset_daily_metrics now self
  /\ (last_reset self < date_of now ->
      daily_pnl r.2 = 0%Q /\ last_reset r.2 = date_of now
      /\ positions r.2 = positions self)
  /\ (date_of now <= last_reset self -> r.2 = self)
  /\ (r.1 = true
      <-> (- (portfolio_value * (MAX_DAILY_LOSS_PERCENT cfg / 100)) < daily_pnl r.2)%Q)
  /\ ((MAX_DAILY_LOSS_PERCENT cfg == 1)%Q -> (portfolio_value == 100000)%Q ->
      date_of now <= last_reset self ->
      ((daily_pnl self == -999)%Q -> r.1 = true)
      /\ ((daily_pnl self == -1001)%Q -> r.1 = false)
      /\ ((daily_pnl self == -1000)%Q -> r.1 = false)).
Proof.
  intros r. subst r. rewrite can_trade_eq. cbn [fst snd].
  destruct (reset_daily_metrics_spec now self) as [Hroll Hsame].
  split; [reflexivity|].
  split; [intros H; rewrite (Hroll H); repeat split|].
  split; [exact Hsame|].
  split; [apply Qgtb_lt|].
  intros Hpct Hpv Hday. rewrite (Hsame Hday).
  assert (Hmax : (- (portfolio_value * (MAX_DAILY_LOSS_PERCENT cfg / 100)) == -1000)%Q).
  { rewrite Hpct, Hpv. reflexivity. }
  split; [|split]; intros Hpnl.
  - apply Qgtb_lt. rewrite Hmax, Hpnl. reflexivity.
  - apply Qgtb_le. rewrite Hmax, Hpnl. discriminate.
  - apply Qgtb_le. rewrite Hmax, Hpnl. discriminate.
Qed.

(** The three readings of the scenario, on a concrete ledger. *)
Lemma can_trade_threshold_witness :
  (can_trade settings Examples.noon 100000 (Examples.ledger_with_aaa (-999))).1 = true
  /\ (can_trade settings Examples.noon 100000 (Examples.ledger_with_aaa (-1001))).1 = false
  /\ (can_trade settings Examples.noon 100000 (Examples.ledger_with_aaa (-1000))).1 = false.
Proof.
  pose proof (can_trade_threshold settings Examples.noon 100000
                (Examples.ledger_with_aaa (-999))) as Ha.
  pose proof (can_trade_threshold settings Examples.noon 100000
                (Examples.ledger_with_aaa (-1001))) as Hb.
  pose proof (can_trade_threshold settings Examples.noon 100000
                (Examples.ledger_with_aaa (-1000))) as Hc.
  cbv zeta in Ha, Hb, Hc.
  destruct Ha as (_ & _ & _ & _ & Ha), Hb as (_ & _ & _ & _ & Hb),
    Hc as (_ & _ & _ & _ & Hc).
  destruct Ha as (Ha & _); [reflexivity | reflexivity | discriminate |].
  destruct Hb as (_ & Hb & _); [reflexivity | reflexivity | discriminate |].
  destruct Hc as (_ & _ & Hc); [reflexivity | reflexivity | discriminate |].
  split; [apply Ha; reflexivity|].
  split; [apply Hb; reflexivity | apply Hc; reflexivity].
Defined.

(** C5, as the specification states it, fails: opening AAA again on a
    ledger that already holds AAA does not fail; the stored position is
    replaced by the new one. *)
Lemma add_position_replaces_held :
  let s := Examples.ledger_with_aaa 0 in
  let s' := add_position Examples.noon "AAA" 120 5 s in
  positions s !! "AAA" = Some Examples.aaa
  /\ positions s' !! "AAA"
     = Some (mkPosition 120 5 Examples.noon None None None None)
  /\ positions s' !! "AAA" <> positions s !! "AAA".
Proof.
  cbv zeta. split; [reflexivity|]. split; [reflexivity|].
  vm_compute. discriminate.
Qed.

(** C5, amended. [add_position] has no failure path: for every ledger and
    symbol it stores the new position under the symbol, overwriting the one
    held there, if any; the other symbols, the daily P&L and the reset date
    are untouched and one BUY row is recorded.  The ledger being keyed by
    symbol, a symbol already held is still held exactly once (the number of
    positions does not grow). *)
Theorem add_position_overwrites (now : Z) (symbol : string) (price : Q) (qty : Z)
    (self : t) :
  let s' := add_position now symbol price qty self in
  positions s' !! symbol = Some (mkPosition price qty now None None None None)
  /\ (forall other : string, other <> symbol ->
      positions s' !! other = positions self !! other)
  /\ (is_Some (positions self !! symbol) -> size (positions s') = size (positions self))
  /\ (positions self !! symbol = None ->
      size (positions s') = S (size (positions self)))
  /\ daily_pnl s' = daily_pnl self
  /\ last_reset s' = last_reset self
  /\ recorded s'
     = recorded self ++ [mkTradeRecord symbol price None qty "BUY" now None None].
Proof.
  cbv zeta. unfold add_position. cbn [positions daily_pnl last_reset recorded].
  split; [apply lookup_insert_eq|].
  split; [intros other Hne; apply lookup_insert_ne; congruence|].
  split; [apply map_size_insert_Some|].
  split; [apply map_size_insert_None|].
  repeat split.
Qed.

(** Overwriting AAA on a ledger that holds it: still one position;
    opening BBB next to it: one more, and AAA is untouched. *)
Lemma add_position_overwrites_witness :
  let s := Examples.ledger_with_aaa 0 in
  let s' := add_position Examples.noon "AAA" 120 5 s in
  let s'' := add_position Examples.noon "BBB" 10 1 s in
  size (positions s') = size (positions s)
  /\ positions s' !! "AAA"
     = Some (mkPosition 120 5 Examples.noon None None None None)
  /\ size (positions s'') = S (size (positions s))
  /\ positions s'' !! "AAA" = positions s !! "AAA".
Proof.
  cbv zeta.
  destruct (add_position_overwrites Examples.noon "AAA" 120 5
              (Examples.ledger_with_aaa 0)) as (Hnew & _ & Hsize & _).
  destruct (add_position_overwrites Examples.noon "BBB" 10 1
              (Examples.ledger_with_aaa 0)) as (_ & Hother & _ & Hgrow & _).
  split; [apply Hsize; eexists; reflexivity|].
  split; [exact Hnew|].
  split; [apply Hgrow; reflexivity | apply Hother; discriminate].
Defined.

(** C6. [close_position] on a held symbol returns
    (exit_price - entry_price) * quantity, adds exactly that to daily_pnl,
    removes the position and records a SELL row; on a symbol that is not
    held it returns 0 and leaves the ledger as it was.  It has no failure
    path.  Opening AAA at 100 x 10 and closing at 110 realizes 100, raises
    daily_pnl by 100 and leaves no AAA in the ledger. *)
Theorem close_position_pnl (now : Z) (symbol : string) (exit_price : Q) (self : t) :
  let r := close_position now symbol exit_price self in
  (forall p : Position, positions self !! symbol = Some p ->
     r.1 = ((exit_price - entry_price p) * inject_Z (quantity p))%Q
     /\ daily_pnl r.2 = (daily_pnl self + r.1)%Q
     /\ positions r.2 = delete symbol (positions self)
     /\ positions r.2 !! symbol = None
     /\ (forall other : string, other <> symbol ->
         positions r.2 !! other = positions self !! other)
     /\ last_reset r.2 = last_reset self
     /\ recorded r.2
        = recorded self ++
          [mkTradeRecord symbol (entry_price p) (Some exit_price) (quantity p)
             "SELL" (entry_time p) (Some now) (Some r.1)])
  /\ (positions self !! symbol = None -> r = (0%Q, self))
  /\ (forall opened : Z,
        let held := add_position opened "AAA" 100 10 self in
        let closed := close_position now "AAA" 110 held in
        (closed.1 == 100)%Q
        /\ (daily_pnl closed.2 == daily_pnl self + 100)%Q
        /\ positions closed.2 !! "AAA" = None).
Proof.
  cbv zeta. split; [|split].
  - intros p Hp. unfold close_position. rewrite Hp. cbn [fst snd positions daily_pnl
      last_reset recorded].
    split; [reflexivity|]. split; [reflexivity|]. split; [reflexivity|].
    split; [apply lookup_delete_eq|].
    split; [intros other Hne; apply lookup_delete_ne; congruence|].
    split; reflexivity.
  - intros Hnone. unfold close_position. rewrite Hnone. reflexivity.
  - intros opened. unfold close_position, add_position.
    cbn [positions]. rewrite lookup_insert_eq.
    cbn [fst snd positions daily_pnl entry_price quantity].
    split; [reflexivity|].
    split; [apply Qplus_comp; reflexivity|].
    apply lookup_delete_eq.
Qed.

(** The scenario of C6 from an empty ledger, and a close of a symbol that
    is not held. *)
Lemma close_position_pnl_witness :
  let s := add_position Examples.noon "AAA" 100 10 (init Examples.noon) in
  (close_position Examples.noon "AAA" 110 s).1
  = ((110 - 100) * inject_Z 10)%Q
  /\ positions (close_position Examples.noon "AAA" 110 s).2 !! "AAA" = None
  /\ close_position Examples.noon "BBB" 110 s = (0%Q, s).
Proof.
  cbv zeta.
  set (s := add_position Examples.noon "AAA" 100 10 (init Examples.noon)).
  destruct (close_position_pnl Examples.noon "AAA" 110 s) as (Hheld & _ & _).
  destruct (close_position_pnl Examples.noon "BBB" 110 s) as (_ & Hnone & _).
  destruct (Hheld (mkPosition 100 10 Examples.noon None None None None) eq_refl)
    as (Hpnl & _ & _ & Hgone & _).
  split; [exact Hpnl|]. split; [exact Hgone|].
  apply Hnone. reflexivity.
Defined.

(** C9, as the specification states it, fails: with a portfolio of 100000
    and a realized loss of 1001 the breaker is tripped; closing AAA
    (100 x 10) at 110 the same day lifts daily_pnl to -901, and the next
    call of [can_trade] on that day answers true. *)
Lemma can_trade_recovers_same_day :
  let tripped := can_trade settings Examples.noon 100000
                   (Examples.ledger_with_aaa (-1001)) in
  let closed := close_position Examples.noon "AAA" 110 tripped.2 in
  let later := Examples.noon + 3600 in
  tripped.1 = false
  /\ date_of later = date_of Examples.noon
  /\ (can_trade settings later 100000 closed.2).1 = true.
Proof. cbv zeta. repeat split. Qed.

(** C9, amended. [can_trade] keeps no memory of having tripped: it is the
    threshold test on the current daily_pnl.  After it has answered false,
    a later call on the same day with the same portfolio value answers
    false as long as daily_pnl has not risen; after a [close_position] on
    that day it answers true exactly when the loss, reduced by the
    realized profit, is back above the threshold; and the first call of a
    later day resets daily_pnl and answers true whenever the loss budget
    is positive. *)
Theorem can_trade_memoryless (cfg : Settings) (now later : Z) (portfolio_value : Q)
    (self : t) :
  let limit := (- (portfolio_value * (MAX_DAILY_LOSS_PERCENT cfg / 100)))%Q in
  let tripped := can_trade cfg now portfolio_value self in
  tripped.1 = false ->
  (date_of later = date_of now ->
     (forall s' : t,
        last_reset s' = last_reset tripped.2 ->
        (daily_pnl s' <= daily_pnl tripped.2)%Q ->
        (can_trade cfg later portfolio_value s').1 = false)
     /\ (forall (symbol : string) (exit_price : Q),
           let closed := close_position later symbol exit_price tripped.2 in
           (can_trade cfg later portfolio_value closed.2).1 = true
           <-> (limit < daily_pnl tripped.2 + closed.1)%Q))
  /\ (date_of now < date_of later ->
      last_reset self <= date_of now ->
      ((can_trade cfg later portfolio_value tripped.2).1 = true
       <-> (0 < portfolio_value * (MAX_DAILY_LOSS_PERCENT cfg / 100))%Q)
      /\ daily_pnl (can_trade cfg later portfolio_value tripped.2).2 = 0%Q).
Proof.
  cbv zeta. rewrite can_trade_eq. cbn [fst snd]. intros Htrip.
  apply Qgtb_le in Htrip.
  assert (Hlast : date_of now <= last_reset (reset_daily_metrics now self)).
  { unfold reset_daily_metrics.
    destruct (last_reset self <? date_of now) eqn:Hroll; simpl; [lia|].
    apply Z.ltb_ge in Hroll. exact Hroll. }
  split.
  - intros Hday. split.
    + intros s' Hreset Hpnl. rewrite can_trade_eq. cbn [fst].
      rewrite (proj2 (reset_daily_metrics_spec later s')) by lia.
      apply Qgtb_le. apply Qle_trans with (1 := Hpnl). exact Htrip.
    + intros symbol exit_price. rewrite can_trade_eq. cbn [fst].
      set (s1 := reset_daily_metrics now self) in *.
      assert (Hkeep : last_reset (close_position later symbol exit_price s1).2
                      = last_reset s1
                      /\ daily_pnl (close_position later symbol exit_price s1).2
                         = (daily_pnl s1 + (close_position later symbol exit_price s1).1)%Q
                         \/ (close_position later symbol exit_price s1 = (0%Q, s1))).
      { unfold close_position. destruct (positions s1 !! symbol); [left|right];
          repeat split. }
      rewrite Qgtb_lt.
      destruct Hkeep as [[Hr Hp] | Hnone].
      * rewrite (proj2 (reset_daily_metrics_spec later _)) by lia.
        rewrite Hp. reflexivity.
      * rewrite Hnone. cbn [fst snd].
        rewrite (proj2 (reset_daily_metrics_spec later s1)) by lia.
        rewrite Qplus_0_r. reflexivity.
  - intros Hnext Hold.
    assert (Hroll : last_reset (reset_daily_metrics now self) < date_of later).
    { unfold reset_daily_metrics.
      destruct (last_reset self <? date_of now); simpl; lia. }
    rewrite can_trade_eq. cbn [fst snd].
    rewrite (proj1 (reset_daily_metrics_spec later _) Hroll). cbn [daily_pnl].
    split; [|reflexivity].
    rewrite Qgtb_lt. split; intros H.
    + apply Qopp_lt_compat in H. rewrite Qopp_involutive in H. exact H.
    + apply Qopp_lt_compat in H. exact H.
Qed.

(** After a loss of 1001 has tripped the breaker: a further loss keeps it
    tripped that day, and the next day re-enables trading. *)
Lemma can_trade_memoryless_witness :
  let tripped := can_trade settings Examples.noon 100000
                   (Examples.ledger_with_aaa (-1001)) in
  (can_trade settings (Examples.noon + 3600) 100000
     (close_position (Examples.noon + 3600) "AAA" 90 tripped.2).2).1 = false
  /\ (can_trade settings Examples.next_noon 100000 tripped.2).1 = true.
Proof.
  cbv zeta.
  destruct (can_trade_memoryless settings Examples.noon (Examples.noon + 3600)
              100000 (Examples.ledger_with_aaa (-1001)) eq_refl) as (Hsame & _).
  destruct (can_trade_memoryless settings Examples.noon Examples.next_noon
              100000 (Examples.ledger_with_aaa (-1001)) eq_refl) as (_ & Hnext).
  destruct (Hsame eq_refl) as (Hstay & _).
  destruct Hnext as (Hre & _); [reflexivity | discriminate |].
  split.
  - apply Hstay; [reflexivity | discriminate].
  - apply Hre. reflexivity.
Defined.

(** Sums over a ledger, up to equality of rationals. *)
Lemma map_sum_empty f : map_sum f ∅ = 0%Q.
Proof. apply map_fold_empty. Qed.

Lemma map_sum_insert f (m : gmap string Position) i x :
  m !! i = None -> (map_sum f (<[i:=x]> m) == map_sum f m + f i x)%Q.
Proof.
  intros Hfresh. unfold map_sum.
  apply (map_fold_insert Qeq (fun symbol p acc => (acc + f symbol p)%Q)).
  - intros j z a b Hab. rewrite Hab. reflexivity.
  - intros j1 j2 z1 z2 y _ _ _. ring.
  - exact Hfresh.
Qed.

Lemma map_sum_ext f g (m : gmap string Position) :
  (forall k p, m !! k = Some p -> (f k p == g k p)%Q) ->
  (map_sum f m == map_sum g m)%Q.
Proof.
  induction m as [|i x m Hfresh IH] using map_ind; intros Hfg.
  - rewrite !map_sum_empty. reflexivity.
  - rewrite !map_sum_insert by exact Hfresh.
    rewrite IH, (Hfg i x (lookup_insert_eq m i x)); [reflexivity|].
    intros k p Hk. apply Hfg. rewrite lookup_insert_ne; [exact Hk|].
    intros ->. congruence.
Qed.

(** Summing over a ledger whose positions were rewritten in place. *)
Lemma map_sum_rewritten f (h : string -> Position -> Position)
    (m : gmap string Position) :
  forall m' : gmap string Position,
    (forall k, m' !! k = h k <$> m !! k) ->
    (map_sum f m' == map_sum (fun k p => f k (h k p)) m)%Q.
Proof.
  induction m as [|i x m Hfresh IH] using map_ind; intros m' Hm'.
  - assert (m' = ∅) as ->.
    { apply map_eq. intros k. rewrite Hm', !lookup_empty. reflexivity. }
    rewrite !map_sum_empty. reflexivity.
  - assert (m' = <[i := h i x]> (delete i m')) as ->.
    { apply map_eq. intros k. destruct (decide (i = k)) as [->|Hne].
      - rewrite lookup_insert_eq, Hm', lookup_insert_eq. reflexivity.
      - rewrite lookup_insert_ne, lookup_delete_ne by exact Hne. reflexivity. }
    rewrite !map_sum_insert by (exact Hfresh || apply lookup_delete_eq).
    rewrite (IH (delete i m')); [reflexivity|].
    intros k. destruct (decide (i = k)) as [->|Hne].
    + rewrite lookup_delete_eq, Hfresh. reflexivity.
    + rewrite lookup_delete_ne, Hm', lookup_insert_ne by exact Hne. reflexivity.
Qed.

(** The loop of [update_position_values], started from any total [a0] and
    over any part [m] of the dictionary [m0] it updates in place. *)
Lemma mark_loop prices (a0 : Q) (m0 m : gmap string Position) :
  m ⊆ m0 ->
  let r := map_fold (mark_step prices) (a0, m0) m in
  (r.1 == a0 + map_sum (fresh_pnl prices) m)%Q
  /\ forall k, r.2 !! k = match m !! k with
                          | Some p => Some (remark prices k p)
                          | None => m0 !! k
                          end.
Proof.
  cbv zeta.
  apply (map_fold_weak_ind
           (fun (r : Q * gmap string Position) (m : gmap string Position) =>
              m ⊆ m0 ->
              (r.1 == a0 + map_sum (fresh_pnl prices) m)%Q
              /\ forall k, r.2 !! k = match m !! k with
                                      | Some p => Some (remark prices k p)
                                      | None => m0 !! k
                                      end)).
  - intros _. rewrite map_sum_empty. cbn [fst snd]. split; [ring|].
    intros k. rewrite lookup_empty. reflexivity.
  - clear m. intros i x m r Hfresh IH Hsub.
    assert (Hi0 : m0 !! i = Some x).
    { eapply lookup_weaken; [apply lookup_insert_eq | exact Hsub]. }
    assert (Hm : m ⊆ m0).
    { etransitivity; [apply insert_subseteq; exact Hfresh | exact Hsub]. }
    destruct (IH Hm) as [Hsum Hmap].
    rewrite map_sum_insert by exact Hfresh.
    set (total := map_sum (fresh_pnl prices) m) in *.
    unfold mark_step, fresh_pnl, remark.
    destruct (prices !! i) as [cp|] eqn:Hp; cbv zeta; cbn [fst snd].
    + split; [rewrite Hsum; ring|].
      intros k. destruct (decide (i = k)) as [->|Hne].
      * rewrite !lookup_insert_eq, Hp. reflexivity.
      * rewrite !lookup_insert_ne by exact Hne. apply Hmap.
    + split; [rewrite Hsum; ring|].
      intros k. destruct (decide (i = k)) as [->|Hne].
      * rewrite lookup_insert_eq, Hp, Hmap, Hfresh. exact Hi0.
      * rewrite lookup_insert_ne by exact Hne. apply Hmap.
Qed.

Lemma update_position_values_lookup prices (self : t) (k : string) :
  positions (update_position_values prices self).2 !! k
  = remark prices k <$> positions self !! k.
Proof.
  unfold update_position_values. cbn [snd positions].
  destruct (mark_loop prices 0 (positions self) (positions self)) as [_ Hmap];
    [reflexivity|].
  rewrite Hmap. destruct (positions self !! k); reflexivity.
Qed.

(** C8, as the specification states it, fails: with AAA carrying an
    earlier mark of 50 and a price map that quotes BBB only, the call
    leaves AAA as it was and returns 2, the fresh mark of BBB, whereas the
    unrealized P&L over all open positions is 52. *)
Lemma update_position_values_skips_stale :
  let r := update_position_values Examples.bbb_quote Examples.stale_ledger in
  (r.1 == 2)%Q
  /\ (total_unrealized (positions r.2) == 52)%Q
  /\ ~ (r.1 == total_unrealized (positions r.2))%Q
  /\ positions r.2 !! "AAA" = positions Examples.stale_ledger !! "AAA".
Proof.
  cbv zeta. split; [vm_compute; reflexivity|].
  split; [vm_compute; reflexivity|].
  split; [vm_compute; discriminate | vm_compute; reflexivity].
Qed.

(** C8, amended. [update_position_values] sets current_price and
    unrealized_pnl = (current_price - entry_price) * quantity on every held
    symbol the price map quotes, leaves every other position (and the rest
    of the ledger) unchanged, adds no position, and returns the sum of the
    unrealized P&L of the positions it has just marked; that is the
    aggregate over all open positions when no unquoted position carries an
    earlier mark, in particular when every held symbol is quoted. *)
Theorem update_position_values_marks (prices : gmap string Q) (self : t) :
  let r := update_position_values prices self in
  (forall (symbol : string) (p : Position) (cp : Q),
     positions self !! symbol = Some p -> prices !! symbol = Some cp ->
     positions r.2 !! symbol
     = Some (mkPosition (entry_price p) (quantity p) (entry_time p) (Some cp)
               (Some ((cp - entry_price p) * inject_Z (quantity p))%Q)
               (stop_loss p) (target p)))
  /\ (forall symbol : string, prices !! symbol = None ->
      positions r.2 !! symbol = positions self !! symbol)
  /\ (forall symbol : string, positions self !! symbol = None ->
      positions r.2 !! symbol = None)
  /\ daily_pnl r.2 = daily_pnl self
  /\ last_reset r.2 = last_reset self
  /\ recorded r.2 = recorded self
  /\ (r.1 == map_sum (fresh_pnl prices) (positions self))%Q
  /\ (r.1 == quoted_unrealized prices (positions r.2))%Q
  /\ ((forall (symbol : string) (p : Position),
         positions self !! symbol = Some p -> prices !! symbol = None ->
         unrealized_pnl p = None) ->
      (r.1 == total_unrealized (positions r.2))%Q).
Proof.
  cbv zeta.
  pose proof (update_position_values_lookup prices self) as Hlook.
  assert (Hsum : ((update_position_values prices self).1
                  == map_sum (fresh_pnl prices) (positions self))%Q).
  { unfold update_position_values. cbn [fst].
    destruct (mark_loop prices 0 (positions self) (positions self)) as [Hs _];
      [reflexivity|].
    rewrite Hs. ring. }
  split.
  { intros symbol p cp Hp Hcp. rewrite Hlook, Hp. unfold remark. rewrite Hcp.
    reflexivity. }
  split.
  { intros symbol Hcp. rewrite Hlook. unfold remark. rewrite Hcp.
    destruct (positions self !! symbol); reflexivity. }
  split.
  { intros symbol Hp. rewrite Hlook, Hp. reflexivity. }
  split; [reflexivity|]. split; [reflexivity|]. split; [reflexivity|].
  split; [exact Hsum|].
  split.
  - rewrite Hsum. unfold quoted_unrealized.
    etransitivity;
      [|symmetry; apply (map_sum_rewritten _ (remark prices) (positions self));
        exact Hlook].
    apply map_sum_ext. intros k p _. unfold fresh_pnl, remark.
    destruct (prices !! k); reflexivity.
  - intros Hfresh. rewrite Hsum. unfold total_unrealized.
    etransitivity;
      [|symmetry; apply (map_sum_rewritten _ (remark prices) (positions self));
        exact Hlook].
    apply map_sum_ext. intros k p Hp. unfold fresh_pnl, remark.
    destruct (prices !! k) eqn:Hk; [reflexivity|].
    rewrite (Hfresh k p Hp Hk). reflexivity.
Qed.

(** Marking [stale_ledger] with a quote for BBB: BBB is marked at 12 and
    AAA keeps its earlier mark.  Marking a ledger that carries no earlier
    mark: the returned value is the aggregate over all open positions. *)
Lemma update_position_values_marks_witness :
  let r := update_position_values Examples.bbb_quote Examples.stale_ledger in
  let r' := update_position_values Examples.bbb_quote (Examples.ledger_with_aaa 0) in
  positions r.2 !! "BBB"
  = Some (mkPosition 10 1 0 (Some 12%Q) (Some ((12 - 10) * inject_Z 1)%Q) None None)
  /\ positions r.2 !! "AAA" = positions Examples.stale_ledger !! "AAA"
  /\ positions r.2 !! "CCC" = None
  /\ (r'.1 == total_unrealized (positions r'.2))%Q.
Proof.
  cbv zeta.
  destruct (update_position_values_marks Examples.bbb_quote Examples.stale_ledger)
    as (Hmark & Hskip & Hnone & _).
  destruct (update_position_values_marks Examples.bbb_quote
              (Examples.ledger_with_aaa 0))
    as (_ & _ & _ & _ & _ & _ & _ & _ & Hall).
  split; [apply (Hmark "BBB" (mkPosition 10 1 0 None None None None) 12%Q);
          reflexivity|].
  split; [apply Hskip; reflexivity|].
  split; [apply Hnone; reflexivity|].
  apply Hall. intros symbol p Hp _.
  unfold Examples.ledger_with_aaa in Hp. cbn [positions] in Hp.
  apply lookup_singleton_Some in Hp as [_ <-]. reflexivity.
Defined.

End Ledger.

(** ** The risk gate and the trailing-stop watcher *)

Section TraderFacts.

Import PositionManager Trader.

Variable cfg : Settings.
Variable get_stock_price : string -> result Q.
Variable automation_execute_trade : string -> Z -> string -> result TradeResult.

(** The gate, unfolded: the per-trade test, then [can_trade], then the
    lookup of [get_total_exposure], which raises into the handler. *)
Lemma check_risk_limits_eq (now : Z) (trade_value : Q) (self : Trader.t) :
  _check_risk_limits cfg now trade_value self
  = let max_trade_value := (portfolio_value self * risk_per_trade self)%Q in
    if Qgtb trade_value max_trade_value then
      (inr false, with_log (TradeValueExceedsMax trade_value max_trade_value) self)
    else
      let r := can_trade cfg now (portfolio_value self) (position_manager self) in
      if r.1 then
        (inr false,
         with_log (RiskCheckFailed (AttributeError "get_total_exposure"))
           (with_position_manager r.2 self))
      else
        (inr false, with_log DailyLossLimitReached (with_position_manager r.2 self)).
Proof.
  unfold _check_risk_limits, try_except, mbind, get, log, mret, get_total_exposure,
    mraise.
  cbv zeta.
  destruct (Qgtb trade_value (portfolio_value self * risk_per_trade self));
    [reflexivity|].
  destruct (can_trade cfg now (portfolio_value self) (position_manager self))
    as [[] pm]; reflexivity.
Qed.

(** No trade passes the gate: the exposure check cannot be evaluated. *)
Lemma check_risk_limits_never_approves (now : Z) (trade_value : Q) (self : Trader.t) :
  (_check_risk_limits cfg now trade_value self).1 = inr false.
Proof.
  rewrite check_risk_limits_eq. cbv zeta.
  destruct (Qgtb _ _); [reflexivity|].
  destruct (can_trade _ _ _ _).1; reflexivity.
Qed.

(** What the gate does to the trader and the ledger.  It never raises.
    It rejects, logging the warning of the check that failed, when the trade value exceeds
    portfolio_value * risk_per_trade and otherwise when [can_trade] is
    false, the checks being made in this order.  A rejection by the
    per-trade check changes nothing but the log.  Once that check has
    passed, the date-rollover reset of [can_trade] is applied to the
    ledger, whatever the verdict; this is the only change the gate makes:
    the open positions, the recorded trades and the trader's own fields
    are never touched, and on the day of the last reset the ledger is left
    exactly as it was. *)
Theorem check_risk_limits_gate (now : Z) (trade_value : Q) (self : Trader.t) :
  let r := _check_risk_limits cfg now trade_value self in
  let max_trade_value := (portfolio_value self * risk_per_trade self)%Q in
  let breaker := can_trade cfg now (portfolio_value self) (position_manager self) in
  (exists verdict : bool, r.1 = inr verdict)
  /\ ((max_trade_value < trade_value)%Q ->
      r.1 = inr false
      /\ r.2 = with_log (TradeValueExceedsMax trade_value max_trade_value) self)
  /\ ((trade_value <= max_trade_value)%Q ->
      position_manager r.2 = reset_daily_metrics now (position_manager self))
  /\ ((trade_value <= max_trade_value)%Q -> breaker.1 = false ->
      r.1 = inr false
      /\ r.2 = with_log DailyLossLimitReached (with_position_manager breaker.2 self))
  /\ positions (position_manager r.2) = positions (position_manager self)
  /\ recorded (position_manager r.2) = recorded (position_manager self)
  /\ (date_of now <= last_reset (position_manager self) ->
      position_manager r.2 = position_manager self)
  /\ is_active r.2 = is_active self
  /\ portfolio_value r.2 = portfolio_value self.
Proof.
  cbv zeta. rewrite check_risk_limits_eq. cbv zeta.
  rewrite can_trade_eq. cbn [fst snd].
  assert (Hpos : positions (reset_daily_metrics now (position_manager self))
                 = positions (position_manager self)
                 /\ recorded (reset_daily_metrics now (position_manager self))
                    = recorded (position_manager self)).
  { unfold reset_daily_metrics. destruct (_ <? _); split; reflexivity. }
  destruct Hpos as [Hpos Hrec].
  pose proof (proj2 (reset_daily_metrics_spec now (position_manager self))) as Hsame.
  destruct (Qgtb trade_value (portfolio_value self * risk_per_trade self)) eqn:Hcap.
  - apply Qgtb_lt in Hcap. cbn [fst snd position_manager with_log is_active
      portfolio_value].
    split; [eexists; reflexivity|].
    split; [intros _; split; reflexivity|].
    split; [intros Hle; exfalso; exact (Qlt_not_le _ _ Hcap Hle)|].
    split; [intros Hle; exfalso; exact (Qlt_not_le _ _ Hcap Hle)|].
    repeat split.
  - apply Qgtb_le in Hcap.
    destruct (Qgtb (daily_pnl (reset_daily_metrics now (position_manager self))) _)
      eqn:Hbr; cbn [fst snd position_manager with_log with_position_manager is_active
                    portfolio_value].
    + split; [eexists; reflexivity|].
      split; [intros Hlt; exfalso; exact (Qlt_not_le _ _ Hlt Hcap)|].
      split; [reflexivity|].
      split; [intros _ Hno; discriminate|].
      repeat split; assumption.
    + split; [eexists; reflexivity|].
      split; [intros Hlt; exfalso; exact (Qlt_not_le _ _ Hlt Hcap)|].
      split; [reflexivity|].
      split; [intros _ _; split; reflexivity|].
      repeat split; assumption.
Qed.

(** A SELL never gets past validation: the lookup of [get_position]
    raises, [_validate_trade] answers false, and [execute_trade] raises
    without having touched the ledger. *)
Lemma execute_trade_sell_raises (now : Z) (symbol : string) (quantity : Z)
    (self : Trader.t) :
  exists (e : exn) (s' : Trader.t),
    execute_trade cfg get_stock_price automation_execute_trade now symbol "SELL"
      quantity self = (inl e, s')
    /\ position_manager s' = position_manager self.
Proof.
  unfold execute_trade, try_except, mbind, get.
  destruct (is_active self) eqn:Hact; cbn [negb].
  - unfold _validate_trade, try_except, mbind, get_position, mraise, log, mret.
    change (bool_decide ("SELL" = "BUY")) with false.
    change (bool_decide ("SELL" = "SELL")) with true.
    cbn [negb orb].
    destruct (quantity <=? 0); cbn [negb]; eexists; eexists; split; reflexivity.
  - unfold mraise, log. eexists; eexists; split; reflexivity.
Qed.

(** One pass of the watcher over one position leaves the ledger as it was,
    whether it completes or raises. *)
Lemma trailing_stop_body_frozen (now : Z) (item : string * Position) (self : Trader.t) :
  position_manager
    (trailing_stop_body cfg get_stock_price automation_execute_trade now item self).2
  = position_manager self.
Proof.
  destruct item as [symbol position].
  unfold trailing_stop_body, mbind, lift, get, update_stop_loss, mraise, log, mret,
    getitem, ret, raise.
  destruct (get_stock_price symbol) as [e|current_price]; [reflexivity|].
  destruct (Qgtb current_price (entry_price position)).
  - destruct (stop_loss position) as [stop|]; [|reflexivity].
    destruct (Qgtb _ stop); [reflexivity|].
    destruct (Qle_bool current_price stop).
    + destruct (execute_trade_sell_raises now symbol (quantity position) self)
        as (e & s' & -> & Hs'). exact Hs'.
    + destruct (target position) as [tgt|]; [|reflexivity].
      destruct (Qle_bool tgt current_price); [|reflexivity].
      destruct (execute_trade_sell_raises now symbol (quantity position) self)
        as (e & s' & -> & Hs'). exact Hs'.
  - destruct (stop_loss position) as [stop|]; [|reflexivity].
    destruct (Qle_bool current_price stop).
    + destruct (execute_trade_sell_raises now symbol (quantity position) self)
        as (e & s' & -> & Hs'). exact Hs'.
    + destruct (target position) as [tgt|]; [|reflexivity].
      destruct (Qle_bool tgt current_price); [|reflexivity].
      destruct (execute_trade_sell_raises now symbol (quantity position) self)
        as (e & s' & -> & Hs'). exact Hs'.
Qed.

Lemma for_each_frozen (now : Z) (items : list (string * Position)) :
  forall self : Trader.t,
    position_manager
      (for_each items
         (trailing_stop_body cfg get_stock_price automation_execute_trade now) self).2
    = position_manager self.
Proof.
  induction items as [|item rest IH]; intros self; [reflexivity|].
  cbn [for_each]. unfold mbind.
  pose proof (trailing_stop_body_frozen now item self) as Hbody.
  destruct (trailing_stop_body cfg get_stock_price automation_execute_trade now
              item self) as [[e|[]] s']; cbn [snd] in *.
  - exact Hbody.
  - rewrite IH. exact Hbody.
Qed.

Lemma update_trailing_stops_frozen (now : Z) (self : Trader.t) :
  let r := update_trailing_stops cfg get_stock_price automation_execute_trade now
             self in
  r.1 = inr tt /\ position_manager r.2 = position_manager self.
Proof.
  cbv zeta. unfold update_trailing_stops, try_except, mbind, get.
  pose proof (for_each_frozen now
                (map_to_list (get_active_positions (position_manager self))) self)
    as Hloop.
  destruct (for_each _ _ self) as [[e|[]] s']; cbn [fst snd] in *.
  - split; [reflexivity | exact Hloop].
  - split; [reflexivity | exact Hloop].
Qed.

End TraderFacts.

(** C4. What the code does: the gate approves no trade.  For every
    trader, clock reading and trade value [_check_risk_limits] answers
    false, because the exposure check calls [get_total_exposure], which
    [PositionManager] does not define, and the exception is answered by
    false.  A trade of 1000 proposed to [fresh_trader] meets all three
    conditions (1000 is within the per-trade limit of 2000, the daily
    breaker is not tripped, and with no open position the exposure would
    be 1000 against a cap of 5000), and it is rejected with the line
    "Risk check failed". *)
Theorem check_risk_limits_rejects_every_trade :
  (forall (cfg : Settings) (now : Z) (trade_value : Q) (self : Trader.t),
     (Trader._check_risk_limits cfg now trade_value self).1 = inr false)
  /\ (let self := GateExamples.fresh_trader in
      let pm := Trader.position_manager self in
      let r := Trader._check_risk_limits settings Examples.noon 1000 self in
      (1000 <= Trader.portfolio_value self * Trader.risk_per_trade self)%Q
      /\ (PositionManager.can_trade settings Examples.noon
            (Trader.portfolio_value self) pm).1 = true
      /\ PositionManager.positions pm = ∅
      /\ (0 + 1000
          <= Trader.portfolio_value self * MAX_POSITION_SIZE_PERCENT settings / 100)%Q
      /\ r.1 = inr false
      /\ Trader.logged r.2
         = [Trader.RiskCheckFailed (AttributeError "get_total_exposure")]
      /\ Trader.position_manager r.2 = pm).
Proof.
  split; [intros; apply check_risk_limits_never_approves|].
  cbv zeta.
  split; [discriminate|]. split; [reflexivity|]. split; [reflexivity|].
  split; [discriminate|]. split; [reflexivity|]. split; reflexivity.
Qed.

(** A rejection is not free of effects: a trade of 1000 proposed on
    day 1 to a trader whose ledger was last reset on day 0 with a loss of
    5000 is rejected (the exposure of 4500 plus 1000 exceeds the cap of
    5000 in any case), and the rejection has reset daily_pnl and moved
    last_reset. *)
Lemma check_risk_limits_resets_on_rejection :
  let self := Examples.yesterdays_trader in
  let r := Trader._check_risk_limits settings Examples.next_noon 1000 self in
  r.1 = inr false
  /\ PositionManager.daily_pnl (Trader.position_manager self) = (-5000)%Q
  /\ PositionManager.daily_pnl (Trader.position_manager r.2) = 0%Q
  /\ PositionManager.last_reset (Trader.position_manager self) = 0
  /\ PositionManager.last_reset (Trader.position_manager r.2) = 1
  /\ Trader.position_manager r.2 <> Trader.position_manager self.
Proof.
  cbv zeta. repeat split. vm_compute. discriminate.
Qed.

(** The gate on [yesterdays_trader]: an oversized trade is turned away
    with nothing but a log line; on day 0 the loss of 5000 trips the
    breaker and the ledger is left as it was; on day 1 a trade within the
    per-trade cap applies the daily reset and keeps the positions. *)
Lemma check_risk_limits_gate_witness :
  let self := Examples.yesterdays_trader in
  (Trader._check_risk_limits settings Examples.next_noon 3000 self).2
  = Trader.with_log
      (Trader.TradeValueExceedsMax 3000
         (Trader.portfolio_value self * Trader.risk_per_trade self)) self
  /\ (Trader._check_risk_limits settings Examples.noon 1000 self).2
     = Trader.with_log Trader.DailyLossLimitReached
         (Trader.with_position_manager
            (PositionManager.can_trade settings Examples.noon
               (Trader.portfolio_value self) (Trader.position_manager self)).2 self)
  /\ Trader.position_manager
       (Trader._check_risk_limits settings Examples.next_noon 1000 self).2
     = PositionManager.reset_daily_metrics Examples.next_noon
         (Trader.position_manager self)
  /\ Trader.position_manager
       (Trader._check_risk_limits settings Examples.noon 1000 self).2
     = Trader.position_manager self.
Proof.
  cbv zeta.
  destruct (check_risk_limits_gate settings Examples.next_noon 3000
              Examples.yesterdays_trader) as (_ & Hcap & _).
  destruct (check_risk_limits_gate settings Examples.next_noon 1000
              Examples.yesterdays_trader) as (_ & _ & Hreset & _).
  destruct (check_risk_limits_gate settings Examples.noon 1000
              Examples.yesterdays_trader)
    as (_ & _ & _ & Hbreaker & _ & _ & Hsame & _).
  split; [apply Hcap; reflexivity|].
  split; [apply Hbreaker; [discriminate | reflexivity]|].
  split; [apply Hreset; discriminate | apply Hsame; discriminate].
Defined.

(** C7. What the code does: the watcher changes no stop at all.  For every
    trader, quote source and venue, [update_trailing_stops] returns
    normally and leaves the ledger exactly as it was.  With AAA held at
    entry 100 and stop 98, a quote of 120 makes the candidate stop 117.6
    exceed the stop, the call of the missing [update_stop_loss] raises
    into the handler and the stop stays at 98; on a position written by
    [add_position], which has no ['stop_loss'] key, the pass ends in a
    KeyError. *)
Theorem update_trailing_stops_never_moves_stop :
  (forall (cfg : Settings) (get_stock_price : string -> result Q)
          (automation_execute_trade : string -> Z -> string -> result Trader.TradeResult)
          (now : Z) (self : Trader.t),
     let r := Trader.update_trailing_stops cfg get_stock_price
                automation_execute_trade now self in
     r.1 = inr tt /\ Trader.position_manager r.2 = Trader.position_manager self)
  /\ (let r := Trader.update_trailing_stops settings (Examples.quote_all 120)
                 Examples.fill_all Examples.noon Examples.trailing_trader in
      (Qgtb (120 * (1 - Trader.trailing_sl_percent Examples.trailing_trader)) 98 = true
       /\ (120 * (1 - Trader.trailing_sl_percent Examples.trailing_trader) == 1176 # 10)%Q)
      /\ PositionManager.stop_loss
           <$> PositionManager.positions (Trader.position_manager r.2) !! "AAA"
         = Some (Some 98%Q)
      /\ Trader.logged r.2
         = [Trader.FailedToUpdateTrailingStops (AttributeError "update_stop_loss")])
  /\ (let opened := Trader.with_position_manager
                      (PositionManager.add_position Examples.noon "AAA" 100 10
                         (PositionManager.init Examples.noon))
                      Examples.trailing_trader in
      let r := Trader.update_trailing_stops settings (Examples.quote_all 120)
                 Examples.fill_all Examples.noon opened in
      Trader.logged r.2
      = [Trader.FailedToUpdateTrailingStops (KeyError "stop_loss")]).
Proof.
  split; [intros; apply update_trailing_stops_frozen|].
  split.
  - cbv zeta. split; [split; reflexivity|]. split; vm_compute; reflexivity.
  - vm_compute. reflexivity.
Qed.

(** * Further properties of the code *)

(** ** The signal scorer: short series, locality, range *)

Section SignalScorerMore.

Import TechnicalAnalyzer VoteSpec.

(** X1. [generate_signal] on series too short for it: an empty frame has no
    last row, and a single row has no prior close for the volume ballot;
    a single row whose volume ballot is not cast is scored as usual. *)
Theorem generate_signal_short_series (r : Row) :
  generate_signal [] = inl IndexError
  /\ (cell_gt (Volume r) (Volume_SMA r) = true -> generate_signal [r] = inl IndexError)
  /\ (cell_gt (Volume r) (Volume_SMA r) = false ->
      exists sig, generate_signal [r] = inr sig
                  /\ buy_signals sig + sell_signals sig = 5).
Proof.
  split; [reflexivity|].
  pose proof (generate_signal_eq [] r) as Heq. cbn [app] in Heq.
  unfold volume_cast in Heq.
  split; intros Hv; rewrite Hv in Heq.
  - exact Heq.
  - exists (vote_signal r None). split; [exact Heq|].
    destruct (vote_signal_bounds r None) as (Hn & Hsix & _).
    cbv zeta in Hn, Hsix.
    destruct (Z.eq_dec (buy_signals (vote_signal r None)
                        + sell_signals (vote_signal r None)) 6) as [H6|H6].
    + apply Hsix in H6. unfold volume_cast in H6. congruence.
    + lia.
Qed.

Lemma generate_signal_short_series_witness :
  generate_signal [defined_row 104 1200 101 99 102 75 1 2 105 1000] = inl IndexError
  /\ exists sig, generate_signal [defined_row 104 800 101 99 102 75 1 2 105 1000]
                 = inr sig
                 /\ buy_signals sig + sell_signals sig = 5.
Proof.
  split.
  - apply (generate_signal_short_series
             (defined_row 104 1200 101 99 102 75 1 2 105 1000)). reflexivity.
  - apply (generate_signal_short_series
             (defined_row 104 800 101 99 102 75 1 2 105 1000)). reflexivity.
Defined.

(** X2. The signal depends on the series only through its last row and the
    close of the row before it: two histories that agree there are scored
    alike, whatever the earlier bars and the other cells of the prior row. *)
Theorem generate_signal_local (pre pre' : list Row) (prev prev' last : Row) :
  Close prev = Close prev' ->
  generate_signal (pre ++ [prev; last]) = generate_signal (pre' ++ [prev'; last]).
Proof.
  intros Hclose.
  change (pre ++ [prev; last]) with (pre ++ [prev] ++ [last]).
  change (pre' ++ [prev'; last]) with (pre' ++ [prev'] ++ [last]).
  rewrite !app_assoc, !generate_signal_eq, <- !app_assoc.
  change ([prev] ++ [last]) with [prev; last].
  change ([prev'] ++ [last]) with [prev'; last].
  rewrite !iloc_back_prev, Hclose. reflexivity.
Qed.

Lemma generate_signal_local_witness :
  generate_signal [close_only 1; close_only 100;
                   defined_row 104 1200 101 99 102 75 1 2 105 1000]
  = generate_signal [defined_row 100 5 6 7 8 9 10 11 12 13;
                     defined_row 104 1200 101 99 102 75 1 2 105 1000].
Proof.
  apply (generate_signal_local [close_only 1] [] (close_only 100)
           (defined_row 100 5 6 7 8 9 10 11 12 13)
           (defined_row 104 1200 101 99 102 75 1 2 105 1000)).
  reflexivity.
Defined.

Lemma vote_signal_range (r : Row) (pc : cell) :
  let sig := vote_signal r pc in
  0 <= buy_signals sig /\ 0 <= sell_signals sig
  /\ Z.max (buy_signals sig) (sell_signals sig) <= 6
  /\ (volume_cast r = false -> Z.max (buy_signals sig) (sell_signals sig) <= 5)
  /\ (strength sig <= 6 # 7)%Q
  /\ (volume_cast r = false -> (strength sig <= 5 # 7)%Q)
  /\ (strength_clears settings sig = true
      <-> 5 <= Z.max (buy_signals sig) (sell_signals sig))
  /\ (strength_clears settings sig = true -> direction sig <> 0).
Proof.
  unfold vote_signal, buy_votes, sell_votes, ballots.
  destruct (trend1_buys r), (trend2_buys r), (momentum_buys r), (macd_buys r),
    (volatility_buys r), (volume_cast r), (volume_buys r pc);
    vm_compute; repeat split; intros; try discriminate; try lia; try reflexivity;
    exfalso; match goal with H : _ -> False |- _ => apply H; reflexivity end.
Qed.

(** X3. The strength never reaches 1: at most six ballots are counted against
    a denominator of seven, and at most five when the volume ballot is not
    cast. *)
Theorem generate_signal_strength_ceiling (data : list Row) (sig : Signal) :
  generate_signal data = inr sig ->
  0 <= buy_signals sig /\ 0 <= sell_signals sig
  /\ Z.max (buy_signals sig) (sell_signals sig) <= 6
  /\ (strength sig <= 6 # 7)%Q
  /\ (strength sig < 1)%Q
  /\ (buy_signals sig + sell_signals sig = 5 -> (strength sig <= 5 # 7)%Q).
Proof.
  intros Hrun.
  apply generate_signal_inv in Hrun as (pre & last & pc & -> & ->).
  destruct (vote_signal_range last pc) as (Hb & Hs & Hmax & _ & H6 & H5 & _).
  destruct (vote_signal_bounds last pc) as (_ & Hsix & _).
  cbv zeta in *.
  split; [exact Hb|]. split; [exact Hs|]. split; [exact Hmax|].
  split; [exact H6|].
  split; [apply Qle_lt_trans with (1 := H6); reflexivity|].
  intros Hfive. apply H5.
  destruct (volume_cast last); [|reflexivity].
  assert (buy_signals (vote_signal last pc) + sell_signals (vote_signal last pc) = 6)
    by (apply Hsix; reflexivity).
  lia.
Qed.

Lemma generate_signal_strength_ceiling_witness :
  (TechnicalAnalyzer.strength (mkSignal 1 (inject_Z 5 / 7)%Q 5 0) <= 5 # 7)%Q.
Proof.
  assert (Hrun : generate_signal
                   [close_only 100;
                    defined_row 104 800 101 99 102 55 (3 # 2) 1 103 1000]
                 = inr (mkSignal 1 (inject_Z 5 / 7)%Q 5 0)) by reflexivity.
  destruct (generate_signal_strength_ceiling _ _ Hrun) as (_ & _ & _ & _ & _ & H5).
  apply H5. reflexivity.
Defined.

(** X4. With the default MIN_SIGNAL_STRENGTH of 0.7 a signal passes the
    strength test of the trading loop exactly when its larger side holds
    at least five ballots; such a signal is never neutral. *)
Theorem default_threshold_is_decisive (data : list Row) (sig : Signal) :
  generate_signal data = inr sig ->
  (strength_clears settings sig = true
   <-> 5 <= Z.max (buy_signals sig) (sell_signals sig))
  /\ (strength_clears settings sig = true ->
      (direction sig = 1 /\ 5 <= buy_signals sig /\ sell_signals sig <= 1)
      \/ (direction sig = -1 /\ 5 <= sell_signals sig /\ buy_signals sig <= 1)).
Proof.
  intros Hrun.
  apply generate_signal_inv in Hrun as (pre & last & pc & -> & ->).
  destruct (vote_signal_range last pc) as (_ & _ & _ & _ & _ & _ & Hiff & _).
  split; [exact Hiff|]. clear Hiff.
  unfold vote_signal, buy_votes, sell_votes, ballots.
  destruct (trend1_buys last), (trend2_buys last), (momentum_buys last),
    (macd_buys last), (volatility_buys last), (volume_cast last),
    (volume_buys last pc);
    vm_compute; intros; try discriminate;
    (left; repeat split; (discriminate || reflexivity))
    || (right; repeat split; (discriminate || reflexivity)).
Qed.

Lemma default_threshold_is_decisive_witness :
  strength_clears settings (mkSignal 1 (inject_Z 5 / 7)%Q 5 0) = true
  /\ strength_clears settings (mkSignal 0 (inject_Z 3 / 7)%Q 3 3) = false.
Proof.
  assert (Hfive : generate_signal
                    [close_only 100;
                     defined_row 104 800 101 99 102 55 (3 # 2) 1 103 1000]
                  = inr (mkSignal 1 (inject_Z 5 / 7)%Q 5 0)) by reflexivity.
  assert (Htie : generate_signal
                   [close_only 100;
                    defined_row 104 1200 101 99 102 75 1 2 105 1000]
                 = inr (mkSignal 0 (inject_Z 3 / 7)%Q 3 3)) by reflexivity.
  destruct (default_threshold_is_decisive _ _ Hfive) as (Hyes & _).
  destruct (default_threshold_is_decisive _ _ Htie) as (Hno & _).
  split; [apply Hyes; cbn; lia|].
  apply not_true_is_false. intros Hc. apply Hno in Hc. cbn in Hc. lia.
Defined.

(** X5. Indicators still in their warm-up vote sell: on a last row whose
    SMA_20, RSI, MACD, Bollinger middle band and volume average are NaN,
    whatever the other cells, the five ballots are all sells, the volume
    ballot is not cast, the direction is -1 and the strength 5/7, which
    passes the default strength test. *)
Theorem generate_signal_warm_up_sells (pre : list Row)
    (close volume sma_50 ema_9 macd_signal : cell) :
  let last := mkRow close volume None sma_50 ema_9 None None macd_signal None None in
  generate_signal (pre ++ [last]) = inr (mkSignal (-1) (inject_Z 5 / 7)%Q 0 5)
  /\ strength_clears settings (mkSignal (-1) (inject_Z 5 / 7)%Q 0 5) = true.
Proof.
  cbv zeta. split; [|reflexivity].
  rewrite generate_signal_eq.
  assert (Hcast : volume_cast
                    (mkRow close volume None sma_50 ema_9 None None macd_signal
                       None None) = false).
  { unfold volume_cast. cbn [Volume Volume_SMA]. destruct volume; reflexivity. }
  rewrite Hcast. f_equal.
  unfold vote_signal, buy_votes, sell_votes, ballots. rewrite Hcast.
  unfold trend1_buys, trend2_buys, momentum_buys, macd_buys, volatility_buys.
  cbn [EMA_9 SMA_20 SMA_50 RSI MACD MACD_Signal Close BB_Middle].
  destruct ema_9, close; reflexivity.
Qed.

End SignalScorerMore.

(** ** The Supertrend overlay: closed form and warm-up *)

Section SupertrendMore.

Import TechnicalAnalyzer SupertrendSpec.

Local Open Scope nat_scope.

Variable ATR : list cell -> list cell -> list cell -> Z -> list cell.

Variables (data : list Bar) (period : Z) (multiplier : Q).

Local Abbreviation close := (BarClose <$> data).
Local Abbreviation upper := (basic_upperband ATR data period multiplier).
Local Abbreviation lower := (basic_lowerband ATR data period multiplier).
Local Abbreviation line := (calculate_supertrend ATR data period multiplier).

Lemma line_step (i : nat) :
  1 <= i < length data ->
  line !!! i
  = if breach close upper lower i then band_at_breach close upper lower i
    else line !!! (i - 1).
Proof.
  intros Hi.
  destruct (loop_at close upper lower (length data)
              (mkSt (replicate (length data) None) (replicate (length data) None)) i
              ltac:(apply length_replicate) ltac:(apply length_replicate) Hi)
    as [Hline _].
  unfold calculate_supertrend, supertrend_loop.
  rewrite Hline. unfold breach, breaks_down, band_at_breach, breaks_up.
  destruct (cell_gt (close !!! i) (upper !!! (i - 1))); [reflexivity|].
  destruct (cell_lt (close !!! i) (lower !!! (i - 1))); reflexivity.
Qed.

Lemma line_start : line !!! 0 = None.
Proof.
  unfold calculate_supertrend, supertrend_loop.
  destruct (loop_other close upper lower (length data - 1)
              (mkSt (replicate (length data) None) (replicate (length data) None))
              1 0 ltac:(lia)) as [H0 _].
  rewrite H0. cbn [supertrend].
  rewrite list_lookup_total_alt.
  destruct (replicate (length data) None !! 0) as [x|] eqn:Hx; [|reflexivity].
  apply lookup_replicate in Hx as [-> _]. reflexivity.
Qed.

(** X6. The line in closed form: before the first breach of a prior band it is
    undefined, and afterwards it sits on the band value fixed by the most
    recent breach (the lower band of that bar after a break upwards, the
    upper band after a break downwards), however far back that breach
    lies. *)
Theorem supertrend_last_breach (i : nat) :
  i < length data ->
  ((forall k, 1 <= k <= i -> breach close upper lower k = false) ->
   line !!! i = None)
  /\ (forall j, 1 <= j <= i ->
      breach close upper lower j = true ->
      (forall k, j < k <= i -> breach close upper lower k = false) ->
      line !!! i = band_at_breach close upper lower j).
Proof.
  induction i as [|i IH]; intros Hlen.
  - split; [intros _; apply line_start | intros j Hj; lia].
  - destruct (IH ltac:(lia)) as [IHnone IHlast].
    pose proof (line_step (S i) ltac:(lia)) as Hstep.
    replace (S i - 1) with i in Hstep by lia.
    split.
    + intros Hquiet. rewrite Hstep, (Hquiet (S i)) by lia.
      apply IHnone. intros k Hk. apply Hquiet. lia.
    + intros j Hj Hbreach Hquiet.
      destruct (decide (j = S i)) as [->|Hne].
      * rewrite Hstep, Hbreach. reflexivity.
      * rewrite Hstep, (Hquiet (S i)) by lia.
        apply IHlast; [lia | exact Hbreach |].
        intros k Hk. apply Hquiet. lia.
Qed.

Lemma map_lookup {A B} (f : A -> B) (l : list A) (i : nat) :
  map f l !! i = f <$> l !! i.
Proof.
  revert i. induction l as [|x l IH]; intros [|i]; simpl; try reflexivity.
  apply IH.
Qed.

(** A bar whose ATR is NaN has NaN bands. *)
Lemma bands_nan (j : nat) :
  atr_of ATR data period !!! j = None ->
  upper !!! j = None /\ lower !!! j = None.
Proof.
  intros Hatr.
  unfold basic_upperband, basic_lowerband, series_add, series_sub, series_scale.
  rewrite !list_lookup_total_alt, !lookup_zip_with, !map_lookup.
  rewrite list_lookup_total_alt in Hatr.
  destruct (hl2 data !! j) as [h|]; [|split; reflexivity].
  destruct (atr_of ATR data period !! j) as [a|]; [|split; reflexivity].
  simpl in Hatr. subst a. destruct h; split; reflexivity.
Qed.

(** X7. While ATR is warming up the line is undefined: if ATR is NaN on the
    first [k] bars, the line is NaN on bars 0 to [k], the first bar with a
    defined ATR included. *)
Theorem supertrend_warm_up (k i : nat) :
  (forall j, j < k -> atr_of ATR data period !!! j = None) ->
  i <= k -> i < length data ->
  line !!! i = None.
Proof.
  intros Hwarm Hik Hlen.
  apply (proj1 (supertrend_last_breach i Hlen)).
  intros j Hj.
  destruct (bands_nan (j - 1) (Hwarm (j - 1) ltac:(lia))) as [Hu Hl].
  unfold breach, breaks_down, breaks_up, cell_lt. rewrite Hu, Hl.
  destruct (close !!! j); reflexivity.
Qed.

End SupertrendMore.

(** On [three_bars] the only breach is at bar 1, upwards; bar 2 still
    carries the lower band of bar 1. *)
Lemma supertrend_last_breach_witness :
  TechnicalAnalyzer.calculate_supertrend Examples.flat_atr Examples.three_bars 7 3
    !!! 2%nat
  = TechnicalAnalyzer.basic_lowerband Examples.flat_atr Examples.three_bars 7 3
      !!! 1%nat.
Proof.
  destruct (supertrend_last_breach Examples.flat_atr Examples.three_bars 7 3 2)
    as [_ Hlast]; [simpl; lia|].
  apply (Hlast 1%nat); [lia | reflexivity |].
  intros k Hk. assert (k = 2%nat) as -> by lia. reflexivity.
Defined.

(** On [rising_bars] with an ATR defined from bar 2 on, bar 2 is still
    undefined although its close is far above the bars before it. *)
Lemma supertrend_warm_up_witness :
  TechnicalAnalyzer.calculate_supertrend MoreExamples.warming_atr
    MoreExamples.rising_bars 7 3 !!! 2%nat = None.
Proof.
  apply (supertrend_warm_up MoreExamples.warming_atr MoreExamples.rising_bars 7 3
           2 2); [|lia | simpl; lia].
  intros j Hj. destruct j as [|[|j]]; [reflexivity | reflexivity | lia].
Defined.

(** ** The position ledger: resets, round trips, marks *)

Section LedgerMore.

Import PositionManager.

(** X9. The daily reset happens at most once per calendar day and never moves
    the reset date backwards: after a reset the stored date is at least
    today's, a further call with a clock reading of the same or an
    earlier day changes nothing, and no call touches the positions or the
    recorded trades. *)
Theorem reset_daily_metrics_once_a_day (now later : Z) (self : t) :
  let s := reset_daily_metrics now self in
  last_reset self <= last_reset s
  /\ date_of now <= last_reset s
  /\ positions s = positions self
  /\ recorded s = recorded self
  /\ (date_of later <= date_of now -> reset_daily_metrics later s = s)
  /\ (date_of now < date_of later ->
      daily_pnl (reset_daily_metrics later s) = 0%Q
      /\ last_reset (reset_daily_metrics later s) = date_of later
         \/ date_of later <= last_reset self).
Proof.
  cbv zeta. unfold reset_daily_metrics at 1 2 3 4.
  destruct (last_reset self <? date_of now) eqn:Hroll;
    [apply Z.ltb_lt in Hroll | apply Z.ltb_ge in Hroll];
    cbn [last_reset positions recorded].
  - split; [lia|]. split; [lia|]. split; [reflexivity|]. split; [reflexivity|].
    rewrite (proj1 (reset_daily_metrics_spec now self) Hroll).
    split.
    + intros Hday. apply reset_daily_metrics_spec. cbn [last_reset]. exact Hday.
    + intros Hnext. left.
      rewrite (proj1 (reset_daily_metrics_spec later _)) by (cbn [last_reset]; lia).
      split; reflexivity.
  - split; [lia|]. split; [lia|]. split; [reflexivity|]. split; [reflexivity|].
    rewrite (proj2 (reset_daily_metrics_spec now self) Hroll).
    split.
    + intros Hday. apply reset_daily_metrics_spec. lia.
    + intros Hnext. destruct (Z_lt_le_dec (last_reset self) (date_of later)) as [H|H].
      * left. rewrite (proj1 (reset_daily_metrics_spec later self) H).
        split; reflexivity.
      * right. exact H.
Qed.

Lemma reset_daily_metrics_once_a_day_witness :
  let s := reset_daily_metrics Examples.next_noon (Examples.ledger_with_aaa (-1001)) in
  reset_daily_metrics (Examples.next_noon + 3600) s = s
  /\ reset_daily_metrics Examples.noon s = s
  /\ daily_pnl s = 0%Q.
Proof.
  cbv zeta.
  destruct (reset_daily_metrics_once_a_day Examples.next_noon
              (Examples.next_noon + 3600) (Examples.ledger_with_aaa (-1001)))
    as (_ & _ & _ & _ & Hsame & _).
  destruct (reset_daily_metrics_once_a_day Examples.next_noon Examples.noon
              (Examples.ledger_with_aaa (-1001)))
    as (_ & _ & _ & _ & Hback & _).
  split; [apply Hsame; discriminate|].
  split; [apply Hback; discriminate | reflexivity].
Defined.

(** X10. Opening a symbol that is not held and closing it again restores the
    open positions; the realized P&L is (exit - entry) * quantity, zero at
    the entry price, and a BUY and a SELL row are recorded.  On a symbol
    that is already held the same two calls lose the earlier position:
    the ledger ends without the symbol. *)
Theorem open_close_round_trip (opened closed : Z) (symbol : string)
    (entry exit_price : Q) (qty : Z) (self : t) :
  let r := close_position closed symbol exit_price
             (add_position opened symbol entry qty self) in
  r.1 = ((exit_price - entry) * inject_Z qty)%Q
  /\ ((exit_price == entry)%Q ->
      (r.1 == 0)%Q /\ (daily_pnl r.2 == daily_pnl self)%Q)
  /\ positions r.2 = delete symbol (positions self)
  /\ (positions self !! symbol = None -> positions r.2 = positions self)
  /\ (is_Some (positions self !! symbol) ->
      size (positions r.2) = pred (size (positions self)))
  /\ recorded r.2
     = recorded self
       ++ [mkTradeRecord symbol entry None qty "BUY" opened None None;
           mkTradeRecord symbol entry (Some exit_price) qty "SELL" opened
             (Some closed) (Some ((exit_price - entry) * inject_Z qty)%Q)].
Proof.
  cbv zeta. unfold close_position, add_position. cbn [positions].
  rewrite lookup_insert_eq.
  cbn [fst snd positions daily_pnl recorded entry_price quantity entry_time].
  split; [reflexivity|].
  split.
  { intros Heq. rewrite Heq. split; ring. }
  split; [apply delete_insert_eq|].
  split; [intros Hfree; rewrite delete_insert_eq; apply delete_id; exact Hfree|].
  split.
  { intros Hheld. rewrite delete_insert_eq. apply map_size_delete_Some. exact Hheld. }
  rewrite <- app_assoc. reflexivity.
Qed.

Lemma open_close_round_trip_witness :
  let fresh := close_position Examples.noon "BBB" 10 
                 (add_position Examples.noon "BBB" 10 1 (Examples.ledger_with_aaa 0)) in
  let again := close_position Examples.noon "AAA" 120
                 (add_position Examples.noon "AAA" 120 5 (Examples.ledger_with_aaa 0)) in
  positions fresh.2 = positions (Examples.ledger_with_aaa 0)
  /\ (fresh.1 == 0)%Q
  /\ size (positions again.2) = 0%nat.
Proof.
  cbv zeta.
  destruct (open_close_round_trip Examples.noon Examples.noon "BBB" 10 10 1
              (Examples.ledger_with_aaa 0)) as (_ & Hzero & _ & Hback & _).
  destruct (open_close_round_trip Examples.noon Examples.noon "AAA" 120 120 5
              (Examples.ledger_with_aaa 0)) as (_ & _ & _ & _ & Hlost & _).
  split; [apply Hback; reflexivity|].
  split; [apply Hzero; reflexivity|].
  apply Hlost. eexists. reflexivity.
Defined.

(** X11. Closing at the marked price realizes the mark: after
    [update_position_values] has marked a held symbol at a quote, the
    position stores that quote and its unrealized P&L, and a
    [close_position] at the same price returns exactly the stored
    unrealized P&L. *)
Theorem close_at_mark_realizes_unrealized (prices : gmap string Q) (now : Z)
    (symbol : string) (p : Position) (cp : Q) (self : t) :
  positions self !! symbol = Some p ->
  prices !! symbol = Some cp ->
  let marked := (update_position_values prices self).2 in
  exists q : Position,
    positions marked !! symbol = Some q
    /\ current_price q = Some cp
    /\ unrealized_pnl q = Some (close_position now symbol cp marked).1
    /\ daily_pnl (close_position now symbol cp marked).2
       = (daily_pnl self + (close_position now symbol cp marked).1)%Q.
Proof.
  intros Hp Hcp. cbv zeta.
  pose proof (update_position_values_lookup prices self symbol) as Hlook.
  rewrite Hp in Hlook.
  set (marked := (update_position_values prices self).2) in *.
  change (positions marked !! symbol = Some (remark prices symbol p)) in Hlook.
  unfold remark in Hlook. rewrite Hcp in Hlook.
  assert (Hpnl : daily_pnl marked = daily_pnl self) by reflexivity.
  clearbody marked.
  eexists. split; [exact Hlook|].
  unfold close_position. rewrite Hlook, <- Hpnl.
  cbn [fst snd mark current_price unrealized_pnl entry_price quantity daily_pnl].
  repeat split.
Qed.

Lemma close_at_mark_realizes_unrealized_witness :
  exists q : Position,
    positions (update_position_values Examples.bbb_quote Examples.stale_ledger).2
      !! "BBB" = Some q
    /\ unrealized_pnl q
       = Some (close_position Examples.noon "BBB" 12
                 (update_position_values Examples.bbb_quote Examples.stale_ledger).2).1.
Proof.
  destruct (close_at_mark_realizes_unrealized Examples.bbb_quote Examples.noon "BBB"
              (mkPosition 10 1 0 None None None None) 12 Examples.stale_ledger
              eq_refl eq_refl) as (q & Hq & _ & Hu & _).
  exists q. split; [exact Hq | exact Hu].
Defined.

Lemma ledger_eq (a b : t) :
  positions a = positions b -> daily_pnl a = daily_pnl b ->
  last_reset a = last_reset b -> recorded a = recorded b -> a = b.
Proof. destruct a, b. simpl. congruence. Qed.

Lemma remark_remark prices k p : remark prices k (remark prices k p) = remark prices k p.
Proof. unfold remark. destruct (prices !! k); reflexivity. Qed.

Lemma fresh_pnl_remark prices k p :
  fresh_pnl prices k (remark prices k p) = fresh_pnl prices k p.
Proof. unfold fresh_pnl, remark. destruct (prices !! k); reflexivity. Qed.

(** X12. Marking twice with the same prices is the same as marking once: the
    ledger after the second call equals the ledger after the first, and
    both calls return the same total. *)
Theorem update_position_values_idempotent (prices : gmap string Q) (self : t) :
  let once := update_position_values prices self in
  let twice := update_position_values prices once.2 in
  twice.2 = once.2 /\ (twice.1 == once.1)%Q.
Proof.
  cbv zeta.
  set (once := update_position_values prices self).
  assert (Hpos : positions (update_position_values prices once.2).2 = positions once.2).
  { apply map_eq. intros k. rewrite update_position_values_lookup.
    unfold once. rewrite update_position_values_lookup.
    destruct (positions self !! k); cbn; [|reflexivity].
    rewrite remark_remark. reflexivity. }
  split.
  - apply ledger_eq; [exact Hpos | reflexivity..].
  - assert (Hsum : forall s, ((update_position_values prices s).1
                              == map_sum (fresh_pnl prices) (positions s))%Q).
    { intros s. unfold update_position_values. cbn [fst].
      destruct (mark_loop prices 0 (positions s) (positions s)) as [Hs _];
        [reflexivity|].
      rewrite Hs. ring. }
    subst once. rewrite (Hsum (update_position_values prices self).2), (Hsum self).
    etransitivity;
      [apply (map_sum_rewritten _ (remark prices) (positions self));
       intros k; apply update_position_values_lookup|].
    apply map_sum_ext. intros k p _. rewrite fresh_pnl_remark. reflexivity.
Qed.

End LedgerMore.

(** ** Position sizing *)

Section Sizing.







End Sizing.

(** ** Market hours *)

Section MarketHours.

Import MarketAnalyzer.




End MarketHours.

(** ** The trading system: signals, scans, shutdown *)

Section TradingSystemFacts.

Import PositionManager TradingSystem.

Variable cfg : Settings.
Variable execute_trade : Z -> string -> Z -> string -> result Trader.TradeResult.
Variable get_stock_price : Z -> string -> result Q.
Variable analyze_stock : Z -> string -> result Analysis.
Variable india_vix : Z -> cell.

Local Abbreviation process := (process_signals cfg execute_trade).

Lemma holds_lookup (symbol : string) (self : TradingSystem.t) :
  holds symbol self
  = match positions (position_manager self) !! symbol with
    | Some _ => true
    | None => false
    end.
Proof. unfold holds. destruct (_ !! symbol); reflexivity. Qed.

(** The four outcomes of [process_signals]. *)
Lemma process_signals_cases (now : Z) (symbol : string) (analysis : Analysis)
    (self : TradingSystem.t) :
  let pm := position_manager self in
  let price := current_price analysis in
  process now symbol analysis self = (inr tt, self)
  \/ (exists e, process now symbol analysis self
                = (inr tt, with_log (FailedToProcessSignals symbol e) self))
  \/ (strength_clears cfg (signal analysis) = true
      /\ TechnicalAnalyzer.direction (signal analysis) = 1
      /\ positions pm !! symbol = None
      /\ exists q : Z,
           PositionSizing.calculate_position_size cfg (portfolio_value self) price
           = inr q
           /\ 0 < q
           /\ process now symbol analysis self
              = (inr tt,
                 with_log (OpenedPosition symbol q price)
                   (with_position_manager (add_position now symbol price q pm) self)))
  \/ (strength_clears cfg (signal analysis) = true
      /\ TechnicalAnalyzer.direction (signal analysis) = -1
      /\ exists p : Position,
           positions pm !! symbol = Some p
           /\ process now symbol analysis self
              = (inr tt,
                 with_log (ClosedPosition symbol (close_position now symbol price pm).1)
                   (with_position_manager (close_position now symbol price pm).2 self))).
Proof.
  cbv zeta.
  unfold process_signals, try_except, mbind, get, lift, call, log, mret, position_of.
  cbv zeta.
  destruct (strength_clears cfg (signal analysis)) eqn:Hclear; [|left; reflexivity].
  rewrite holds_lookup.
  destruct (TechnicalAnalyzer.direction (signal analysis) =? 1) eqn:Hup;
    destruct (positions (position_manager self) !! symbol) as [p|] eqn:Hp;
    cbn [negb andb].
  - (* buy signal, already held *)
    destruct (TechnicalAnalyzer.direction (signal analysis) =? -1) eqn:Hdown.
    + apply Z.eqb_eq in Hup, Hdown. lia.
    + left. reflexivity.
  - (* buy signal, not held *)
    apply Z.eqb_eq in Hup.
    destruct (PositionSizing.calculate_position_size cfg (portfolio_value self)
                (current_price analysis)) as [e|q] eqn:Hsize.
    { right. left. eexists. reflexivity. }
    destruct (0 <? q) eqn:Hq; [|left; reflexivity].
    apply Z.ltb_lt in Hq.
    destruct (execute_trade now symbol q "BUY") as [e|trade].
    { right. left. eexists. reflexivity. }
    destruct (bool_decide (Trader.status trade = "success")); [|left; reflexivity].
    right. right. left.
    split; [reflexivity|]. split; [exact Hup|]. split; [reflexivity|].
    exists q. split; [reflexivity|]. split; [exact Hq | reflexivity].
  - (* no buy signal, held *)
    destruct (TechnicalAnalyzer.direction (signal analysis) =? -1) eqn:Hdown;
      [|left; reflexivity].
    apply Z.eqb_eq in Hdown. cbn [andb]. rewrite Hp.
    destruct (execute_trade now symbol (quantity p) "SELL") as [e|trade].
    { right. left. eexists. reflexivity. }
    destruct (bool_decide (Trader.status trade = "success")); [|left; reflexivity].
    right. right. right.
    split; [reflexivity|]. split; [exact Hdown|].
    exists p. split; reflexivity.
  - (* no buy signal, not held *)
    destruct (TechnicalAnalyzer.direction (signal analysis) =? -1); left; reflexivity.
Qed.

(** X18. [process_signals] never raises and touches one symbol only: every
    other position is left as it was, a position already held is either
    kept unchanged or closed, never overwritten, and the realized P&L of
    the day changes only by the P&L of a position it closes on a sell
    signal.  The portfolio value, the watch list and the running flag are
    not its to change. *)
Theorem process_signals_touches_one_symbol (now : Z) (symbol : string)
    (analysis : Analysis) (self : TradingSystem.t) :
  let r := process now symbol analysis self in
  let pm := position_manager self in
  let pm' := position_manager r.2 in
  r.1 = inr tt
  /\ (forall other : string, other <> symbol ->
      positions pm' !! other = positions pm !! other)
  /\ (forall p : Position, positions pm !! symbol = Some p ->
      positions pm' !! symbol = Some p
      /\ daily_pnl pm' = daily_pnl pm
      \/ positions pm' !! symbol = None
         /\ TechnicalAnalyzer.direction (signal analysis) = -1
         /\ daily_pnl pm'
            = (daily_pnl pm
               + (current_price analysis - entry_price p) * inject_Z (quantity p))%Q)
  /\ (positions pm !! symbol = None -> daily_pnl pm' = daily_pnl pm)
  /\ last_reset pm' = last_reset pm
  /\ portfolio_value r.2 = portfolio_value self
  /\ watched_symbols r.2 = watched_symbols self
  /\ is_trading r.2 = is_trading self.
Proof.
  cbv zeta.
  destruct (process_signals_cases now symbol analysis self)
    as [Hq | [[e He] | [(_ & _ & Hfree & q & _ & _ & Ho) | (_ & Hdown & p & Hp & Hc)]]];
    cbv zeta in *.
  - rewrite Hq. cbn [fst snd]. split; [reflexivity|].
    split; [reflexivity|]. split; [intros p Hp; left; split; [exact Hp|reflexivity]|].
    repeat split.
  - rewrite He. cbn [fst snd position_manager with_log].
    split; [reflexivity|].
    split; [reflexivity|]. split; [intros p Hp; left; split; [exact Hp|reflexivity]|].
    repeat split.
  - rewrite Ho. cbn [fst snd position_manager with_log with_position_manager].
    unfold add_position. cbn [positions daily_pnl last_reset].
    split; [reflexivity|].
    split; [intros other Hne; apply lookup_insert_ne; congruence|].
    split; [intros p Hp; congruence|].
    repeat split.
  - rewrite Hc. cbn [fst snd position_manager with_log with_position_manager].
    unfold close_position. rewrite Hp. cbn [snd positions daily_pnl last_reset].
    split; [reflexivity|].
    split; [intros other Hne; apply lookup_delete_ne; congruence|].
    split.
    { intros p' Hp'. assert (p' = p) as -> by congruence. right.
      split; [apply lookup_delete_eq|]. split; [exact Hdown | reflexivity]. }
    split; [intros Hnone; congruence|].
    repeat split.
Qed.

(** X19. A signal that does not pass the strength test, or is neutral, changes
    nothing at all: no order, no ledger change, no log line. *)
Theorem process_signals_ignores_weak_or_neutral (now : Z) (symbol : string)
    (analysis : Analysis) (self : TradingSystem.t) :
  strength_clears cfg (signal analysis) = false
  \/ TechnicalAnalyzer.direction (signal analysis) = 0 ->
  process now symbol analysis self = (inr tt, self).
Proof.
  intros Hweak.
  unfold process_signals, try_except, mbind, get, lift, call, log, mret.
  cbv zeta.
  destruct (strength_clears cfg (signal analysis)); [|reflexivity].
  destruct Hweak as [Hfalse | Hzero]; [discriminate|].
  rewrite Hzero. reflexivity.
Qed.



Local Abbreviation scan := (scan_symbol cfg execute_trade analyze_stock india_vix).
Local Abbreviation cycle := (scan_cycle cfg execute_trade analyze_stock india_vix).
Local Abbreviation loop := (trading_loop cfg execute_trade analyze_stock india_vix).

(** The state of a system whose breaker is tripped on the day of [now],
    compared with an earlier state [s0]: still tripped, and nothing
    bought, sold or recorded since. *)
Local Abbreviation frozen now s0 s :=
  ((can_trade cfg now (portfolio_value s) (position_manager s)).1 = false
   /\ portfolio_value s = portfolio_value s0
   /\ is_trading s = is_trading s0
   /\ watched_symbols s = watched_symbols s0
   /\ recorded (position_manager s) = recorded (position_manager s0)
   /\ forall k : string,
        holding <$> positions (position_manager s) !! k
        = holding <$> positions (position_manager s0) !! k).

Lemma reset_same_day (t t' : Z) (pm : PositionManager.t) :
  date_of t = date_of t' -> reset_daily_metrics t pm = reset_daily_metrics t' pm.
Proof. intros Hday. unfold reset_daily_metrics. rewrite Hday. reflexivity. Qed.

Lemma frozen_log (now : Z) (s0 s : TradingSystem.t) (e : log_line) :
  frozen now s0 s -> frozen now s0 (with_log e s).
Proof. intros H. exact H. Qed.

(** The scan of a symbol past the volatility test, when the breaker is
    tripped: the analysis is fetched, the reset applied, the refusal
    logged, and a held symbol is marked at the analysed price. *)
Lemma scan_quiet_market_tripped (t : Z) (symbol : string) (s : TradingSystem.t) :
  (can_trade cfg t (portfolio_value s) (position_manager s)).1 = false ->
  scan_quiet_market cfg execute_trade analyze_stock t symbol s
  = match analyze_stock t symbol with
    | inl e => (inl (Raised e), s)
    | inr analysis =>
        let s1 := with_log DailyLossLimitReached
                    (with_position_manager
                       (reset_daily_metrics t (position_manager s)) s) in
        if holds symbol s1 then
          (inr tt,
           with_position_manager
             (update_position_values {[ symbol := current_price analysis ]}
                (position_manager s1)).2 s1)
        else (inr tt, s1)
    end.
Proof.
  intros Htrip.
  unfold scan_quiet_market, mbind, call, get, log, mret.
  destruct (analyze_stock t symbol) as [e|analysis]; [reflexivity|].
  cbv beta zeta. rewrite Htrip. rewrite can_trade_eq. cbn [snd].
  destruct (holds symbol _); reflexivity.
Qed.

(** With the breaker tripped, the scan of a symbol on that day buys and
    sells nothing. *)
Lemma scan_symbol_frozen (now t : Z) (symbol : string) (s0 s : TradingSystem.t) :
  date_of t = date_of now ->
  frozen now s0 s -> frozen now s0 (scan t symbol s).2.
Proof.
  intros Hday Hs.
  assert (Hquiet : frozen now s0
            (scan_quiet_market cfg execute_trade analyze_stock t symbol s).2).
  { destruct Hs as (Htrip & Hpv & Hrun & Hwatch & Hrec & Hhold).
    assert (Htrip_t : (can_trade cfg t (portfolio_value s) (position_manager s)).1
                      = false).
    { rewrite can_trade_eq in Htrip |- *. cbn [fst] in Htrip |- *.
      rewrite (reset_same_day t now _ Hday). exact Htrip. }
    rewrite (scan_quiet_market_tripped t symbol s Htrip_t).
    destruct (analyze_stock t symbol) as [e|analysis]; cbn [snd].
    { repeat split; assumption. }
    cbv zeta. rewrite (reset_same_day t now _ Hday).
    rewrite can_trade_eq in Htrip. cbn [fst] in Htrip.
    set (pm1 := reset_daily_metrics now (position_manager s)) in *.
    assert (Hpm1 : positions pm1 = positions (position_manager s)
                   /\ recorded pm1 = recorded (position_manager s)
                   /\ date_of now <= last_reset pm1).
    { unfold pm1, reset_daily_metrics.
      destruct (last_reset (position_manager s) <? date_of now) eqn:Hroll;
        cbn [positions recorded last_reset]; repeat split; lia. }
    destruct Hpm1 as (Hpos1 & Hrec1 & Hlast1).
    assert (Hstay : forall pm', daily_pnl pm' = daily_pnl pm1 ->
                      last_reset pm' = last_reset pm1 ->
                      (can_trade cfg now (portfolio_value s) pm').1 = false).
    { intros pm' Hd Hl. rewrite can_trade_eq. cbn [fst].
      rewrite (proj2 (reset_daily_metrics_spec now pm')) by lia.
      rewrite Hd. exact Htrip. }
    rewrite holds_lookup.
    cbn [position_manager with_log with_position_manager].
    destruct (positions pm1 !! symbol) as [p|] eqn:Hp;
      cbn [snd position_manager with_log with_position_manager portfolio_value
           is_trading watched_symbols].
    - split; [apply Hstay; reflexivity|].
      split; [exact Hpv|]. split; [exact Hrun|]. split; [exact Hwatch|].
      split; [cbn [recorded update_position_values snd]; congruence|].
      intros k. rewrite update_position_values_lookup, Hpos1, <- Hhold.
      destruct (positions (position_manager s) !! k) as [q|]; [|reflexivity].
      cbn. unfold remark. destruct (_ !! k); reflexivity.
    - split; [apply Hstay; reflexivity|].
      split; [exact Hpv|]. split; [exact Hrun|]. split; [exact Hwatch|].
      split; [congruence|].
      intros k. rewrite Hpos1. apply Hhold. }
  unfold scan_symbol.
  destruct (india_vix t) as [vix|]; [|exact Hquiet].
  destruct (Qgtb vix 25); [|exact Hquiet].
  exact Hs.
Qed.

Lemma for_each_frozen_scan (now t : Z) (s0 : TradingSystem.t) (symbols : list string) :
  date_of t = date_of now ->
  forall s, frozen now s0 s -> frozen now s0 (for_each symbols (scan t) s).2.
Proof.
  intros Hday. induction symbols as [|symbol rest IH]; intros s Hs; [exact Hs|].
  cbn [for_each]. unfold mbind.
  pose proof (scan_symbol_frozen now t symbol s0 s Hday Hs) as Hstep.
  destruct (scan t symbol s) as [[e|[]] s1]; cbn [snd] in *.
  - exact Hstep.
  - apply IH. exact Hstep.
Qed.

Lemma scan_cycle_returns (t : Z) (s : TradingSystem.t) : (cycle t s).1 = inr tt.
Proof.
  unfold scan_cycle, try_except, mbind, get, log, mret.
  destruct (in_market_hours cfg t); [|reflexivity].
  destruct (for_each _ _ s) as [[e|[]] s1]; reflexivity.
Qed.

Lemma scan_cycle_frozen (now t : Z) (s0 s : TradingSystem.t) :
  date_of t = date_of now ->
  frozen now s0 s -> frozen now s0 (cycle t s).2.
Proof.
  intros Hday Hs.
  unfold scan_cycle, try_except, mbind, get, log, mret.
  destruct (in_market_hours cfg t); [|exact Hs].
  pose proof (for_each_frozen_scan now t s0 (watched_symbols s) Hday s Hs) as Hloop.
  destruct (for_each _ _ s) as [[e|[]] s1]; cbn [snd] in *; exact Hloop.
Qed.

(** X21. Inside the trading loop the daily breaker does latch.  Once
    [can_trade] is false for the system's portfolio value, every further
    pass of the loop on that day returns normally and buys and sells
    nothing: the holdings (entry price, quantity and entry time of every
    symbol) and the recorded trades stay as they were, only marks and log
    lines are added, and [can_trade] is still false afterwards. *)
Theorem trading_loop_breaker_latches (now : Z) (times : list Z)
    (self : TradingSystem.t) :
  (can_trade cfg now (portfolio_value self) (position_manager self)).1 = false ->
  Forall (fun t => date_of t = date_of now) times ->
  let r := loop times self in
  r.1 = inr tt
  /\ (can_trade cfg now (portfolio_value r.2) (position_manager r.2)).1 = false
  /\ portfolio_value r.2 = portfolio_value self
  /\ recorded (position_manager r.2) = recorded (position_manager self)
  /\ forall k : string,
       holding <$> positions (position_manager r.2) !! k
       = holding <$> positions (position_manager self) !! k.
Proof.
  intros Htrip Hdays. cbv zeta.
  assert (Hgen : forall s, frozen now self s ->
                   (loop times s).1 = inr tt /\ frozen now self (loop times s).2).
  { induction Hdays as [|t later Hday _ IH]; intros s Hs.
    { split; [reflexivity | exact Hs]. }
    cbn [trading_loop]. unfold mbind, get, mret.
    destruct (is_trading s) eqn:Hrun;
      [|split; [reflexivity | cbn [snd]; rewrite Hrun; exact Hs]].
    rewrite <- Hrun in Hs.
    pose proof (scan_cycle_returns t s) as Hret.
    pose proof (scan_cycle_frozen now t self s Hday Hs) as Hcyc.
    destruct (cycle t s) as [[e|[]] s1]; cbn [fst snd] in *; [discriminate|].
    apply IH. exact Hcyc. }
  destruct (Hgen self) as (Hret & Hafter & Hpv & _ & _ & Hrec & Hhold).
  { repeat split; try reflexivity. exact Htrip. }
  repeat split; assumption.
Qed.

Local Abbreviation close1 := (close_one execute_trade get_stock_price).
Local Abbreviation closing := (close_loop execute_trade get_stock_price).

(** One pass of the shutdown loop either fails, leaving a log line, or
    closes the symbol at its quote. *)
Lemma close_one_cases (now : Z) (symbol : string) (s : TradingSystem.t) :
  (exists e, close1 now symbol s
             = (inr tt, with_log (FailedToClosePosition symbol e) s))
  \/ (exists (price : Q) (p : Position) (trade : Trader.TradeResult),
        get_stock_price now symbol = inr price
        /\ positions (position_manager s) !! symbol = Some p
        /\ execute_trade now symbol (quantity p) "SELL" = inr trade
        /\ close1 now symbol s
           = (inr tt,
              with_position_manager
                (close_position now symbol price (position_manager s)).2 s)).
Proof.
  unfold close_one, try_except, mbind, call, position_of, log.
  destruct (get_stock_price now symbol) as [e|price]; [left; eexists; reflexivity|].
  destruct (positions (position_manager s) !! symbol) as [p|] eqn:Hp;
    [|left; eexists; reflexivity].
  destruct (execute_trade now symbol (quantity p) "SELL") as [e|trade] eqn:Hsell;
    [left; eexists; reflexivity|].
  right. exists price, p, trade. repeat split. exact Hsell.
Qed.

Lemma close_loop_size_changed (now : Z) (n : nat) (keys : list string)
    (s : TradingSystem.t) :
  size (positions (position_manager s)) <> n ->
  closing now n keys s = (inl changed_size, s).
Proof.
  intros Hne. destruct keys; cbn [close_loop];
    rewrite bool_decide_eq_false_2 by exact Hne; reflexivity.
Qed.

Lemma close_loop_cases (now : Z) (keys : list string) :
  forall s : TradingSystem.t,
    let n := size (positions (position_manager s)) in
    let r := closing now n keys s in
    (r.1 = inr tt /\ position_manager r.2 = position_manager s)
    \/ (r.1 = inl changed_size
        /\ exists (symbol : string) (p : Position) (price : Q),
             symbol ∈ keys
             /\ positions (position_manager s) !! symbol = Some p
             /\ get_stock_price now symbol = inr price
             /\ position_manager r.2
                = (close_position now symbol price (position_manager s)).2).
Proof.
  induction keys as [|symbol rest IH]; intros s; cbv zeta.
  - left. cbn [close_loop]. rewrite bool_decide_eq_true_2 by reflexivity.
    split; reflexivity.
  - cbn [close_loop]. rewrite bool_decide_eq_true_2 by reflexivity.
    unfold mbind.
    destruct (close_one_cases now symbol s)
      as [[e He] | (price & p & trade & Hprice & Hp & _ & Hc)].
    + rewrite He.
      specialize (IH (with_log (FailedToClosePosition symbol e) s)).
      cbv zeta in IH. cbn [position_manager with_log] in IH.
      destruct IH as [[Hret Hpm] | (Hret & k & q & price & Hk & Hq & Hprice & Hpm)].
      * left. split; assumption.
      * right. split; [exact Hret|].
        exists k, q, price. split; [set_solver|]. repeat split; assumption.
    + rewrite Hc.
      rewrite close_loop_size_changed.
      * right. split; [reflexivity|].
        exists symbol, p, price. split; [set_solver|]. repeat split; assumption.
      * cbn [position_manager with_position_manager].
        unfold close_position. rewrite Hp. cbn [snd positions].
        rewrite map_size_delete_Some by (eexists; exact Hp).
        assert (size (positions (position_manager s)) <> 0%nat).
        { intros H0. apply map_size_empty_inv in H0. rewrite H0 in Hp.
          rewrite lookup_empty in Hp. discriminate. }
        lia.
Qed.

(** X22. [close_all_positions] closes at most one position.  It returns
    normally only when it has closed nothing (every attempt failed and
    was logged); as soon as one position has been sold and removed, the
    next step of the loop over the live dictionary raises "dictionary
    changed size during iteration", which nothing catches, and the
    remaining positions stay open. *)
Theorem close_all_positions_closes_at_most_one (now : Z) (keys : list string)
    (self : TradingSystem.t) :
  let r := close_all_positions execute_trade get_stock_price now keys self in
  let pm := position_manager self in
  let pm' := position_manager r.2 in
  (r.1 = inr tt /\ pm' = pm)
  \/ (r.1 = inl changed_size
      /\ exists (symbol : string) (p : Position) (price : Q),
           symbol ∈ keys
           /\ positions pm !! symbol = Some p
           /\ positions pm' = delete symbol (positions pm)
           /\ size (positions pm') = pred (size (positions pm))
           /\ daily_pnl pm'
              = (daily_pnl pm + (price - entry_price p) * inject_Z (quantity p))%Q).
Proof.
  cbv zeta. unfold close_all_positions.
  destruct (close_loop_cases now keys self)
    as [H | (Hret & symbol & p & price & Hk & Hp & _ & Hpm)]; cbv zeta in *.
  - left. exact H.
  - right. split; [exact Hret|]. exists symbol, p, price.
    pose proof Hp as Hheld.
    rewrite Hpm. unfold close_position. rewrite Hp. cbn [snd positions daily_pnl].
    split; [exact Hk|]. split; [reflexivity|]. split; [reflexivity|].
    split; [apply map_size_delete_Some; eexists; exact Hheld | reflexivity].
Qed.

(** X23. A shutdown with orders that go through abandons all positions but
    one: when the first symbol of the dictionary is held, quoted and
    sold, [stop] clears the running flag, closes that position and ends
    in the RuntimeError of the loop; it never logs that the system has
    stopped, and every other position is still open. *)
Theorem stop_abandons_remaining_positions (now : Z) (symbol : string)
    (rest : list string) (p : Position) (price : Q) (trade : Trader.TradeResult)
    (self : TradingSystem.t) :
  is_trading self = true ->
  positions (position_manager self) !! symbol = Some p ->
  get_stock_price now symbol = inr price ->
  execute_trade now symbol (quantity p) "SELL" = inr trade ->
  let r := stop execute_trade get_stock_price now (symbol :: rest) self in
  r.1 = inl changed_size
  /\ is_trading r.2 = false
  /\ logged r.2 = logged self
  /\ positions (position_manager r.2) !! symbol = None
  /\ forall other : string, other <> symbol ->
       positions (position_manager r.2) !! other
       = positions (position_manager self) !! other.
Proof.
  intros Hrun Hp Hprice Hsell. cbv zeta.
  unfold stop, mbind, get. rewrite Hrun.
  unfold close_all_positions. cbn [position_manager with_is_trading].
  cbn [close_loop]. rewrite bool_decide_eq_true_2 by reflexivity.
  unfold mbind.
  assert (Hc : close1 now symbol (with_is_trading false self)
               = (inr tt,
                  with_position_manager
                    (close_position now symbol price (position_manager self)).2
                    (with_is_trading false self))).
  { unfold close_one, try_except, mbind, call, position_of.
    rewrite Hprice. cbn [position_manager with_is_trading].
    rewrite Hp, Hsell. reflexivity. }
  rewrite Hc. rewrite close_loop_size_changed.
  - cbn [fst snd is_trading logged position_manager with_position_manager
         with_is_trading].
    unfold close_position. rewrite Hp. cbn [snd positions].
    split; [reflexivity|]. split; [reflexivity|]. split; [reflexivity|].
    split; [apply lookup_delete_eq|].
    intros other Hne. apply lookup_delete_ne. congruence.
  - cbn [position_manager with_position_manager with_is_trading].
    unfold close_position. rewrite Hp. cbn [snd positions].
    rewrite map_size_delete_Some by (eexists; exact Hp).
    assert (size (positions (position_manager self)) <> 0%nat).
    { intros H0. apply map_size_empty_inv in H0. rewrite H0 in Hp.
      rewrite lookup_empty in Hp. discriminate. }
    lia.
Qed.

End TradingSystemFacts.

(** A neutral signal of passing strength on a system that holds AAA. *)
Lemma process_signals_ignores_weak_or_neutral_witness :
  TradingSystem.process_signals (mkSettings (3 # 7) 100 9 15 5 1 5)
    SystemExamples.venue Examples.noon "AAA"
    (TradingSystem.mkAnalysis SystemExamples.tie_signal 110) (SystemExamples.system 0)
  = (inr tt, SystemExamples.system 0).
Proof.
  apply (process_signals_ignores_weak_or_neutral (mkSettings (3 # 7) 100 9 15 5 1 5)
           SystemExamples.venue).
  right. reflexivity.
Defined.


(** A sell signal for AAA closes AAA and leaves the rest of the system as
    it was; a buy signal for AAA, which is held, changes nothing. *)
Lemma process_signals_touches_one_symbol_witness :
  let sold := TradingSystem.process_signals settings SystemExamples.venue
                Examples.noon "AAA"
                (TradingSystem.mkAnalysis SystemExamples.sell_signal 110)
                (SystemExamples.system 0) in
  sold.1 = inr tt
  /\ TradingSystem.portfolio_value sold.2 = 100000%Q
  /\ PositionManager.positions (TradingSystem.position_manager sold.2) !! "BBB" = None.
Proof.
  cbv zeta.
  destruct (process_signals_touches_one_symbol settings SystemExamples.venue
              Examples.noon "AAA"
              (TradingSystem.mkAnalysis SystemExamples.sell_signal 110)
              (SystemExamples.system 0))
    as (Hret & Hother & _ & _ & _ & Hpv & _).
  split; [exact Hret|]. split; [exact Hpv|].
  rewrite Hother by discriminate. reflexivity.
Defined.

(** After a loss of 1001 two passes of the loop with a buy signal for
    every symbol open nothing. *)
Lemma trading_loop_breaker_latches_witness :
  let r := TradingSystem.trading_loop settings SystemExamples.venue
             (SystemExamples.analyzer SystemExamples.buy_signal) SystemExamples.calm
             [Examples.noon; Examples.noon + 5] (SystemExamples.system (-1001)) in
  r.1 = inr tt
  /\ PositionManager.recorded (TradingSystem.position_manager r.2) = []
  /\ holding <$> PositionManager.positions (TradingSystem.position_manager r.2) !! "BBB"
     = None.
Proof.
  cbv zeta.
  destruct (trading_loop_breaker_latches settings SystemExamples.venue
              (SystemExamples.analyzer SystemExamples.buy_signal) SystemExamples.calm
              Examples.noon [Examples.noon; Examples.noon + 5]
              (SystemExamples.system (-1001)) eq_refl)
    as (Hret & _ & _ & Hrec & Hhold).
  { repeat constructor. }
  split; [exact Hret|]. split; [exact Hrec|].
  rewrite Hhold. reflexivity.
Defined.

(** Stopping a system that holds AAA and BBB, with AAA first: AAA is
    closed, BBB is left open and the call ends in the RuntimeError. *)
Lemma stop_abandons_remaining_positions_witness :
  let self := TradingSystem.mk Examples.stale_ledger true ["AAA"; "BBB"] 100000 [] in
  let r := TradingSystem.stop SystemExamples.venue SystemExamples.quotes
             Examples.noon ["AAA"; "BBB"] self in
  r.1 = inl TradingSystem.changed_size
  /\ PositionManager.positions (TradingSystem.position_manager r.2) !! "AAA" = None
  /\ PositionManager.positions (TradingSystem.position_manager r.2) !! "BBB"
     = PositionManager.positions Examples.stale_ledger !! "BBB".
Proof.
  cbv zeta.
  destruct (stop_abandons_remaining_positions SystemExamples.venue
              SystemExamples.quotes Examples.noon "AAA" ["BBB"]
              (PositionManager.mkPosition 100 10 0 (Some 105%Q) (Some 50%Q) None None)
              110 (Trader.mkTradeResult "success" 110)
              (TradingSystem.mk Examples.stale_ledger true ["AAA"; "BBB"] 100000 [])
              eq_refl eq_refl eq_refl eq_refl)
    as (Hret & _ & _ & Hgone & Hother).
  split; [exact Hret|]. split; [exact Hgone|].
  apply Hother. discriminate.
Defined.

(** ** The trader: validation and execution *)

Section TraderMore.

Import PositionManager Trader.

Variable cfg : Settings.
Variable get_stock_price : string -> result Q.

(** X15. [_validate_trade] never raises and changes nothing but the log.  It
    accepts exactly the BUY orders of positive quantity: a SELL is never
    accepted, whatever the ledger holds, because the lookup of the
    position raises inside the validation and is answered by false. *)
Theorem validate_trade_accepts_buys_only (symbol trade_type : string) (quantity : Z)
    (self : Trader.t) :
  let r := _validate_trade symbol trade_type quantity self in
  (r.1 = inr true <-> trade_type = "BUY" /\ 0 < quantity)
  /\ (r.1 = inr true \/ r.1 = inr false)
  /\ (r.1 = inr true -> r.2 = self)
  /\ position_manager r.2 = position_manager self
  /\ is_active r.2 = is_active self
  /\ portfolio_value r.2 = portfolio_value self
  /\ (trade_type = "SELL" -> 0 < quantity ->
      r = (inr false,
           with_log (TradeValidationFailed (AttributeError "get_position")) self)).
Proof.
  cbv zeta.
  unfold _validate_trade, try_except, mbind, get_position, mraise, log, mret.
  destruct (decide (trade_type = "BUY")) as [->|Hbuy].
  - change (bool_decide ("BUY" = "BUY")) with true.
    change (bool_decide ("BUY" = "SELL")) with false. cbn [negb orb].
    destruct (quantity <=? 0) eqn:Hq; cbn [fst snd position_manager with_log
      is_active portfolio_value];
      [apply Z.leb_le in Hq | apply Z.leb_gt in Hq].
    + split; [split; [discriminate | intros [_ H]; lia]|].
      split; [right; reflexivity|]. split; [discriminate|].
      repeat split. discriminate.
    + split; [split; [intros _; split; [reflexivity | exact Hq] | reflexivity]|].
      split; [left; reflexivity|]. repeat split. discriminate.
  - rewrite (bool_decide_eq_false_2 _ Hbuy).
    destruct (decide (trade_type = "SELL")) as [->|Hsell].
    + change (bool_decide ("SELL" = "SELL")) with true. cbn [negb orb].
      destruct (quantity <=? 0) eqn:Hq; cbn [fst snd position_manager with_log
        is_active portfolio_value];
        [apply Z.leb_le in Hq | apply Z.leb_gt in Hq].
      * split; [split; [discriminate | intros [H _]; discriminate]|].
        split; [right; reflexivity|]. split; [discriminate|].
        repeat split. intros _ H. lia.
      * split; [split; [discriminate | intros [H _]; discriminate]|].
        split; [right; reflexivity|]. split; [discriminate|].
        repeat split.
    + rewrite (bool_decide_eq_false_2 _ Hsell). cbn [negb orb fst snd
        position_manager with_log is_active portfolio_value].
      split; [split; [discriminate | intros [H _]; contradiction]|].
      split; [right; reflexivity|]. split; [discriminate|].
      repeat split. intros H. contradiction.
Qed.

Lemma validate_trade_accepts_buys_only_witness :
  (_validate_trade "AAA" "BUY" 5 Examples.trailing_trader).1 = inr true
  /\ _validate_trade "AAA" "SELL" 10 Examples.trailing_trader
     = (inr false,
        with_log (TradeValidationFailed (AttributeError "get_position"))
          Examples.trailing_trader).
Proof.
  destruct (validate_trade_accepts_buys_only "AAA" "BUY" 5 Examples.trailing_trader)
    as (Hbuy & _).
  destruct (validate_trade_accepts_buys_only "AAA" "SELL" 10 Examples.trailing_trader)
    as (_ & _ & _ & _ & _ & _ & Hsell).
  split; [apply Hbuy; split; [reflexivity | lia] | apply Hsell; [reflexivity | lia]].
Defined.

Lemma validate_trade_shape (symbol trade_type : string) (quantity : Z)
    (self : Trader.t) :
  let r := _validate_trade symbol trade_type quantity self in
  (position_manager r.2 = position_manager self
   /\ is_active r.2 = is_active self
   /\ portfolio_value r.2 = portfolio_value self)
  /\ (r.1 = inr true \/ r.1 = inr false).
Proof.
  cbv zeta.
  unfold _validate_trade, try_except, mbind, get_position, mraise, log, mret.
  destruct (negb _); [split; [repeat split | right; reflexivity]|].
  destruct (quantity <=? 0); [split; [repeat split | right; reflexivity]|].
  destruct (bool_decide (trade_type = "SELL"));
    split; repeat split; (left; reflexivity) || (right; reflexivity).
Qed.

Lemma gate_ledger (now : Z) (trade_value : Q) (self : Trader.t) :
  let r := _check_risk_limits cfg now trade_value self in
  (position_manager r.2 = position_manager self
   \/ position_manager r.2 = reset_daily_metrics now (position_manager self))
  /\ is_active r.2 = is_active self
  /\ portfolio_value r.2 = portfolio_value self.
Proof.
  cbv zeta. rewrite check_risk_limits_eq. cbv zeta. rewrite can_trade_eq.
  cbn [fst snd].
  destruct (Qgtb trade_value _); [split; [left; reflexivity | split; reflexivity]|].
  destruct (Qgtb (daily_pnl _) _);
    (split; [right; reflexivity | split; reflexivity]).
Qed.

(** X16. [Trader.execute_trade] never places an order.  Every call ends in an
    exception, logged and raised again; its outcome does not depend on
    the execution venue, which is never reached because the risk gate
    approves nothing; the open positions and the recorded trades are left
    as they were, and the only change to the ledger is the daily reset. *)
Theorem execute_trade_never_orders
    (venue venue' : string -> Z -> string -> result TradeResult)
    (now : Z) (symbol trade_type : string) (quantity : Z) (self : Trader.t) :
  let r := execute_trade cfg get_stock_price venue now symbol trade_type quantity
             self in
  (exists e : exn, r.1 = inl e
     /\ exists before, logged r.2 = before ++ [TradeExecutionFailed e])
  /\ r = execute_trade cfg get_stock_price venue' now symbol trade_type quantity self
  /\ positions (position_manager r.2) = positions (position_manager self)
  /\ recorded (position_manager r.2) = recorded (position_manager self)
  /\ (position_manager r.2 = position_manager self
      \/ position_manager r.2 = reset_daily_metrics now (position_manager self))
  /\ is_active r.2 = is_active self
  /\ portfolio_value r.2 = portfolio_value self.
Proof.
  cbv zeta.
  assert (Hsame : forall v v',
            execute_trade cfg get_stock_price v now symbol trade_type quantity self
            = execute_trade cfg get_stock_price v' now symbol trade_type quantity self).
  { intros v v'.
    unfold execute_trade, try_except, mbind, get, lift, mraise, log.
    destruct (is_active self); cbn [negb]; [|reflexivity].
    destruct (_validate_trade symbol trade_type quantity self) as [[e|[]] s1];
      cbn [negb]; try reflexivity.
    destruct (get_stock_price symbol) as [e|price]; [reflexivity|].
    pose proof (check_risk_limits_never_approves cfg now (price * inject_Z quantity) s1)
      as Hno.
    destruct (_check_risk_limits cfg now (price * inject_Z quantity) s1)
      as [[e|[]] s2]; cbn [fst negb] in *; try discriminate; reflexivity. }
  assert (Hshape :
    exists (e : exn) (s' : Trader.t) (before : list log_entry),
      execute_trade cfg get_stock_price venue now symbol trade_type quantity self
      = (inl e, s')
      /\ logged s' = before ++ [TradeExecutionFailed e]
      /\ (position_manager s' = position_manager self
          \/ position_manager s' = reset_daily_metrics now (position_manager self))
      /\ is_active s' = is_active self
      /\ portfolio_value s' = portfolio_value self).
  { unfold execute_trade, try_except, mbind, get, lift, mraise, log.
    destruct (is_active self) eqn:Hact; cbn [negb].
    2:{ eexists; eexists; eexists. split; [reflexivity|].
        cbn [logged with_log position_manager is_active portfolio_value].
        split; [reflexivity|]. split; [left; reflexivity|].
        split; [exact Hact | reflexivity]. }
    pose proof (validate_trade_shape symbol trade_type quantity self) as Hval.
    cbv zeta in Hval.
    destruct (_validate_trade symbol trade_type quantity self) as [[e|[]] s1];
      cbn [fst snd negb] in *.
    { destruct Hval as [_ [Habs|Habs]]; discriminate. }
    2:{ destruct Hval as [(Hpm & Hia & Hpv) _].
        eexists; eexists; eexists. split; [reflexivity|].
        cbn [logged with_log position_manager is_active portfolio_value].
        split; [reflexivity|]. split; [left; exact Hpm|].
        split; congruence. }
    destruct Hval as [(Hpm & Hia & Hpv) _].
    destruct (get_stock_price symbol) as [e|price].
    { eexists; eexists; eexists. split; [reflexivity|].
      cbn [logged with_log position_manager is_active portfolio_value].
      split; [reflexivity|]. split; [left; exact Hpm|]. split; congruence. }
    pose proof (check_risk_limits_never_approves cfg now (price * inject_Z quantity) s1)
      as Hno.
    pose proof (gate_ledger now (price * inject_Z quantity) s1) as Hgate.
    cbv zeta in Hgate.
    destruct (_check_risk_limits cfg now (price * inject_Z quantity) s1)
      as [[e|[]] s2]; cbn [fst snd negb] in *; try discriminate.
    destruct Hgate as (Hg & Hia2 & Hpv2).
    eexists; eexists; eexists. split; [reflexivity|].
    cbn [logged with_log position_manager is_active portfolio_value].
    split; [reflexivity|].
    split; [destruct Hg as [Hg|Hg]; rewrite Hg, Hpm; [left|right]; reflexivity|].
    split; congruence. }
  destruct Hshape as (e & s' & before & Hrun & Hlog & Hpm & Hia & Hpv).
  rewrite <- (Hsame venue venue'). rewrite Hrun. cbn [fst snd].
  split; [exists e; split; [reflexivity | exists before; exact Hlog]|].
  split; [reflexivity|].
  assert (Hpos : positions (position_manager s') = positions (position_manager self)
                 /\ recorded (position_manager s') = recorded (position_manager self)).
  { destruct Hpm as [-> | ->]; [split; reflexivity|].
    unfold reset_daily_metrics. destruct (_ <? _); split; reflexivity. }
  destruct Hpos as [Hpos Hrec].
  repeat split; assumption.
Qed.

End TraderMore.

(** ** The rolling mean of the volume *)

Section RollingFacts.

Import Rolling.

Local Open Scope nat_scope.

Lemma cell_sum_bounds (ws : list cell) (lo hi : Q) :
  Forall (fun c => exists v, c = Some v /\ (lo <= v)%Q /\ (v <= hi)%Q) ws ->
  exists s, cell_sum ws = Some s
            /\ (inject_Z (Z.of_nat (length ws)) * lo <= s)%Q
            /\ (s <= inject_Z (Z.of_nat (length ws)) * hi)%Q.
Proof.
  induction 1 as [|c ws (v & -> & Hlo & Hhi) _ (s & Hs & Hslo & Hshi)].
  - exists 0%Q. split; [reflexivity|]. cbn [length Z.of_nat].
    rewrite !Qmult_0_l. split; apply Qle_refl.
  - exists (v + s)%Q. cbn [cell_sum foldr] in *. fold (cell_sum ws). rewrite Hs.
    split; [reflexivity|].
    cbn [length]. rewrite Nat2Z.inj_succ, <- Z.add_1_l, inject_Z_plus.
    rewrite !Qmult_plus_distr_l, !Qmult_1_l.
    split; apply Qplus_le_compat; assumption.
Qed.

Lemma cell_sum_nan (ws : list cell) : None ∈ ws -> cell_sum ws = None.
Proof.
  induction ws as [|c ws IH]; intros Hin; [inversion Hin|].
  cbn [cell_sum foldr]. fold (cell_sum ws).
  apply elem_of_cons in Hin as [<- | Hin]; [reflexivity|].
  rewrite (IH Hin). destruct c; reflexivity.
Qed.

Lemma window_lookup (w : nat) (xs : list cell) (i k : nat) (c : cell) :
  window_at w xs i !! k = Some c -> k < w /\ xs !! (S i - w + k) = Some c.
Proof.
  unfold window_at. intros H. apply lookup_take_Some in H as [H Hk].
  rewrite lookup_drop in H. split; assumption.
Qed.

Lemma window_length (w : nat) (xs : list cell) (i : nat) :
  w <= S i -> i < length xs -> length (window_at w xs i) = w.
Proof.
  intros Hw Hi. unfold window_at. rewrite length_take, length_drop. lia.
Qed.

(** X8. The rolling mean over [w] cells keeps the length of the series; it
    is NaN on the first [w - 1] bars; from then on it lies between any two
    bounds that hold for the [w] cells ending at the bar, and it is NaN as
    soon as one of those cells is NaN. *)
Theorem rolling_mean_window (w : nat) (xs : list cell) (i : nat) :
  0 < w -> i < length xs ->
  length (rolling_mean w xs) = length xs
  /\ (S i < w -> rolling_mean w xs !! i = Some None)
  /\ (w <= S i ->
      forall lo hi : Q,
        (forall j, S i - w <= j <= i ->
           exists v, xs !! j = Some (Some v) /\ (lo <= v)%Q /\ (v <= hi)%Q) ->
        exists m, rolling_mean w xs !! i = Some (Some m)
                  /\ (lo <= m)%Q /\ (m <= hi)%Q)
  /\ (w <= S i ->
      forall j, S i - w <= j <= i -> xs !! j = Some None ->
      rolling_mean w xs !! i = Some None).
Proof.
  intros Hw Hi.
  destruct (lookup_lt_is_Some_2 xs i Hi) as [x Hx].
  assert (Hlook : rolling_mean w xs !! i
                  = Some (if S i <? w then None
                          else match cell_sum (window_at w xs i) with
                               | Some total => Some (total / inject_Z (Z.of_nat w))%Q
                               | None => None
                               end)).
  { unfold rolling_mean. rewrite list_lookup_imap, Hx. reflexivity. }
  split; [apply length_imap|].
  split.
  { intros Hshort. rewrite Hlook.
    apply Nat.ltb_lt in Hshort. rewrite Hshort. reflexivity. }
  split.
  - intros Hfull lo hi Hbounds. rewrite Hlook.
    assert (Hge : (S i <? w) = false) by (apply Nat.ltb_ge; lia).
    rewrite Hge.
    destruct (cell_sum_bounds (window_at w xs i) lo hi) as (s & Hs & Hslo & Hshi).
    { apply Forall_lookup_2. intros k c Hk.
      apply window_lookup in Hk as [Hkw Hk].
      destruct (Hbounds (S i - w + k)) as (v & Hv & Hb); [lia|].
      exists v. split; [congruence | exact Hb]. }
    rewrite (window_length w xs i Hfull Hi) in Hslo, Hshi.
    rewrite Hs. eexists. split; [reflexivity|].
    assert (Hpos : (0 < inject_Z (Z.of_nat w))%Q).
    { change 0%Q with (inject_Z 0). rewrite <- Zlt_Qlt. lia. }
    split.
    + apply Qle_shift_div_l; [exact Hpos|]. rewrite Qmult_comm. exact Hslo.
    + apply Qle_shift_div_r; [exact Hpos|]. rewrite Qmult_comm. exact Hshi.
  - intros Hfull j Hj Hnan. rewrite Hlook.
    assert (Hge : (S i <? w) = false) by (apply Nat.ltb_ge; lia).
    rewrite Hge, cell_sum_nan; [reflexivity|].
    apply list_elem_of_lookup. exists (j - (S i - w)).
    unfold window_at. apply lookup_take_Some. split; [|lia].
    rewrite lookup_drop. replace (S i - w + (j - (S i - w))) with j by lia.
    exact Hnan.
Qed.

(** The volume average of [volumes]: NaN on bar 18, within 100 and 300 on
    bar 19, and exactly within 300 and 300 on bar 20. *)
Lemma rolling_mean_window_witness :
  Volume_SMA RollingExamples.volumes !! 18 = Some None
  /\ (exists m, Volume_SMA RollingExamples.volumes !! 20 = Some (Some m)
                /\ (300 <= m)%Q /\ (m <= 300)%Q).
Proof.
  destruct (rolling_mean_window 20 RollingExamples.volumes 18)
    as (_ & Hwarm & _); [lia | simpl; lia |].
  destruct (rolling_mean_window 20 RollingExamples.volumes 20)
    as (_ & _ & Hmean & _); [lia | simpl; lia |].
  split; [apply Hwarm; lia|].
  apply Hmean; [lia|].
  intros j Hj. exists 300%Q. split; [|split; apply Qle_refl].
  do 21 (destruct j as [|j]; [first [lia | reflexivity]|]). lia.
Defined.

End RollingFacts.

(** ** The ledger over sequences of calls *)

Section LedgerAudit.

Import PositionManager LedgerCalls.

Variable cfg : Settings.

Lemma realized_app (xs ys : list TradeRecord) :
  (realized (xs ++ ys) == realized xs + realized ys)%Q.
Proof.
  induction xs as [|x xs IH]; cbn [app realized foldr].
  - fold (realized ys). ring.
  - fold (realized (xs ++ ys)) (realized xs). rewrite IH. ring.
Qed.

(** One call: the recorded rows only grow, the reset date does not go
    back, and without a reset the realized P&L of the day grows by the
    [pnl] of the rows added. *)
Lemma run_call_audit (self : t) (c : call) :
  exists rows : list TradeRecord,
    recorded (run_call cfg self c) = recorded self ++ rows
    /\ last_reset self <= last_reset (run_call cfg self c)
    /\ ((forall now, clock c = Some now -> date_of now <= last_reset self) ->
        last_reset (run_call cfg self c) = last_reset self
        /\ (daily_pnl (run_call cfg self c) == daily_pnl self + realized rows)%Q).
Proof.
  assert (Hreset : forall now,
            recorded (reset_daily_metrics now self) = recorded self ++ []
            /\ last_reset self <= last_reset (reset_daily_metrics now self)
            /\ (date_of now <= last_reset self ->
                last_reset (reset_daily_metrics now self) = last_reset self
                /\ (daily_pnl (reset_daily_metrics now self)
                    == daily_pnl self + realized [])%Q)).
  { intros now. rewrite app_nil_r. unfold reset_daily_metrics.
    destruct (last_reset self <? date_of now) eqn:Hroll;
      [apply Z.ltb_lt in Hroll | apply Z.ltb_ge in Hroll];
      cbn [recorded last_reset daily_pnl realized foldr].
    - split; [reflexivity|]. split; [lia|]. intros Hday. lia.
    - split; [reflexivity|]. split; [lia|]. intros _. split; [reflexivity | ring]. }
  destruct c as [now | now pv | now symbol price qty | now symbol price | prices];
    cbn [run_call clock].
  - exists []. destruct (Hreset now) as (Hrec & Hmono & Hday).
    split; [exact Hrec|]. split; [exact Hmono|].
    intros Hclock. apply Hday. apply Hclock. reflexivity.
  - exists []. rewrite can_trade_eq. cbn [snd].
    destruct (Hreset now) as (Hrec & Hmono & Hday).
    split; [exact Hrec|]. split; [exact Hmono|].
    intros Hclock. apply Hday. apply Hclock. reflexivity.
  - eexists. unfold add_position. cbn [recorded last_reset daily_pnl].
    split; [reflexivity|]. split; [lia|]. intros _. split; [reflexivity|].
    cbn [realized foldr tr_pnl default]. ring.
  - unfold close_position. destruct (positions self !! symbol) as [p|].
    + exists [mkTradeRecord symbol (entry_price p) (Some price) (quantity p) "SELL"
                (entry_time p) (Some now)
                (Some ((price - entry_price p) * inject_Z (quantity p))%Q)].
      cbv zeta. cbn [snd recorded last_reset daily_pnl].
      split; [reflexivity|]. split; [lia|]. intros _. split; [reflexivity|].
      cbn [realized foldr tr_pnl default]. unfold id. ring.
    + exists []. cbn [snd]. rewrite app_nil_r.
      split; [reflexivity|]. split; [lia|]. intros _. split; [reflexivity|].
      cbn [realized foldr]. ring.
  - exists []. cbn [update_position_values snd recorded last_reset daily_pnl].
    rewrite app_nil_r.
    split; [reflexivity|]. split; [lia|]. intros _. split; [reflexivity|].
    cbn [realized foldr]. ring.
Qed.

(** X25. Over any sequence of calls of the ledger's methods the recorded
    trades are append-only and the reset date never goes back; as long as
    no call triggers the daily reset, the realized P&L of the day moves
    exactly by the sum of the [pnl] fields of the rows recorded in the
    meantime: the ledger and the record sink agree on the day's result. *)
Theorem ledger_agrees_with_records (calls : list call) (self : t) :
  let s' := run_calls cfg self calls in
  exists rows : list TradeRecord,
    recorded s' = recorded self ++ rows
    /\ last_reset self <= last_reset s'
    /\ (Forall (fun c => forall now, clock c = Some now ->
                           date_of now <= last_reset self) calls ->
        last_reset s' = last_reset self
        /\ (daily_pnl s' == daily_pnl self + realized rows)%Q).
Proof.
  cbv zeta. unfold run_calls. revert self.
  induction calls as [|c calls IH]; intros self.
  - exists []. cbn [foldl]. rewrite app_nil_r.
    split; [reflexivity|]. split; [lia|]. intros _. split; [reflexivity|].
    cbn [realized foldr]. ring.
  - cbn [foldl].
    destruct (run_call_audit self c) as (rows1 & Hrec1 & Hmono1 & Hday1).
    destruct (IH (run_call cfg self c)) as (rows2 & Hrec2 & Hmono2 & Hday2).
    exists (rows1 ++ rows2).
    split; [rewrite Hrec2, Hrec1, app_assoc; reflexivity|].
    split; [lia|].
    intros Hall. apply Forall_cons in Hall as [Hc Hrest].
    destruct (Hday1 Hc) as [Hl1 Hp1].
    destruct Hday2 as [Hl2 Hp2].
    { rewrite Hl1. exact Hrest. }
    split; [congruence|].
    rewrite Hp2, Hp1, realized_app. ring.
Qed.

End LedgerAudit.

(** A day on the ledger of [ledger_with_aaa]: a gate check, a second
    position, a mark and two closes; the day's P&L is the sum of the two
    recorded results. *)
Lemma ledger_agrees_with_records_witness :
  let calls :=
    [LedgerCalls.CanTrade Examples.noon 100000;
     LedgerCalls.AddPosition Examples.noon "BBB" 10 1;
     LedgerCalls.UpdatePositionValues Examples.bbb_quote;
     LedgerCalls.ClosePosition Examples.noon "AAA" 110;
     LedgerCalls.ClosePosition Examples.noon "BBB" 12] in
  let s' := LedgerCalls.run_calls settings (Examples.ledger_with_aaa 0) calls in
  exists rows,
    PositionManager.recorded s' = rows
    /\ (PositionManager.daily_pnl s' == LedgerCalls.realized rows)%Q
    /\ (PositionManager.daily_pnl s' == 102)%Q.
Proof.
  cbv zeta.
  destruct (ledger_agrees_with_records settings
              [LedgerCalls.CanTrade Examples.noon 100000;
               LedgerCalls.AddPosition Examples.noon "BBB" 10 1;
               LedgerCalls.UpdatePositionValues Examples.bbb_quote;
               LedgerCalls.ClosePosition Examples.noon "AAA" 110;
               LedgerCalls.ClosePosition Examples.noon "BBB" 12]
              (Examples.ledger_with_aaa 0)) as (rows & Hrec & _ & Hday).
  destruct Hday as [_ Hpnl].
  { repeat constructor; intros now [= <-]; discriminate. }
  exists rows. split; [exact Hrec|].
  split; [rewrite Hpnl; apply Qplus_0_l|].
  vm_compute. reflexivity.
Defined.

(** ** The trading system: a failing analysis *)

Section ScanFailure.

Import PositionManager TradingSystem.

Variable cfg : Settings.
Variable execute_trade : Z -> string -> Z -> string -> result Trader.TradeResult.
Variable analyze_stock : Z -> string -> result Analysis.
Variable india_vix : Z -> cell.

Local Abbreviation scan := (scan_symbol cfg execute_trade analyze_stock india_vix).

Lemma for_each_app {A} (xs ys : list A) (body : A -> M unit) (s : TradingSystem.t) :
  for_each (xs ++ ys) body s
  = match for_each xs body s with
    | (inl e, s1) => (inl e, s1)
    | (inr _, s1) => for_each ys body s1
    end.
Proof.
  revert s. induction xs as [|x xs IH]; intros s; [reflexivity|].
  cbn [app for_each]. unfold mbind.
  destruct (body x s) as [[e|[]] s1]; [reflexivity | apply IH].
Qed.

Lemma scan_symbol_raises (t : Z) (symbol : string) (e : exn) (s : TradingSystem.t) :
  cell_gt (india_vix t) (Some 25%Q) = false ->
  analyze_stock t symbol = inl e ->
  scan t symbol s = (inl (Raised e), s).
Proof.
  intros Hcalm Hfail.
  assert (Hquiet : scan_quiet_market cfg execute_trade analyze_stock t symbol s
                   = (inl (Raised e), s)).
  { unfold scan_quiet_market, mbind, call. rewrite Hfail. reflexivity. }
  unfold scan_symbol. destruct (india_vix t) as [vix|]; [|exact Hquiet].
  cbn [cell_gt] in Hcalm. rewrite Hcalm. exact Hquiet.
Qed.

(** X24. A symbol whose analysis fails starves the symbols after it in
    the watch list.  During market hours, on a calm market, when
    [analyze_stock] raises for a watched symbol, the pass of the loop
    returns normally with an error line as its last log entry, and the
    system is otherwise in the state reached by scanning only the symbols
    listed before the failing one: those listed after it are not scanned
    in that pass. *)
Theorem scan_cycle_stops_at_failing_symbol (t : Z) (pre post : list string)
    (bad : string) (e : exn) (self : TradingSystem.t) :
  in_market_hours cfg t = true ->
  cell_gt (india_vix t) (Some 25%Q) = false ->
  analyze_stock t bad = inl e ->
  watched_symbols self = pre ++ bad :: post ->
  exists raised : pyexn,
    scan_cycle cfg execute_trade analyze_stock india_vix t self
    = (inr tt,
       with_log (ErrorInTradingLoop raised) (for_each pre (scan t) self).2)
    /\ ((for_each pre (scan t) self).1 = inr tt -> raised = Raised e).
Proof.
  intros Hhours Hcalm Hfail Hwatch.
  unfold scan_cycle, try_except, mbind, get, log. rewrite Hhours, Hwatch.
  rewrite for_each_app.
  destruct (for_each pre (scan t) self) as [[e0|[]] s1]; cbn [fst snd].
  - exists e0. split; [reflexivity | discriminate].
  - cbn [for_each]. unfold mbind.
    rewrite (scan_symbol_raises t bad e s1 Hcalm Hfail).
    exists (Raised e). split; reflexivity.
Qed.

End ScanFailure.

(** With AAA unanalysable and first in the watch list, a pass at noon
    does nothing for BBB either. *)
Lemma scan_cycle_stops_at_failing_symbol_witness :
  exists raised,
    TradingSystem.scan_cycle settings SystemExamples.venue
      SystemExamples.patchy_analyzer SystemExamples.calm Examples.noon
      (SystemExamples.system 0)
    = (inr tt,
       TradingSystem.with_log (TradingSystem.ErrorInTradingLoop raised)
         (SystemExamples.system 0)).
Proof.
  destruct (scan_cycle_stops_at_failing_symbol settings SystemExamples.venue
              SystemExamples.patchy_analyzer SystemExamples.calm Examples.noon
              [] ["BBB"] "AAA" (KeyError "Close") (SystemExamples.system 0)
              ltac:(reflexivity) ltac:(reflexivity) ltac:(reflexivity)
              ltac:(reflexivity))
    as (raised & Hrun & _).
  exists raised. exact Hrun.
Defined.
